(** * sempy_labs: job scheduler and notebook import

    A shallow embedding of [sempy_labs/_job_scheduler.py] and of the
    notebook-import path of [sempy_labs/_notebooks.py], with the properties
    of the two modules that the specification states.

    Layout:
    - [Py]           Python values and the builtins the two modules use
                     ([str.lower], [str.split], [str.replace], [repr], [str],
                     [dict.get], truthiness, iteration, [base64.b64encode]);
    - [Pandas]       the few data-frame operations the modules call;
    - [Remote]       the collaborators that live outside the two files
                     (name resolution, [_base_api], [requests.get], ...),
                     the log of calls made to them and the monad threading it;
    - [JobScheduler] [_job_scheduler.py];
    - [Notebooks]    [create_notebook] and [import_notebook_from_web];
    - [Spec]         the shapes the specification talks about (hh:mm times,
                     the configuration per schedule type, plain job
                     instances and their rows);
    - [Fixtures]     a small world in which the functions are run;
    - [Json]         [json.dumps];
    - [Schedules]    [list_item_schedules], [get_item_schedule] and
                     [cancel_item_job_instance];
    - [Definitions], [NotebookDefinition]
                     [get_notebook_definition], [_get_notebook_type] and
                     [update_notebook_definition], with the collaborators
                     they add;
    - [Shapes], [MoreFixtures]
                     closed forms and worlds for these functions;
    - then the facts: builtins, schedules, job instances, notebook import.

    Python [str] values are modelled as [string], that is as sequences of
    bytes; case conversion and [repr] act on the ASCII range and leave other
    bytes alone.  The [@log] decorator (telemetry) is not modelled. *)

From Stdlib Require Import String Ascii List ZArith Bool Lia DecimalString.
Import ListNotations.

Set Warnings "-register-all".

Local Open Scope list_scope.
Local Open Scope string_scope.

(* ================================================================== *)
(** ** Python values and builtins *)
(* ================================================================== *)

Module Py.

(** Which local validation a [ValueError] comes from.  The texts of the
    messages are not compared anywhere; one of them prints a set, whose
    order Python does not fix. *)
Inductive invalid_argument : Type :=
| BadScheduleType                     (* "Type must be one of these values: ..." *)
| BadInterval                         (* "Interval must be a number between 1 and 5270400." *)
| TooManyTimes                        (* "At most 100 elements are allowed in the times list." *)
| AlreadyExists (notebook_name workspace_name : string)
| NoObjectsToConcatenate.             (* pd.concat([]) *)

Inductive exn : Type :=
| ValueError (why : invalid_argument)
| TypeError
| AttributeError
| IndexError
| FabricHTTPException (status : Z)
| CollaboratorError (what : string)   (* raised inside a collaborator *)
| OutsideModel (what : string).       (* library behaviour the model does not cover *)

Inductive result (A : Type) : Type :=
| Ok (a : A)
| Raise (e : exn).
Arguments Ok {A} a.
Arguments Raise {A} e.

Definition rbind {A B} (r : result A) (k : A -> result B) : result B :=
  match r with
  | Ok a => k a
  | Raise e => Raise e
  end.

(** Values as the JSON decoder and the callers produce them. *)
Inductive pyval : Type :=
| PNone
| PBool (b : bool)
| PInt (z : Z)
| PStr (s : string)
| PList (l : list pyval)
| PDict (d : list (string * pyval)).

Definition dict := list (string * pyval).

Definition of_opt_str (o : option string) : pyval :=
  match o with Some s => PStr s | None => PNone end.

Definition of_opt_int (o : option Z) : pyval :=
  match o with Some z => PInt z | None => PNone end.

(** *** Strings *)

Definition squote : ascii := ascii_of_nat 39.
Definition dquote : ascii := ascii_of_nat 34.
Definition backslash : ascii := ascii_of_nat 92.

Definition ascii_lower (c : ascii) : ascii :=
  let n := nat_of_ascii c in
  if (65 <=? n)%nat && (n <=? 90)%nat then ascii_of_nat (n + 32) else c.

(** [s.lower()] *)
Fixpoint str_lower (s : string) : string :=
  match s with
  | EmptyString => EmptyString
  | String c r => String (ascii_lower c) (str_lower r)
  end.

(** [s.split(sep)] for a one-character separator: the pieces between the
    occurrences of [sep], always at least one piece. *)
Fixpoint str_split (sep : ascii) (s : string) : list string :=
  match s with
  | EmptyString => [EmptyString]
  | String c r =>
      if Ascii.eqb c sep then EmptyString :: str_split sep r
      else match str_split sep r with
           | h :: t => String c h :: t
           | [] => [String c EmptyString]
           end
  end.

(** [l[-1]] *)
Definition last_item {A} (l : list A) : result A :=
  match rev l with
  | x :: _ => Ok x
  | [] => Raise IndexError
  end.

(** [s[n:]] *)
Fixpoint str_drop (n : nat) (s : string) : string :=
  match n, s with
  | O, _ => s
  | S k, String _ r => str_drop k r
  | S _, EmptyString => EmptyString
  end.

(** [s.startswith(p)] *)
Definition startswith (p s : string) : bool := String.prefix p s.

(** [s.replace(old, new)] for a non-empty [old]: occurrences are replaced
    from the left and do not overlap.  [skip] counts the characters of an
    occurrence of [old] still to be passed over. *)
Fixpoint replace_from (old new s : string) (skip : nat) : string :=
  match s with
  | EmptyString => EmptyString
  | String c r =>
      match skip with
      | S k => replace_from old new r k
      | O =>
          if String.prefix old s
          then new ++ replace_from old new r (String.length old - 1)
          else String c (replace_from old new r 0)
      end
  end.

Definition str_replace (old new s : string) : string := replace_from old new s 0.

Fixpoint contains_char (c : ascii) (s : string) : bool :=
  match s with
  | EmptyString => false
  | String d r => Ascii.eqb c d || contains_char c r
  end.

Fixpoint join (sep : string) (l : list string) : string :=
  match l with
  | [] => EmptyString
  | [x] => x
  | x :: r => x ++ sep ++ join sep r
  end.

Definition hex_digit (n : nat) : ascii :=
  if (n <? 10)%nat then ascii_of_nat (48 + n) else ascii_of_nat (87 + n).

(** One character of [repr(s)] inside the quotes [q]. *)
Definition repr_char (q c : ascii) : string :=
  let n := nat_of_ascii c in
  if Ascii.eqb c backslash then String backslash (String backslash EmptyString)
  else if Ascii.eqb c q then String backslash (String c EmptyString)
  else if (n =? 10)%nat then String backslash "n"
  else if (n =? 13)%nat then String backslash "r"
  else if (n =? 9)%nat then String backslash "t"
  else if (n <? 32)%nat || (n =? 127)%nat
       then String backslash
              (String "x" (String (hex_digit (n / 16)) (String (hex_digit (n mod 16)) EmptyString)))
  else String c EmptyString.

Fixpoint repr_chars (q : ascii) (s : string) : string :=
  match s with
  | EmptyString => EmptyString
  | String c r => repr_char q c ++ repr_chars q r
  end.

(** [repr(s)] of a string: single quotes, unless the string holds a single
    quote and no double quote. *)
Definition repr_str (s : string) : string :=
  let q := if contains_char squote s && negb (contains_char dquote s)
           then dquote else squote in
  String q (repr_chars q s ++ String q EmptyString).

Definition repr_int (z : Z) : string := NilZero.string_of_int (Z.to_int z).

(** [repr(v)] *)
Fixpoint py_repr (v : pyval) : string :=
  match v with
  | PNone => "None"
  | PBool true => "True"
  | PBool false => "False"
  | PInt z => repr_int z
  | PStr s => repr_str s
  | PList l => "[" ++ join ", " (map py_repr l) ++ "]"
  | PDict d =>
      "{" ++ join ", " (map (fun kv => let '(k, x) := kv in
                                        repr_str k ++ ": " ++ py_repr x) d) ++ "}"
  end.

(** [str(v)] *)
Definition py_str (v : pyval) : string :=
  match v with
  | PStr s => s
  | _ => py_repr v
  end.

(** What an f-string prints for an optional string argument. *)
Definition fmt (o : option string) : string :=
  match o with Some s => s | None => "None" end.

(** *** Dictionaries *)

Fixpoint dict_get (d : dict) (k : string) : option pyval :=
  match d with
  | [] => None
  | (k', x) :: r => if String.eqb k k' then Some x else dict_get r k
  end.

(** [d[k] = x]: replaces the value of an existing key in place, appends a
    new key. *)
Fixpoint dict_set (d : dict) (k : string) (x : pyval) : dict :=
  match d with
  | [] => [(k, x)]
  | (k', y) :: r =>
      if String.eqb k k' then (k', x) :: r else (k', y) :: dict_set r k x
  end.

(** [v.get(k, default)]; only a dict has the method. *)
Definition py_get (v : pyval) (k : string) (default : pyval) : result pyval :=
  match v with
  | PDict d => Ok (match dict_get d k with Some x => x | None => default end)
  | _ => Raise AttributeError
  end.

(** Truth value of [v], as [not v] and [if v] test it. *)
Definition truthy (v : pyval) : bool :=
  match v with
  | PNone => false
  | PBool b => b
  | PInt z => negb (z =? 0)%Z
  | PStr s => negb (String.eqb s EmptyString)
  | PList l => match l with [] => false | _ => true end
  | PDict d => match d with [] => false | _ => true end
  end.

Fixpoint chars (s : string) : list pyval :=
  match s with
  | EmptyString => []
  | String c r => PStr (String c EmptyString) :: chars r
  end.

(** The elements [for x in v] goes through. *)
Definition py_iter (v : pyval) : result (list pyval) :=
  match v with
  | PList l => Ok l
  | PDict d => Ok (map (fun kv => PStr (fst kv)) d)
  | PStr s => Ok (chars s)
  | _ => Raise TypeError
  end.

Definition is_scalar (v : pyval) : bool :=
  match v with
  | PList _ | PDict _ => false
  | _ => true
  end.

(** *** base64 *)

Definition b64_alphabet : string :=
  "ABCDEFGHIJKLMNOPQRSTUVWXYZabcdefghijklmnopqrstuvwxyz0123456789+/".

Definition b64_digit (n : nat) : ascii :=
  match String.get n b64_alphabet with
  | Some c => c
  | None => "="%char
  end.

(** [base64.b64encode(bytes).decode("utf-8")] *)
Fixpoint b64encode (s : string) : string :=
  match s with
  | EmptyString => EmptyString
  | String a EmptyString =>
      let x := nat_of_ascii a in
      String (b64_digit (x / 4))
        (String (b64_digit (x mod 4 * 16)) "==")
  | String a (String b EmptyString) =>
      let x := nat_of_ascii a in
      let y := nat_of_ascii b in
      String (b64_digit (x / 4))
        (String (b64_digit (x mod 4 * 16 + y / 16))
           (String (b64_digit (y mod 16 * 4)) "="))
  | String a (String b (String c r)) =>
      let x := nat_of_ascii a in
      let y := nat_of_ascii b in
      let z := nat_of_ascii c in
      String (b64_digit (x / 4))
        (String (b64_digit (x mod 4 * 16 + y / 16))
           (String (b64_digit (y mod 16 * 4 + z / 64))
              (String (b64_digit (z mod 64)) (b64encode r))))
  end.

End Py.

Import Py.

(* ================================================================== *)
(** ** Data frames *)
(* ================================================================== *)

Module Pandas.

(** A column map: column name and declared type, in order. *)
Definition column_map := list (string * string).

(** A frame: its columns, each with the type declared for it ([None] while
    pandas has only inferred one), and its rows in index order.  A row
    maps column names to cells. *)
Record DataFrame : Type := {
  df_columns : list (string * option string);
  df_rows : list dict
}.

Definition cell (row : dict) (column : string) : option pyval := dict_get row column.

Fixpoint declared (columns : column_map) (c : string) : option string :=
  match columns with
  | [] => None
  | (c', t) :: r => if String.eqb c c' then Some t else declared r c
  end.

(** Modelled from the spec: [_create_dataframe] is not in the two source
    files; the spec gives it as buildTable(columnSchema), the empty table
    with the declared columns and types. *)
Definition _create_dataframe (columns : column_map) : DataFrame :=
  {| df_columns := map (fun ct => (fst ct, Some (snd ct))) columns;
     df_rows := [] |}.

(** Modelled from the spec: [_update_dataframe_datatypes] is not in the two
    source files; the spec gives it as coerceColumnTypes(table, schema), the
    table with its columns typed as the schema declares.  How a cell is
    represented under its type is the helper's own business and is not
    modelled: cells stay as the caller built them.  The source uses the
    helper once for its return value and once for its effect on the frame
    it is given; the model takes the typed frame in both places. *)
Definition _update_dataframe_datatypes (dataframe : DataFrame) (columns : column_map)
  : DataFrame :=
  {| df_columns :=
       map (fun ct => match declared columns (fst ct) with
                      | Some t => (fst ct, Some t)
                      | None => ct
                      end) (df_columns dataframe);
     df_rows := df_rows dataframe |}.

(** [pd.DataFrame(new_data, index=[0])]: one row, one column per key.
    Only the case where every value is a scalar is modelled; pandas treats
    lists and dicts as column data, which the job API does not send for
    these fields. *)
Definition pd_DataFrame (new_data : dict) : result DataFrame :=
  if forallb is_scalar (map snd new_data)
  then Ok {| df_columns := map (fun kv => (fst kv, None)) new_data;
             df_rows := [new_data] |}
  else Raise (OutsideModel "pd.DataFrame with a non-scalar value").

Definition has_column (cs : list (string * option string)) (c : string) : bool :=
  existsb (fun ct => String.eqb c (fst ct)) cs.

Fixpoint union_columns (acc : list (string * option string))
         (cs : list (string * option string)) : list (string * option string) :=
  match cs with
  | [] => acc
  | (c, _) :: r =>
      if has_column acc c then union_columns acc r
      else union_columns (acc ++ [(c, None)])%list r
  end.

(** [pd.concat(dfs, ignore_index=True)]: the rows of the frames one after
    the other, over the union of their columns in order of appearance. *)
Definition pd_concat (dfs : list DataFrame) : result DataFrame :=
  match dfs with
  | [] => Raise (ValueError NoObjectsToConcatenate)
  | _ =>
      Ok {| df_columns := fold_left union_columns (map df_columns dfs) [];
            df_rows := concat (map df_rows dfs) |}
  end.

End Pandas.

Import Pandas.

(* ================================================================== *)
(** ** Collaborators, the log of their calls, and the monad *)
(* ================================================================== *)

Module Remote.

(** The part of an HTTP response the two modules read. *)
Record response : Type := {
  status_code : Z;
  headers_get : string -> option string;     (* response.headers.get *)
  json : result pyval;                       (* response.json() *)
  content : string                           (* response.content *)
}.

(** The arguments [_base_api] is called with; [None] is an argument left
    to the helper's default. *)
Record api_request : Type := {
  request : string;
  method : option string;
  status_codes : option Z;
  payload : option pyval;
  uses_pagination : bool
}.

(** One entry of the log per call that leaves the two modules. *)
Inductive event : Type :=
| Resolve_workspace (workspace : option string)
| Resolve_item (item : string) (type workspace : option string)
| Resolve_item_type (item_id workspace_id : string)
| Base_api (r : api_request)
| Requests_get (url : string)
| List_items (workspace : option string) (type : string)
| Create_item (name type : string) (workspace description : option string)
              (definition : pyval)
| Print_success (item_name item_type workspace_name action : string)
| Print (text : string).

(** An event that changes something on the platform. *)
Definition mutating (e : event) : bool :=
  match e with
  | Create_item _ _ _ _ _ => true
  | Base_api r =>
      match method r with
      | Some m => negb (String.eqb (str_lower m) "get")
      | None => false
      end
  | _ => false
  end.

(** What the collaborators answer.  None of them is in the two source
    files, so each is a field here.  [_base_api] has two fields, one per
    shape of its result: the list of page bodies with
    [uses_pagination=True], the response otherwise. *)
Record World : Type := {
  resolve_workspace_name_and_id : option string -> result (string * string);
  resolve_item_name_and_id :
    string -> option string -> option string -> result (string * string);
  resolve_item_type : string -> string -> result string;
  _base_api : api_request -> result response;
  _base_api_pages : api_request -> result (list pyval);
  requests_get : string -> result response;
  list_items : option string -> string -> result (list string);
            (* the "Display Name" column of fabric.list_items *)
  create_item :
    string -> string -> option string -> option string -> pyval -> result unit;
  green_dot : string;                        (* sempy_labs._icons *)
  red_dot : string;
  info : string
}.

(** Computations that log their calls and may raise. *)
Definition M (A : Type) : Type := list event -> list event * result A.

Definition ret {A} (a : A) : M A := fun tr => (tr, Ok a).

Definition bind {A B} (m : M A) (k : A -> M B) : M B :=
  fun tr =>
    match m tr with
    | (tr', Ok a) => k a tr'
    | (tr', Raise e) => (tr', Raise e)
    end.

Definition raise {A} (e : exn) : M A := fun tr => (tr, Raise e).

(** A step that stays inside the module. *)
Definition lift {A} (r : result A) : M A := fun tr => (tr, r).

(** A call to a collaborator: logged, whatever it answers. *)
Definition call {A} (e : event) (r : result A) : M A :=
  fun tr => ((tr ++ [e])%list, r).

Definition run {A} (m : M A) : list event * result A := m [].

End Remote.

Import Remote.

Declare Scope py_scope.
Delimit Scope py_scope with py.

Notation "x <- m ;; k" := (bind m (fun x => k))
  (at level 100, m at next level, right associativity) : py_scope.
Notation "' p <- m ;; k" := (bind m (fun x => match x with p => k end))
  (at level 100, p pattern, m at next level, right associativity) : py_scope.
Notation "'do' x <- r ; k" := (rbind r (fun x => k))
  (at level 100, x name, r at next level, k at level 100, right associativity) : py_scope.

Local Open Scope py_scope.

(* ================================================================== *)
(** ** [_job_scheduler.py] *)
(* ================================================================== *)

Module JobScheduler.

Section WithWorld.

Variable W : World.

(** [schedule_config_type.lower()]; the argument defaults to [None], which
    has no such method. *)
Definition lower_of (schedule_config_type : option string) : result string :=
  match schedule_config_type with
  | Some s => Ok (str_lower s)
  | None => Raise AttributeError
  end.

(** The [match] of the payload builder: one branch per configuration
    type, and no branch for any other string. *)
Definition __create_item_schedule_payload
    (enabled : bool)
    (start_date_time end_date_time local_time_zone_id schedule_config_type : option string)
    (interval : option Z) (weekdays : option string) (times : pyval)
  : result pyval :=
  let configuration : dict :=
    [ ("startDateTime", of_opt_str start_date_time);
      ("endDateTime", of_opt_str end_date_time);
      ("localTimeZoneId", of_opt_str local_time_zone_id);
      ("type", of_opt_str schedule_config_type) ] in
  do t <- lower_of schedule_config_type;
  let configuration :=
    if String.eqb t "cron" then
      dict_set configuration "interval" (of_opt_int interval)
    else if String.eqb t "daily" then
      dict_set configuration "times" (PStr (py_str times))
    else if String.eqb t "weekly" then
      dict_set (dict_set configuration "times" times) "weekdays" (of_opt_str weekdays)
    else configuration in
  Ok (PDict [ ("enabled", PBool enabled); ("configuration", PDict configuration) ]).

Definition valid_types : list string := ["cron"; "daily"; "weekly"].

Definition str_in (s : string) (l : list string) : bool := existsb (String.eqb s) l.

(** [interval < n] and [interval > n]: an order comparison of [None] with
    an int raises [TypeError]. *)
Definition py_lt (interval : option Z) (n : Z) : result bool :=
  match interval with
  | Some i => Ok (i <? n)%Z
  | None => Raise TypeError
  end.

Definition py_gt (interval : option Z) (n : Z) : result bool :=
  match interval with
  | Some i => Ok (n <? i)%Z
  | None => Raise TypeError
  end.

Definition is_not_none {A} (o : option A) : bool :=
  match o with Some _ => true | None => false end.

(** [interval is not None and interval < 1 or interval > 5270400]: [and]
    binds tighter than [or], so this is
    [(interval is not None and interval < 1) or (interval > 5270400)]. *)
Definition interval_test (interval : option Z) : result bool :=
  do left <- (if is_not_none interval then py_lt interval 1 else Ok false);
  if left then Ok true else py_gt interval 5270400.

(** [len(str(times).split('.')) > 100] *)
Definition times_test (times : pyval) : bool :=
  (100 <? List.length (str_split "."%char (py_str times)))%nat.

(** The three checks that open [create_item_schedule] (lines 408-414) and
    [update_item_schedule] (lines 495-501), the same text in both. *)
Definition validate (schedule_config_type : option string) (interval : option Z)
    (times : pyval) : result unit :=
  do t <- lower_of schedule_config_type;
  if negb (str_in t valid_types) then Raise (ValueError BadScheduleType) else
  do bad <- interval_test interval;
  if (bad : bool) then Raise (ValueError BadInterval) else
  if times_test times then Raise (ValueError TooManyTimes) else
  Ok tt.

(** [response.headers.get("Location").split("/")[-1]] *)
Definition location_id (r : response) : result string :=
  match headers_get r "Location" with
  | Some h => last_item (str_split "/"%char h)
  | None => Raise AttributeError
  end.

Definition job_instance_columns : column_map :=
  [ ("Job Instance Id", "string");
    ("Item Name", "string");
    ("Item Id", "string");
    ("Item Type", "string");
    ("Job Type", "string");
    ("Invoke Type", "string");
    ("Status", "string");
    ("Root Activity Id", "string");
    ("Start Time UTC", "datetime");
    ("End Time UTC", "string");
    ("Error Message", "string") ].

(** The row dictionary built from one job-instance object [v]; the same
    text in [list_item_job_instances] (lines 121-134) and in
    [get_item_job_instance] (lines 579-592). *)
Definition new_data (item_name : string) (item_type : pyval) (v : pyval) : result dict :=
  do fail <- py_get v "failureReason" (PDict []);
  do id <- py_get v "id" PNone;
  do itemId <- py_get v "itemId" PNone;
  do jobType <- py_get v "jobType" PNone;
  do invokeType <- py_get v "invokeType" PNone;
  do status <- py_get v "status" PNone;
  do rootActivityId <- py_get v "rootActivityId" PNone;
  do startTimeUtc <- py_get v "startTimeUtc" PNone;
  do endTimeUtc <- py_get v "endTimeUtc" PNone;
  do message <- (match fail with
                 | PNone => Ok (PStr EmptyString)
                 | _ => py_get fail "message" PNone
                 end);
  Ok [ ("Job Instance Id", id);
       ("Item Name", PStr item_name);
       ("Item Id", itemId);
       ("Item Type", item_type);
       ("Job Type", jobType);
       ("Invoke Type", invokeType);
       ("Status", status);
       ("Root Activity Id", rootActivityId);
       ("Start Time UTC", startTimeUtc);
       ("End Time UTC", endTimeUtc);
       ("Error Message", message) ].

(** [pd.DataFrame(new_data, index=[0])] for one job-instance object. *)
Definition instance_frame (item_name : string) (item_type : pyval) (v : pyval)
  : result DataFrame :=
  do row <- new_data item_name item_type v;
  pd_DataFrame row.

(** The inner loop, [for v in ...: dfs.append(...)]. *)
Fixpoint frames_of_values (item_name : string) (item_type : pyval) (vs : list pyval)
  : result (list DataFrame) :=
  match vs with
  | [] => Ok []
  | v :: vs' =>
      do f <- instance_frame item_name item_type v;
      do fs <- frames_of_values item_name item_type vs';
      Ok (f :: fs)
  end.

(** The outer loop, [for r in responses: for v in r.get("value", [])]. *)
Fixpoint frames_of_pages (item_name : string) (item_type : pyval) (responses : list pyval)
  : result (list DataFrame) :=
  match responses with
  | [] => Ok []
  | r :: rest =>
      do value <- py_get r "value" (PList []);
      do vs <- py_iter value;
      do fs <- frames_of_values item_name item_type vs;
      do more <- frames_of_pages item_name item_type rest;
      Ok (fs ++ more)%list
  end.

(** [list_item_job_instances] from the pages on (lines 115-142). *)
Definition job_instances_table (df : DataFrame) (item_name item_type : string)
    (responses : list pyval) : result DataFrame :=
  do first <- (match responses with
               | r :: _ => Ok r
               | [] => Raise IndexError
               end);
  do value <- py_get first "value" PNone;
  if negb (truthy value) then Ok df else
  do dfs <- frames_of_pages item_name (PStr item_type) responses;
  do df <- (match dfs with
            | [] => Ok df
            | _ => pd_concat dfs
            end);
  Ok (_update_dataframe_datatypes df job_instance_columns).

Definition instances_request (workspace_id item_id : string) : api_request :=
  {| request := "v1/workspaces/" ++ workspace_id ++ "/items/" ++ item_id ++ "/jobs/instances";
     method := None; status_codes := None; payload := None;
     uses_pagination := true |}.

Definition list_item_job_instances (item : string) (item_type workspace : option string)
  : M DataFrame :=
  ' (workspace_name, workspace_id) <-
      call (Resolve_workspace workspace) (resolve_workspace_name_and_id W workspace) ;;
  ' (item_name, item_id) <-
      call (Resolve_item item item_type workspace)
           (resolve_item_name_and_id W item item_type workspace) ;;
  item_type <- (match item_type with
                | None => call (Resolve_item_type item_id workspace_id)
                               (resolve_item_type W item_id workspace_id)
                | Some t => ret t
                end) ;;
  let df := _create_dataframe job_instance_columns in
  let req := instances_request workspace_id item_id in
  responses <- call (Base_api req) (_base_api_pages W req) ;;
  lift (job_instances_table df item_name item_type responses).

Definition run_request (workspace_id item_id : string) (job_type : option string)
  : api_request :=
  {| request := "v1/workspaces/" ++ workspace_id ++ "/items/" ++ item_id
                ++ "/jobs/instances?jobType=" ++ fmt job_type;
     method := Some "post"; status_codes := Some 202%Z; payload := None;
     uses_pagination := false |}.

Definition run_on_demand_item_job (item : string) (item_type job_type workspace : option string)
  : M string :=
  ' (workspace_name, workspace_id) <-
      call (Resolve_workspace workspace) (resolve_workspace_name_and_id W workspace) ;;
  ' (item_name, item_id) <-
      call (Resolve_item item item_type workspace)
           (resolve_item_name_and_id W item item_type workspace) ;;
  item_type <- (match item_type with
                | None => call (Resolve_item_type item_id workspace_id)
                               (resolve_item_type W item_id workspace_id)
                | Some t => ret t
                end) ;;
  let req := run_request workspace_id item_id job_type in
  response <- call (Base_api req) (_base_api W req) ;;
  _ <- call (Print (green_dot W ++ " The '" ++ item_name ++ "' " ++ str_lower item_type
                    ++ " has been executed."))
            (Ok tt) ;;
  lift (location_id response).

Definition create_request (workspace_id item_id : string) (job_type : option string)
    (payload : pyval) : api_request :=
  {| request := "v1/workspaces/" ++ workspace_id ++ "/items/" ++ item_id
                ++ "/jobs/" ++ fmt job_type ++ "/schedules";
     method := Some "post"; status_codes := Some 201%Z; payload := Some payload;
     uses_pagination := false |}.

Definition create_item_schedule (item : string) (item_type job_type workspace : option string)
    (start_date_time end_date_time local_time_zone_id schedule_config_type : option string)
    (enabled : bool) (interval : option Z) (weekdays : option string) (times : pyval)
  : M string :=
  _ <- lift (validate schedule_config_type interval times) ;;
  payload <- lift (__create_item_schedule_payload enabled start_date_time end_date_time
                     local_time_zone_id schedule_config_type interval weekdays times) ;;
  ' (workspace_name, workspace_id) <-
      call (Resolve_workspace workspace) (resolve_workspace_name_and_id W workspace) ;;
  ' (item_name, item_id) <-
      call (Resolve_item item item_type workspace)
           (resolve_item_name_and_id W item item_type workspace) ;;
  let req := create_request workspace_id item_id job_type payload in
  response <- call (Base_api req) (_base_api W req) ;;
  _ <- call (Print_success item_name "schedule" workspace_name "created") (Ok tt) ;;
  lift (location_id response).

Definition update_request (workspace_id item_id : string) (job_type : option string)
    (schedule_id : string) (payload : pyval) : api_request :=
  {| request := "v1/workspaces/" ++ workspace_id ++ "/items/" ++ item_id
                ++ "/jobs/" ++ fmt job_type ++ "/schedules/" ++ schedule_id;
     method := Some "patch"; status_codes := Some 200%Z; payload := Some payload;
     uses_pagination := false |}.

Definition update_item_schedule (item schedule_id : string)
    (item_type job_type workspace : option string)
    (start_date_time end_date_time local_time_zone_id schedule_config_type : option string)
    (enabled : bool) (interval : option Z) (weekdays : option string) (times : pyval)
  : M unit :=
  _ <- lift (validate schedule_config_type interval times) ;;
  payload <- lift (__create_item_schedule_payload enabled start_date_time end_date_time
                     local_time_zone_id schedule_config_type interval weekdays times) ;;
  ' (workspace_name, workspace_id) <-
      call (Resolve_workspace workspace) (resolve_workspace_name_and_id W workspace) ;;
  ' (item_name, item_id) <-
      call (Resolve_item item item_type workspace)
           (resolve_item_name_and_id W item item_type workspace) ;;
  let req := update_request workspace_id item_id job_type schedule_id payload in
  _ <- call (Base_api req) (_base_api W req) ;;
  call (Print (green_dot W ++ " The '" ++ item_name ++ "' schedule in workspace "
               ++ workspace_name ++ " has been updated."))
       (Ok tt).

Definition instance_request (workspace_id item_id job_instance_id : string) : api_request :=
  {| request := "v1/workspaces/" ++ workspace_id ++ "/items/" ++ item_id
                ++ "/jobs/instances/" ++ job_instance_id;
     method := None; status_codes := None; payload := None;
     uses_pagination := false |}.

Definition get_item_job_instance (item job_instance_id : string)
    (item_type workspace : option string) : M DataFrame :=
  ' (workspace_name, workspace_id) <-
      call (Resolve_workspace workspace) (resolve_workspace_name_and_id W workspace) ;;
  ' (item_name, item_id) <-
      call (Resolve_item item item_type workspace)
           (resolve_item_name_and_id W item item_type workspace) ;;
  let df := _create_dataframe job_instance_columns in
  let req := instance_request workspace_id item_id job_instance_id in
  response <- call (Base_api req) (_base_api W req) ;;
  v <- lift (json response) ;;
  row <- lift (instance_frame item_name (of_opt_str item_type) v) ;;
  df <- lift (pd_concat [df; row]) ;;
  ret (_update_dataframe_datatypes df job_instance_columns).

End WithWorld.

End JobScheduler.

(* ================================================================== *)
(** ** [_notebooks.py]: creating a notebook, importing one from the web *)
(* ================================================================== *)

Module Notebooks.

Section WithWorld.

Variable W : World.

Definition _notebook_prefix : string := "notebook-content.".

(** [create_notebook]; [notebook_content] is a byte string. *)
Definition create_notebook (name notebook_content type : string)
    (description workspace format : option string) : M unit :=
  let notebook_payload := b64encode notebook_content in
  let definition_payload : dict :=
    [ ("parts",
       PList [ PDict [ ("path", PStr (_notebook_prefix ++ type));
                       ("payload", PStr notebook_payload);
                       ("payloadType", PStr "InlineBase64") ] ]) ] in
  let definition_payload :=
    match format with
    | Some f => if String.eqb f "ipynb"
                then dict_set definition_payload "format" (PStr "ipynb")
                else definition_payload
    | None => definition_payload
    end in
  call (Create_item name "Notebook" workspace description (PDict definition_payload))
       (create_item W name "Notebook" workspace description (PDict definition_payload)).

(** The rewriting of a GitHub link into the link of the raw file. *)
Definition raw_url (url : string) : string :=
  let starting_text := "https://github.com/" in
  let starting_text_len := String.length starting_text in
  if startswith starting_text url
  then str_replace "/blob/" "/"
         ("https://raw.githubusercontent.com/" ++ str_drop starting_text_len url)
  else url.

Definition import_notebook_from_web (notebook_name url : string)
    (description workspace : option string) (overwrite : bool) : M unit :=
  ' (workspace_name, workspace_id) <-
      call (Resolve_workspace workspace) (resolve_workspace_name_and_id W workspace) ;;
  let url := raw_url url in
  response <- call (Requests_get url) (requests_get W url) ;;
  if negb (status_code response =? 200)%Z
  then raise (FabricHTTPException (status_code response)) else
  dfI <- call (List_items workspace "Notebook") (list_items W workspace "Notebook") ;;
  let dfI_filt := filter (String.eqb notebook_name) dfI in
  if (List.length dfI_filt =? 0)%nat then
    create_notebook notebook_name (content response) "py" description
                    (Some workspace_id) (Some "ipynb")
  else if (0 <? List.length dfI_filt)%nat && overwrite then
    call (Print (info W ++ " Overwrite of notebooks is currently not supported.")) (Ok tt)
  else
    raise (ValueError (AlreadyExists notebook_name workspace_name)).

End WithWorld.

End Notebooks.

Import JobScheduler Notebooks.

(* ================================================================== *)
(** ** The specification's words, for comparison with the code *)
(* ================================================================== *)

Module Spec.

Definition is_digit (c : ascii) : bool :=
  let n := nat_of_ascii c in (48 <=? n)%nat && (n <=? 57)%nat.

(** A time of day in hh:mm format: two digits, a colon, two digits. *)
Definition hhmm (s : string) : bool :=
  match s with
  | String a (String b (String c (String d (String e EmptyString)))) =>
      is_digit a && is_digit b && Ascii.eqb c ":"%char && is_digit d && is_digit e
  | _ => false
  end.

(** The configuration object the specification lists for each type: the
    base fields, then [interval] for Cron, [times] as text for Daily,
    [times] and [weekdays] for Weekly. *)
Definition spec_configuration (variant : string)
    (start_date_time end_date_time local_time_zone_id : option string)
    (type : string) (interval : option Z) (weekdays : option string) (times : pyval)
  : dict :=
  let base :=
    [ ("startDateTime", of_opt_str start_date_time);
      ("endDateTime", of_opt_str end_date_time);
      ("localTimeZoneId", of_opt_str local_time_zone_id);
      ("type", PStr type) ] in
  if String.eqb variant "cron" then
    (base ++ [ ("interval", of_opt_int interval) ])%list
  else if String.eqb variant "daily" then
    (base ++ [ ("times", PStr (py_str times)) ])%list
  else
    (base ++ [ ("times", times); ("weekdays", of_opt_str weekdays) ])%list.

(** The value array of a page body, if it has one. *)
Definition value_of (page : pyval) : option pyval :=
  match page with
  | PDict d => dict_get d "value"
  | _ => None
  end.

(** The job instances a page lists. *)
Definition instances_of (page : pyval) : list pyval :=
  match value_of page with
  | Some (PList l) => l
  | _ => []
  end.

(** [d.get(k)] *)
Definition field (d : dict) (k : string) : pyval :=
  match dict_get d k with Some x => x | None => PNone end.

Definition instance_fields : list string :=
  [ "id"; "itemId"; "jobType"; "invokeType"; "status"; "rootActivityId";
    "startTimeUtc"; "endTimeUtc" ].

(** A job instance as the job API documents it: an object whose fields
    are scalars and whose [failureReason] is absent, null, or an object
    with a scalar [message]. *)
Definition plain_instance (v : pyval) : bool :=
  match v with
  | PDict d =>
      forallb (fun k => is_scalar (field d k)) instance_fields
      && match dict_get d "failureReason" with
         | None | Some PNone => true
         | Some (PDict f) => is_scalar (field f "message")
         | Some _ => false
         end
  | _ => false
  end.

(** A page of such instances; the value array may be missing. *)
Definition plain_page (page : pyval) : bool :=
  match page with
  | PDict d =>
      match dict_get d "value" with
      | None => true
      | Some (PList l) => forallb plain_instance l
      | Some _ => false
      end
  | _ => false
  end.

(** The "Error Message" cell in closed form: empty for a null
    [failureReason], the message of a [failureReason] object, and the
    message looked up in the empty default object, that is [None], when
    the field is absent. *)
Definition error_message (d : dict) : pyval :=
  match dict_get d "failureReason" with
  | Some PNone => PStr EmptyString
  | Some (PDict f) => field f "message"
  | _ => PNone
  end.

(** The row of a plain instance in closed form. *)
Definition instance_row (item_name : string) (item_type : pyval) (v : pyval) : dict :=
  match v with
  | PDict d =>
      [ ("Job Instance Id", field d "id");
        ("Item Name", PStr item_name);
        ("Item Id", field d "itemId");
        ("Item Type", item_type);
        ("Job Type", field d "jobType");
        ("Invoke Type", field d "invokeType");
        ("Status", field d "status");
        ("Root Activity Id", field d "rootActivityId");
        ("Start Time UTC", field d "startTimeUtc");
        ("End Time UTC", field d "endTimeUtc");
        ("Error Message", error_message d) ]
  | _ => []
  end.

(** The one-row frame of a plain instance. *)
Definition one_row (item_name : string) (item_type : pyval) (v : pyval) : DataFrame :=
  {| df_columns := map (fun kv => (fst kv, None)) (instance_row item_name item_type v);
     df_rows := [instance_row item_name item_type v] |}.

(** The declared columns of the job-instance table, as a frame carries
    them. *)
Definition typed_columns : list (string * option string) :=
  [ ("Job Instance Id", Some "string");
    ("Item Name", Some "string");
    ("Item Id", Some "string");
    ("Item Type", Some "string");
    ("Job Type", Some "string");
    ("Invoke Type", Some "string");
    ("Status", Some "string");
    ("Root Activity Id", Some "string");
    ("Start Time UTC", Some "datetime");
    ("End Time UTC", Some "string");
    ("Error Message", Some "string") ].

(** The same columns before any type is declared for them. *)
Definition untyped_columns : list (string * option string) :=
  map (fun ct => (fst ct, None)) typed_columns.

(** The collaborators answer a listing of the instances of [item]: the
    names resolve, and the paginated request yields [responses]. *)
Definition list_answers (W : World) (item : string) (item_type workspace : option string)
    (wn wid iname iid ity : string) (responses : list pyval) : Prop :=
  resolve_workspace_name_and_id W workspace = Ok (wn, wid)
  /\ resolve_item_name_and_id W item item_type workspace = Ok (iname, iid)
  /\ match item_type with
     | Some t => ity = t
     | None => resolve_item_type W iid wid = Ok ity
     end
  /\ _base_api_pages W (instances_request wid iid) = Ok responses.

(** The collaborators answer the request for one job instance with the
    JSON body [body]. *)
Definition get_answers (W : World) (item job_instance_id : string)
    (item_type workspace : option string) (wn wid iname iid : string) (body : pyval) : Prop :=
  resolve_workspace_name_and_id W workspace = Ok (wn, wid)
  /\ resolve_item_name_and_id W item item_type workspace = Ok (iname, iid)
  /\ exists resp,
       _base_api W (instance_request wid iid job_instance_id) = Ok resp
       /\ json resp = Ok body.

(** The calls that look an item's type up in the catalog. *)
Definition is_type_resolution (e : event) : bool :=
  match e with
  | Resolve_item_type _ _ => true
  | _ => false
  end.

End Spec.

Import Spec.

(* ================================================================== *)
(** ** Fixtures: a small world to run the functions in *)
(* ================================================================== *)

Module Fixtures.

Definition answer (location : option string) (body : pyval) : response :=
  {| status_code := 200;
     headers_get := fun k => if String.eqb k "Location" then location else None;
     json := Ok body;
     content := "{}" |}.

(** A workspace "Sales" in which every item resolves to itself, the job
    API answers [pages] (paginated) or [resp], and the notebooks listed
    are [names]. *)
Definition world (pages : list pyval) (resp : response) (names : list string) : World :=
  {| resolve_workspace_name_and_id := fun _ => Ok ("Sales", "ws-1");
     resolve_item_name_and_id := fun item _ _ => Ok (item, "it-1");
     resolve_item_type := fun _ _ => Ok "Notebook";
     _base_api := fun _ => Ok resp;
     _base_api_pages := fun _ => Ok pages;
     requests_get := fun _ => Ok resp;
     list_items := fun _ _ => Ok names;
     create_item := fun _ _ _ _ _ => Ok tt;
     green_dot := "(ok)";
     red_dot := "(error)";
     info := "(i)" |}.

Definition created : response :=
  answer (Some "https://api.fabric.microsoft.com/v1/workspaces/ws-1/items/it-1/jobs/instances/abc-123")
         PNone.

(** A job instance that failed, one whose [failureReason] is null, and one
    that has no [failureReason] at all. *)
Definition failed_instance : pyval :=
  PDict [ ("id", PStr "j1"); ("itemId", PStr "it-1"); ("jobType", PStr "RunNotebook");
          ("status", PStr "Failed");
          ("failureReason", PDict [ ("errorCode", PStr "E1"); ("message", PStr "boom") ]) ].

Definition null_reason_instance : pyval :=
  PDict [ ("id", PStr "j2"); ("itemId", PStr "it-1"); ("status", PStr "Completed");
          ("failureReason", PNone) ].

Definition no_reason_instance : pyval :=
  PDict [ ("id", PStr "j3"); ("itemId", PStr "it-1"); ("status", PStr "Completed") ].

Definition page (instances : list pyval) : pyval :=
  PDict [ ("value", PList instances) ].

Definition many_times (n : nat) : pyval := PList (repeat (PStr "00:00") n).

(** The row of [no_reason_instance] for the item "nb". *)
Definition no_reason_row (item_type : pyval) : dict :=
  [ ("Job Instance Id", PStr "j3"); ("Item Name", PStr "nb"); ("Item Id", PStr "it-1");
    ("Item Type", item_type); ("Job Type", PNone); ("Invoke Type", PNone);
    ("Status", PStr "Completed"); ("Root Activity Id", PNone);
    ("Start Time UTC", PNone); ("End Time UTC", PNone); ("Error Message", PNone) ].

End Fixtures.

(* ================================================================== *)
(** ** [json.dumps] *)
(* ================================================================== *)

Module Json.

(** One character of a JSON string, as [json.dumps] writes it with its
    default [ensure_ascii=True].  Characters beyond the ASCII range are
    written as escapes of their code points, which a byte string does not
    give: they are outside the model. *)
Definition json_char (c : ascii) : result string :=
  let n := nat_of_ascii c in
  if Ascii.eqb c dquote then Ok (String backslash (String dquote EmptyString))
  else if Ascii.eqb c backslash then Ok (String backslash (String backslash EmptyString))
  else if (n =? 10)%nat then Ok (String backslash "n")
  else if (n =? 13)%nat then Ok (String backslash "r")
  else if (n =? 9)%nat then Ok (String backslash "t")
  else if (n =? 8)%nat then Ok (String backslash "b")
  else if (n =? 12)%nat then Ok (String backslash "f")
  else if (n <? 32)%nat || (n =? 127)%nat
       then Ok (String backslash
                  (String "u" (String "0" (String "0"
                     (String (hex_digit (n / 16))
                        (String (hex_digit (n mod 16)) EmptyString))))))
  else if (n <? 127)%nat then Ok (String c EmptyString)
  else Raise (OutsideModel "json.dumps of a non-ASCII character").

Fixpoint json_chars (s : string) : result string :=
  match s with
  | EmptyString => Ok EmptyString
  | String c r =>
      do a <- json_char c;
      do b <- json_chars r;
      Ok (a ++ b)
  end.

Definition json_str (s : string) : result string :=
  do body <- json_chars s;
  Ok (String dquote (body ++ String dquote EmptyString)).

(** [json.dumps(v)] with the default separators. *)
Fixpoint json_dumps (v : pyval) : result string :=
  match v with
  | PNone => Ok "null"
  | PBool true => Ok "true"
  | PBool false => Ok "false"
  | PInt z => Ok (repr_int z)
  | PStr s => json_str s
  | PList l =>
      do items <- (fix items (l : list pyval) : result (list string) :=
                     match l with
                     | [] => Ok []
                     | x :: r =>
                         do a <- json_dumps x;
                         do b <- items r;
                         Ok (a :: b)
                     end) l;
      Ok ("[" ++ join ", " items ++ "]")
  | PDict d =>
      do items <- (fix items (d : list (string * pyval)) : result (list string) :=
                     match d with
                     | [] => Ok []
                     | (k, x) :: r =>
                         do a <- json_str k;
                         do b <- json_dumps x;
                         do c <- items r;
                         Ok ((a ++ ": " ++ b) :: c)
                     end) d;
      Ok ("{" ++ join ", " items ++ "}")
  end.

End Json.

Import Json.

(* ================================================================== *)
(** ** [_job_scheduler.py]: schedules listed and fetched, cancellation *)
(* ================================================================== *)

Module Schedules.

Section WithWorld.

Variable W : World.

Definition job_schedule_columns : column_map :=
  [ ("Job Schedule Id", "string");
    ("Enabled", "bool");
    ("Created Date Time", "datetime");
    ("Start Date Time", "datetime");
    ("End Date Time", "string");
    ("Local Time Zone Id", "string");
    ("Type", "string");
    ("Interval", "int_fillna");
    ("Weekdays", "string");
    ("Times", "string");
    ("Owner Id", "string");
    ("Owner Type", "string") ].

(** The row dictionary built from one schedule object [v]; the same text
    in [list_item_schedules] (lines 202-217) and in [get_item_schedule]
    (lines 333-348). *)
Definition schedule_new_data (v : pyval) : result dict :=
  do config <- py_get v "configuration" (PDict []);
  do own <- py_get v "owner" (PDict []);
  do id <- py_get v "id" PNone;
  do enabled <- py_get v "enabled" PNone;
  do createdDateTime <- py_get v "createdDateTime" PNone;
  do startDateTime <- py_get config "startDateTime" PNone;
  do endDateTime <- py_get config "endDateTime" PNone;
  do localTimeZoneId <- py_get config "localTimeZoneId" PNone;
  do type <- py_get config "type" PNone;
  do interval <- py_get config "interval" PNone;
  do weekdays <- py_get config "weekdays" PNone;
  do times <- py_get config "times" PNone;
  do times_text <- json_dumps times;
  do owner_id <- py_get own "id" PNone;
  do owner_type <- py_get own "type" PNone;
  Ok [ ("Job Schedule Id", id);
       ("Enabled", enabled);
       ("Created Date Time", createdDateTime);
       ("Start Date Time", startDateTime);
       ("End Date Time", endDateTime);
       ("Local Time Zone Id", localTimeZoneId);
       ("Type", type);
       ("Interval", interval);
       ("Weekdays", weekdays);
       ("Times", PStr times_text);
       ("Owner Id", owner_id);
       ("Owner Type", owner_type) ].

(** [df = pd.concat([df, pd.DataFrame(new_data, index=[0])], ignore_index=True)] *)
Definition append_schedule (df : DataFrame) (v : pyval) : result DataFrame :=
  do row <- schedule_new_data v;
  do frame <- pd_DataFrame row;
  pd_concat [df; frame].

(** The loop of [list_item_schedules]. *)
Fixpoint append_schedules (df : DataFrame) (vs : list pyval) : result DataFrame :=
  match vs with
  | [] => Ok df
  | v :: rest =>
      do df <- append_schedule df v;
      append_schedules df rest
  end.

Definition schedules_request (workspace_id item_id : string) (job_type : option string)
  : api_request :=
  {| request := "v1/workspaces/" ++ workspace_id ++ "/items/" ++ item_id
                ++ "/jobs/" ++ fmt job_type ++ "/schedules";
     method := None; status_codes := None; payload := None;
     uses_pagination := false |}.

Definition list_item_schedules (item : string) (item_type job_type workspace : option string)
  : M DataFrame :=
  ' (workspace_name, workspace_id) <-
      call (Resolve_workspace workspace) (resolve_workspace_name_and_id W workspace) ;;
  ' (item_name, item_id) <-
      call (Resolve_item item item_type workspace)
           (resolve_item_name_and_id W item item_type workspace) ;;
  let df := _create_dataframe job_schedule_columns in
  let req := schedules_request workspace_id item_id job_type in
  response <- call (Base_api req) (_base_api W req) ;;
  body <- lift (json response) ;;
  value <- lift (py_get body "value" (PList [])) ;;
  vs <- lift (py_iter value) ;;
  df <- lift (append_schedules df vs) ;;
  ret (_update_dataframe_datatypes df job_schedule_columns).

Definition schedule_request (workspace_id item_id : string) (job_type : option string)
    (schedule_id : string) : api_request :=
  {| request := "v1/workspaces/" ++ workspace_id ++ "/items/" ++ item_id
                ++ "/jobs/" ++ fmt job_type ++ "/schedules/" ++ schedule_id;
     method := None; status_codes := None; payload := None;
     uses_pagination := false |}.

Definition get_item_schedule (item schedule_id : string)
    (item_type job_type workspace : option string) : M DataFrame :=
  ' (workspace_name, workspace_id) <-
      call (Resolve_workspace workspace) (resolve_workspace_name_and_id W workspace) ;;
  ' (item_name, item_id) <-
      call (Resolve_item item item_type workspace)
           (resolve_item_name_and_id W item item_type workspace) ;;
  let df := _create_dataframe job_schedule_columns in
  let req := schedule_request workspace_id item_id job_type schedule_id in
  response <- call (Base_api req) (_base_api W req) ;;
  v <- lift (json response) ;;
  df <- lift (append_schedule df v) ;;
  ret (_update_dataframe_datatypes df job_schedule_columns).

Definition cancel_request (workspace_id item_id job_instance_id : string) : api_request :=
  {| request := "v1/workspaces/" ++ workspace_id ++ "/items/" ++ item_id
                ++ "/jobs/instances/" ++ job_instance_id ++ "/cancel";
     method := Some "post"; status_codes := Some 202%Z; payload := None;
     uses_pagination := false |}.

Definition cancel_item_job_instance (item job_instance_id : string)
    (item_type workspace : option string) : M unit :=
  ' (workspace_name, workspace_id) <-
      call (Resolve_workspace workspace) (resolve_workspace_name_and_id W workspace) ;;
  ' (item_name, item_id) <-
      call (Resolve_item item item_type workspace)
           (resolve_item_name_and_id W item item_type workspace) ;;
  let req := cancel_request workspace_id item_id job_instance_id in
  _ <- call (Base_api req) (_base_api W req) ;;
  call (Print (green_dot W ++ " The '" ++ item_name ++ "' job instance has been cancelled."))
       (Ok tt).

End WithWorld.

End Schedules.

Import Schedules.

(* ================================================================== *)
(** ** [_notebooks.py]: reading and updating a notebook definition *)
(* ================================================================== *)

Module Definitions.

(** *** Builtins the definition functions add *)

(** [s.rfind(c)] for a one-character [c]; [None] stands for -1. *)
Fixpoint rfind (c : ascii) (s : string) : option nat :=
  match s with
  | EmptyString => None
  | String d r =>
      match rfind c r with
      | Some i => Some (S i)
      | None => if Ascii.eqb d c then Some 0%nat else None
      end
  end.

(** [s[:n]] *)
Fixpoint str_take (n : nat) (s : string) : string :=
  match n, s with
  | O, _ => EmptyString
  | S k, String c r => String c (str_take k r)
  | S _, EmptyString => EmptyString
  end.

(** Whether some character of [s] at an index in [from, to) is not a
    period: the loop of [splitext] over the leading periods of the file
    name. *)
Definition has_name_before (from to : nat) (s : string) : bool :=
  existsb (fun c => negb (Ascii.eqb c "."%char))
          (list_ascii_of_string (str_take (to - from) (str_drop from s))).

(** [os.path.splitext(p)] (posixpath): the extension starts at the last
    period of the last path component, leading periods of the component
    not counting. *)
Definition splitext (p : string) : string * string :=
  let file_start := match rfind "/"%char p with Some i => S i | None => 0%nat end in
  match rfind "."%char p with
  | Some dot =>
      if (file_start <=? dot)%nat && has_name_before file_start dot p
      then (str_take dot p, str_drop dot p)
      else (p, EmptyString)
  | None => (p, EmptyString)
  end.

Definition b64_pad : ascii := "="%char.

Fixpoint index_from (c : ascii) (s : string) (i : nat) : option nat :=
  match s with
  | EmptyString => None
  | String d r => if Ascii.eqb c d then Some i else index_from c r (S i)
  end.

Definition b64_index (c : ascii) : option nat := index_from c b64_alphabet 0.

Definition byte_of (n : nat) : ascii := ascii_of_nat n.

(** Modelled from the spec: [_decode_b64] is not in the two source files;
    the spec gives it as the decoding of a base64 payload into text
    ([aGVsbG8=] decodes to [hello]).  Only padded input over the base64
    alphabet is modelled. *)
Fixpoint _decode_b64 (s : string) : result string :=
  match s with
  | EmptyString => Ok EmptyString
  | String a (String b (String c (String d r))) =>
      match b64_index a, b64_index b with
      | Some x, Some y =>
          if Ascii.eqb c b64_pad then
            if Ascii.eqb d b64_pad && String.eqb r EmptyString
            then Ok (String (byte_of (x * 4 + y / 16)) EmptyString)
            else Raise (OutsideModel "base64 input that is not padded text")
          else
            match b64_index c with
            | Some z =>
                if Ascii.eqb d b64_pad then
                  if String.eqb r EmptyString
                  then Ok (String (byte_of (x * 4 + y / 16))
                             (String (byte_of (y mod 16 * 16 + z / 4)) EmptyString))
                  else Raise (OutsideModel "base64 input that is not padded text")
                else
                  match b64_index d with
                  | Some w =>
                      do rest <- _decode_b64 r;
                      Ok (String (byte_of (x * 4 + y / 16))
                            (String (byte_of (y mod 16 * 16 + z / 4))
                               (String (byte_of (z mod 4 * 64 + w)) rest)))
                  | None => Raise (OutsideModel "base64 input that is not padded text")
                  end
            | None => Raise (OutsideModel "base64 input that is not padded text")
            end
      | _, _ => Raise (OutsideModel "base64 input that is not padded text")
      end
  | _ => Raise (OutsideModel "base64 input that is not padded text")
  end.

(** *** Collaborators *)

(** The arguments of the two [_base_api] calls that await a long-running
    operation; both pass [status_codes=None]. *)
Record lro_request : Type := {
  lro_url : string;
  lro_method : string;
  lro_payload : option pyval;
  lro_return_json : bool;
  lro_return_status_code : bool
}.

Inductive nb_event : Type :=
| Shared (e : event)                          (* a call [Remote] already lists *)
| Resolve_workspace_id (workspace : option string)
| Resolve_item_id (item type : string) (workspace : option string)
| Base_api_lro (r : lro_request).

(** The collaborators of [Remote] and the three more these functions
    call. *)
Record DefinitionWorld : Type := {
  shared : World;
  resolve_workspace_id : option string -> result string;
  resolve_item_id : string -> string -> option string -> result string;
  _base_api_lro : lro_request -> result pyval
}.

Definition N (A : Type) : Type := list nb_event -> list nb_event * result A.

Definition nret {A} (a : A) : N A := fun tr => (tr, Ok a).

Definition nbind {A B} (m : N A) (k : A -> N B) : N B :=
  fun tr =>
    match m tr with
    | (tr', Ok a) => k a tr'
    | (tr', Raise e) => (tr', Raise e)
    end.

Definition nlift {A} (r : result A) : N A := fun tr => (tr, r).

Definition ncall {A} (e : nb_event) (r : result A) : N A :=
  fun tr => ((tr ++ [e])%list, r).

Definition nrun {A} (m : N A) : list nb_event * result A := m [].

End Definitions.

Import Definitions.

Declare Scope nb_scope.
Delimit Scope nb_scope with nb.

Notation "x <- m ;; k" := (nbind m (fun x => k))
  (at level 100, m at next level, right associativity) : nb_scope.
Notation "' p <- m ;; k" := (nbind m (fun x => match x with p => k end))
  (at level 100, p pattern, m at next level, right associativity) : nb_scope.

Module NotebookDefinition.

Section WithWorld.

Variable W : DefinitionWorld.

(** [x[key]]: a dict is looked up, anything else the JSON decoder yields
    cannot be subscripted with a string.  A missing key raises [KeyError],
    for which [exn] has no constructor: the model stops there. *)
Definition py_item (x : pyval) (key : string) : result pyval :=
  match x with
  | PDict d =>
      match dict_get d key with
      | Some y => Ok y
      | None => Raise (OutsideModel "KeyError")
      end
  | _ => Raise TypeError
  end.

Definition part_path (part : pyval) : option string :=
  match part with
  | PDict d => match dict_get d "path" with Some (PStr p) => Some p | _ => None end
  | _ => None
  end.

Definition part_row (part : pyval) : dict :=
  match part with PDict d => d | _ => [] end.

(** [pd.json_normalize(parts)]: one row per part.  Only a non-empty list
    of objects that each have a string [path] is modelled. *)
Definition pd_json_normalize (parts : pyval) : result DataFrame :=
  match parts with
  | PList (p :: ps) =>
      if forallb (fun x => match part_path x with Some _ => true | None => false end)
                 (p :: ps)
      then Ok {| df_columns :=
                   fold_left union_columns
                     (map (fun x => map (fun kv => (fst kv, None)) (part_row x)) (p :: ps)) [];
                 df_rows := map part_row (p :: ps) |}
      else Raise (OutsideModel "pd.json_normalize of parts without a string path")
  | _ => Raise (OutsideModel "pd.json_normalize of something else than a list of parts")
  end.

Definition _get_notebook_definition_base (notebook_name : string)
    (workspace format : option string) : N DataFrame :=
  (workspace_id <- ncall (Resolve_workspace_id workspace) (resolve_workspace_id W workspace) ;;
   item_id <- ncall (Resolve_item_id notebook_name "Notebook" workspace)
                    (resolve_item_id W notebook_name "Notebook" workspace) ;;
   let url := "v1/workspaces/" ++ workspace_id ++ "/notebooks/" ++ item_id ++ "/getDefinition" in
   let url := match format with
              | Some f => if String.eqb f "ipynb" then url ++ "?format=" ++ f else url
              | None => url
              end in
   let req := {| lro_url := url; lro_method := "post"; lro_payload := None;
                 lro_return_json := true; lro_return_status_code := false |} in
   result <- ncall (Base_api_lro req) (_base_api_lro W req) ;;
   definition <- nlift (py_item result "definition") ;;
   parts <- nlift (py_item definition "parts") ;;
   nlift (pd_json_normalize parts))%nb.

(** [df_items[df_items["path"].str.startswith(_notebook_prefix)]] *)
Definition content_rows (df_items : DataFrame) : list dict :=
  filter (fun row => match dict_get row "path" with
                     | Some (PStr p) => startswith _notebook_prefix p
                     | _ => false
                     end) (df_rows df_items).

(** [...["path"].iloc[0]] *)
Definition first_path (rows : list dict) : result string :=
  match rows with
  | row :: _ =>
      match dict_get row "path" with
      | Some (PStr p) => Ok p
      | _ => Raise (OutsideModel "a path that is not a string")
      end
  | [] => Raise IndexError
  end.

(** [df_items_filt["payload"].iloc[0]]: the column is looked up first
    (a frame none of whose parts has a payload has no such column, and
    the lookup raises [KeyError]), then the first row.  Only a string
    payload is modelled. *)
Definition first_payload (df_items : DataFrame) (rows : list dict) : result string :=
  if has_column (df_columns df_items) "payload" then
    match rows with
    | row :: _ =>
        match dict_get row "payload" with
        | Some (PStr p) => Ok p
        | _ => Raise (OutsideModel "a payload that is not a string")
        end
    | [] => Raise IndexError
    end
  else Raise (OutsideModel "KeyError").

Definition _get_notebook_type (notebook_name : string) (workspace : option string)
  : N string :=
  (df_items <- _get_notebook_definition_base notebook_name workspace None ;;
   file_path <- nlift (first_path (content_rows df_items)) ;;
   let file_extension := snd (splitext file_path) in
   nret (str_drop 1 file_extension))%nb.

Definition get_notebook_definition (notebook_name : string) (workspace : option string)
    (decode : bool) (format : option string) : N string :=
  (df_items <- _get_notebook_definition_base notebook_name workspace format ;;
   let df_items_filt := content_rows df_items in
   payload <- nlift (first_payload df_items df_items_filt) ;;
   if decode then nlift (_decode_b64 payload) else nret payload)%nb.

Definition update_notebook_definition (name notebook_content : string)
    (workspace format : option string) : N unit :=
  (' (workspace_name, workspace_id) <-
       ncall (Shared (Resolve_workspace workspace))
             (resolve_workspace_name_and_id (shared W) workspace) ;;
   let notebook_payload := b64encode notebook_content in
   item_id <- ncall (Resolve_item_id name "Notebook" workspace)
                    (resolve_item_id W name "Notebook" workspace) ;;
   type <- _get_notebook_type name workspace ;;
   let definition : dict :=
     [ ("parts",
        PList [ PDict [ ("path", PStr (_notebook_prefix ++ type));
                        ("payload", PStr notebook_payload);
                        ("payloadType", PStr "InlineBase64") ] ]) ] in
   let definition :=
     match format with
     | Some f => if String.eqb f "ipynb"
                 then dict_set definition "format" (PStr "ipynb")
                 else definition
     | None => definition
     end in
   let payload := PDict [ ("definition", PDict definition) ] in
   let req := {| lro_url := "v1/workspaces/" ++ workspace_id ++ "/notebooks/" ++ item_id
                            ++ "/updateDefinition";
                 lro_method := "post"; lro_payload := Some payload;
                 lro_return_json := false; lro_return_status_code := true |} in
   _ <- ncall (Base_api_lro req) (_base_api_lro W req) ;;
   ncall (Shared (Print (green_dot (shared W) ++ " The '" ++ name
                         ++ "' notebook was updated within the '" ++ workspace_name
                         ++ "' workspace.")))
         (Ok tt))%nb.

End WithWorld.

End NotebookDefinition.

Import NotebookDefinition.

(* ================================================================== *)
(** ** Shapes used to state the behaviour of the remaining functions *)
(* ================================================================== *)

Module Shapes.

Fixpoint count_char (c : ascii) (s : string) : nat :=
  match s with
  | EmptyString => 0
  | String d r => (if Ascii.eqb d c then 1 else 0) + count_char c r
  end.

(** Whether [old] occurs in [x ++ rest] at a position inside [x]. *)
Fixpoint occurs_within (old x rest : string) : bool :=
  match x with
  | EmptyString => false
  | String c x' => String.prefix old (x ++ rest) || occurs_within old x' rest
  end.

(** A success notice. *)
Definition is_notice (e : event) : bool :=
  match e with
  | Print_success _ _ _ _ | Print _ => true
  | _ => false
  end.

(** The creation of an item. *)
Definition is_creation (e : event) : bool :=
  match e with
  | Create_item _ _ _ _ _ => true
  | _ => false
  end.

(** A request to the job API. *)
Definition is_request (e : event) : bool :=
  match e with
  | Base_api _ => true
  | _ => false
  end.

(** The object under key [k] of a schedule: [{}] when the key is absent,
    nothing when the value is not an object. *)
Definition sub_object (d : dict) (k : string) : option dict :=
  match dict_get d k with
  | None => Some []
  | Some (PDict c) => Some c
  | Some _ => None
  end.

Definition json_ok (v : pyval) : bool :=
  match json_dumps v with Ok _ => true | Raise _ => false end.

Definition json_text (v : pyval) : string :=
  match json_dumps v with Ok t => t | Raise _ => EmptyString end.

(** A schedule whose cells are scalars: [configuration] and [owner] are
    absent or objects, their fields and the top-level fields are scalars,
    and [times] is any value [json.dumps] is modelled on. *)
Definition plain_schedule (v : pyval) : bool :=
  match v with
  | PDict d =>
      match sub_object d "configuration", sub_object d "owner" with
      | Some c, Some o =>
          forallb (fun k => is_scalar (field d k)) ["id"; "enabled"; "createdDateTime"]
          && forallb (fun k => is_scalar (field c k))
               ["startDateTime"; "endDateTime"; "localTimeZoneId"; "type"; "interval";
                "weekdays"]
          && json_ok (field c "times")
          && forallb (fun k => is_scalar (field o k)) ["id"; "type"]
      | _, _ => false
      end
  | _ => false
  end.

(** The row of a plain schedule in closed form. *)
Definition schedule_row (v : pyval) : dict :=
  match v with
  | PDict d =>
      match sub_object d "configuration", sub_object d "owner" with
      | Some c, Some o =>
          [ ("Job Schedule Id", field d "id");
            ("Enabled", field d "enabled");
            ("Created Date Time", field d "createdDateTime");
            ("Start Date Time", field c "startDateTime");
            ("End Date Time", field c "endDateTime");
            ("Local Time Zone Id", field c "localTimeZoneId");
            ("Type", field c "type");
            ("Interval", field c "interval");
            ("Weekdays", field c "weekdays");
            ("Times", PStr (json_text (field c "times")));
            ("Owner Id", field o "id");
            ("Owner Type", field o "type") ]
      | _, _ => []
      end
  | _ => []
  end.

Definition typed_schedule_columns : list (string * option string) :=
  [ ("Job Schedule Id", Some "string");
    ("Enabled", Some "bool");
    ("Created Date Time", Some "datetime");
    ("Start Date Time", Some "datetime");
    ("End Date Time", Some "string");
    ("Local Time Zone Id", Some "string");
    ("Type", Some "string");
    ("Interval", Some "int_fillna");
    ("Weekdays", Some "string");
    ("Times", Some "string");
    ("Owner Id", Some "string");
    ("Owner Type", Some "string") ].

Definition untyped_schedule_columns : list (string * option string) :=
  map (fun ct => (fst ct, None)) typed_schedule_columns.

(** The columns a schedule table has at any point of the loop. *)
Definition schedule_columns (df : DataFrame) : Prop :=
  df_columns df = typed_schedule_columns \/ df_columns df = untyped_schedule_columns.

(** The names resolve. *)
Definition names_resolve (W : World) (item : string) (item_type workspace : option string)
    (wn wid iname iid : string) : Prop :=
  resolve_workspace_name_and_id W workspace = Ok (wn, wid)
  /\ resolve_item_name_and_id W item item_type workspace = Ok (iname, iid).

(** The identifiers of a notebook resolve and the request for its
    definition is answered with [parts]. *)
Definition definition_answers (W : DefinitionWorld) (notebook_name : string)
    (workspace : option string) (url : string) (wid iid : string) (parts : pyval) : Prop :=
  resolve_workspace_id W workspace = Ok wid
  /\ resolve_item_id W notebook_name "Notebook" workspace = Ok iid
  /\ _base_api_lro W {| lro_url := url; lro_method := "post"; lro_payload := None;
                        lro_return_json := true; lro_return_status_code := false |}
     = Ok (PDict [ ("definition", PDict [ ("parts", parts) ]) ]).

Definition definition_url (wid iid : string) : string :=
  "v1/workspaces/" ++ wid ++ "/notebooks/" ++ iid ++ "/getDefinition".

(** The part [create_notebook] and [update_notebook_definition] send. *)
Definition content_part (type payload : string) : pyval :=
  PDict [ ("path", PStr ("notebook-content." ++ type));
          ("payload", PStr payload);
          ("payloadType", PStr "InlineBase64") ].

(** A part that is not the notebook's content: it has a string path that
    does not start with the content prefix. *)
Definition other_part (part : pyval) : bool :=
  match part_path part with
  | Some p => negb (startswith _notebook_prefix p)
  | None => false
  end.

(** A part with a string path; a part with a payload. *)
Definition has_path (part : pyval) : bool :=
  match part_path part with Some _ => true | None => false end.

Definition has_payload (part : pyval) : bool :=
  match part with
  | PDict d => match dict_get d "payload" with Some _ => true | None => false end
  | _ => false
  end.

(** The request for a notebook's definition, in the format asked for. *)
Definition definition_request (wid iid : string) (format : option string) : lro_request :=
  {| lro_url := match format with
                | Some f => if String.eqb f "ipynb"
                            then definition_url wid iid ++ "?format=" ++ f
                            else definition_url wid iid
                | None => definition_url wid iid
                end;
     lro_method := "post"; lro_payload := None;
     lro_return_json := true; lro_return_status_code := false |}.


End Shapes.

Import Shapes.

Module MoreFixtures.

Definition refused : response :=
  {| status_code := 404;
     headers_get := fun _ => None;
     json := Ok PNone;
     content := "Not Found" |}.

Definition daily_schedule : pyval :=
  PDict [ ("id", PStr "s1"); ("enabled", PBool true);
          ("configuration",
           PDict [ ("type", PStr "Daily"); ("times", PList [PStr "10:00"; PStr "18:30"]) ]);
          ("owner", PDict [ ("id", PStr "u1"); ("type", PStr "User") ]) ].

Definition bare_schedule : pyval := PDict [ ("id", PStr "s2") ].

Definition ownerless_schedule : pyval := PDict [ ("id", PStr "s3"); ("owner", PNone) ].

(** A world in which the job API refuses every request. *)
Definition refusing_world : World :=
  {| resolve_workspace_name_and_id := fun _ => Ok ("Sales", "ws-1");
     resolve_item_name_and_id := fun item _ _ => Ok (item, "it-1");
     resolve_item_type := fun _ _ => Ok "Notebook";
     _base_api := fun _ => Raise (FabricHTTPException 403);
     _base_api_pages := fun _ => Raise (FabricHTTPException 403);
     requests_get := fun _ => Ok refused;
     list_items := fun _ _ => Ok [];
     create_item := fun _ _ _ _ _ => Raise (FabricHTTPException 403);
     green_dot := "(ok)";
     red_dot := "(error)";
     info := "(i)" |}.

(** A world in which the job API answers [listing] to the request for
    the schedules of the item and [single] to any other request. *)
Definition routed_world (listing single : response) : World :=
  {| resolve_workspace_name_and_id := fun _ => Ok ("Sales", "ws-1");
     resolve_item_name_and_id := fun item _ _ => Ok (item, "it-1");
     resolve_item_type := fun _ _ => Ok "Notebook";
     _base_api := fun r =>
       if String.eqb (request r) "v1/workspaces/ws-1/items/it-1/jobs/RunNotebook/schedules"
       then Ok listing else Ok single;
     _base_api_pages := fun _ => Ok [];
     requests_get := fun _ => Ok single;
     list_items := fun _ _ => Ok [];
     create_item := fun _ _ _ _ _ => Ok tt;
     green_dot := "(ok)";
     red_dot := "(error)";
     info := "(i)" |}.

Definition platform_part : pyval :=
  PDict [ ("path", PStr ".platform"); ("payload", PStr "e30=");
          ("payloadType", PStr "InlineBase64") ].

(** A notebook service that answers every definition request with
    [parts]. *)
Definition definition_world (parts : pyval) : DefinitionWorld :=
  {| shared := Fixtures.world [] Fixtures.created [];
     resolve_workspace_id := fun _ => Ok "ws-1";
     resolve_item_id := fun _ _ _ => Ok "nb-1";
     _base_api_lro := fun _ => Ok (PDict [ ("definition", PDict [ ("parts", parts) ]) ]) |}.

End MoreFixtures.

Import MoreFixtures.

Import Fixtures.

(* ================================================================== *)
(** ** Facts about the builtins *)
(* ================================================================== *)

Example lower_mixed : str_lower "WeEkLy" = "weekly".
Proof. reflexivity. Qed.

Example split_periods :
  str_split "."%char "a.b..c" = ["a"; "b"; EmptyString; "c"].
Proof. reflexivity. Qed.

Example split_without_separator : str_split "/"%char "abc" = ["abc"].
Proof. reflexivity. Qed.

Example replace_blob :
  str_replace "/blob/" "/" "x/blob/main/blob/y" = "x/main/y".
Proof. reflexivity. Qed.

Example str_of_times :
  py_str (PList [PStr "10:00"; PStr "18:30"]) = "['10:00', '18:30']".
Proof. reflexivity. Qed.

Example repr_with_quote :
  py_repr (PStr (String squote "a")) = String dquote (String squote (String "a" (String dquote EmptyString))).
Proof. reflexivity. Qed.

Example str_of_none : py_str PNone = "None".
Proof. reflexivity. Qed.

Example b64_hello : b64encode "hello" = "aGVsbG8=".
Proof. reflexivity. Qed.

Example raw_url_of_blob :
  raw_url "https://github.com/org/repo/blob/main/nb.ipynb"
  = "https://raw.githubusercontent.com/org/repo/main/nb.ipynb".
Proof. reflexivity. Qed.

Section StringFacts.

Lemma str_split_cons (sep : ascii) (s : string) :
  exists h t, str_split sep s = h :: t.
Proof.
  induction s as [|c r [h [t IH]]]; simpl.
  - now exists EmptyString, [].
  - destruct (Ascii.eqb c sep); rewrite IH; eauto.
Qed.

(** Splitting a string that has a separator right after [pre]. *)
Lemma str_split_app (sep : ascii) (pre post : string) :
  str_split sep (pre ++ String sep post)
  = (str_split sep pre ++ str_split sep post)%list.
Proof.
  induction pre as [|c r IH]; simpl.
  - now rewrite Ascii.eqb_refl.
  - rewrite IH. destruct (Ascii.eqb c sep); [reflexivity|].
    destruct (str_split_cons sep r) as [h [t ->]]. reflexivity.
Qed.

Lemma str_split_without (sep : ascii) (s : string) :
  contains_char sep s = false -> str_split sep s = [s].
Proof.
  induction s as [|c r IH]; simpl; [reflexivity|].
  intros H. apply orb_false_elim in H. destruct H as [Hc Hr].
  rewrite Ascii.eqb_sym, Hc, (IH Hr). reflexivity.
Qed.

Lemma last_item_app {A} (l : list A) (x : A) : last_item (l ++ [x])%list = Ok x.
Proof. unfold last_item. now rewrite rev_app_distr. Qed.

(** The last piece of a split is what follows the last separator. *)
Lemma last_segment (pre seg : string) :
  contains_char "/"%char seg = false ->
  last_item (str_split "/"%char (pre ++ "/" ++ seg)) = Ok seg.
Proof.
  intros H. change ("/" ++ seg) with (String "/"%char seg).
  rewrite str_split_app, (str_split_without _ _ H). apply last_item_app.
Qed.

Lemma contains_char_app (c : ascii) (a b : string) :
  contains_char c (a ++ b) = contains_char c a || contains_char c b.
Proof.
  induction a as [|d r IH]; simpl; [reflexivity|].
  now rewrite IH, orb_assoc.
Qed.

Lemma contains_char_join (c : ascii) (sep : string) (l : list string) :
  contains_char c sep = false ->
  contains_char c (join sep l) = existsb (contains_char c) l.
Proof.
  intros Hsep. induction l as [|x r IH]; simpl; [reflexivity|].
  destruct r as [|y r'].
  - simpl. now rewrite orb_false_r.
  - rewrite !contains_char_app, Hsep, IH. reflexivity.
Qed.

(** No escape sequence of [repr] is or holds a period. *)
Lemma repr_char_period (q c : ascii) :
  q = squote \/ q = dquote ->
  contains_char "."%char (repr_char q c) = Ascii.eqb "."%char c.
Proof.
  intros [-> | ->];
    destruct c as [[] [] [] [] [] [] [] []]; vm_compute; reflexivity.
Qed.

Lemma repr_chars_period (q : ascii) (s : string) :
  q = squote \/ q = dquote ->
  contains_char "."%char (repr_chars q s) = contains_char "."%char s.
Proof.
  intros Hq. induction s as [|c r IH]; simpl; [reflexivity|].
  now rewrite contains_char_app, repr_char_period, IH.
Qed.

Lemma repr_str_period (s : string) :
  contains_char "."%char (repr_str s) = contains_char "."%char s.
Proof.
  unfold repr_str.
  destruct (contains_char squote s && negb (contains_char dquote s)).
  - change (contains_char "."%char (String dquote ?x)) with (contains_char "."%char x).
    cbn [contains_char]. rewrite contains_char_app, repr_chars_period by now right.
    cbn. now rewrite orb_false_r.
  - cbn [contains_char]. rewrite contains_char_app, repr_chars_period by now left.
    cbn. now rewrite orb_false_r.
Qed.

Lemma repr_items_period (l : list string) :
  existsb (contains_char "."%char) (map py_repr (map PStr l))
  = existsb (contains_char "."%char) l.
Proof.
  induction l as [|x r IH]; cbn [map existsb py_repr]; [reflexivity|].
  now rewrite repr_str_period, IH.
Qed.

(** [str(times)] of a list of strings has a period exactly when one of
    the strings has. *)
Lemma str_of_list_period (l : list string) :
  contains_char "."%char (py_str (PList (map PStr l)))
  = existsb (contains_char "."%char) l.
Proof.
  cbn [py_str py_repr].
  change ("[" ++ ?x) with (String "["%char x).
  cbn [contains_char]. rewrite contains_char_app.
  rewrite contains_char_join by reflexivity.
  rewrite repr_items_period. cbn. now rewrite orb_false_r.
Qed.

End StringFacts.

(* ================================================================== *)
(** ** Schedules: validation, payload, returned identifier *)
(* ================================================================== *)

Section ScheduleFacts.

Variable W : World.

Lemma interval_test_supplied (i : Z) :
  interval_test (Some i) = Ok ((i <? 1)%Z || (5270400 <? i)%Z).
Proof.
  unfold interval_test; simpl. destruct (i <? 1)%Z eqn:E; simpl; [reflexivity|].
  reflexivity.
Qed.

(** A supplied interval is rejected exactly when it lies outside
    [1, 5270400]. *)
Lemma supplied_interval_checked (sct : string) (i : Z) (times : pyval) :
  str_in (str_lower sct) valid_types = true ->
  times_test times = false ->
  validate (Some sct) (Some i) times
  = if ((i <? 1) || (5270400 <? i))%Z then Raise (ValueError BadInterval) else Ok tt.
Proof.
  intros Ht Hn. unfold validate. cbn [lower_of rbind]. rewrite Ht. cbn [negb].
  rewrite interval_test_supplied. cbn [rbind].
  destruct ((i <? 1) || (5270400 <? i))%Z; [reflexivity|]. now rewrite Hn.
Qed.

Lemma interval_test_missing : interval_test None = Raise TypeError.
Proof. reflexivity. Qed.

Lemma validate_missing_interval (sct : string) (times : pyval) :
  str_in (str_lower sct) valid_types = true ->
  validate (Some sct) None times = Raise TypeError.
Proof.
  intros Ht. unfold validate. cbn [lower_of rbind]. now rewrite Ht.
Qed.

Lemma validate_unknown_type (sct : string) (interval : option Z) (times : pyval) :
  str_in (str_lower sct) valid_types = false ->
  validate (Some sct) interval times = Raise (ValueError BadScheduleType).
Proof.
  intros Ht. unfold validate. cbn [lower_of rbind]. now rewrite Ht.
Qed.

(** Whatever the checks raise is raised before the first call. *)
Lemma create_stops_at_validation item item_type job_type workspace
    sdt edt tz sct enabled interval weekdays times e :
  validate sct interval times = Raise e ->
  run (create_item_schedule W item item_type job_type workspace
         sdt edt tz sct enabled interval weekdays times) = ([], Raise e).
Proof.
  intros H. unfold run, create_item_schedule, bind, lift. now rewrite H.
Qed.

Lemma update_stops_at_validation item schedule_id item_type job_type workspace
    sdt edt tz sct enabled interval weekdays times e :
  validate sct interval times = Raise e ->
  run (update_item_schedule W item schedule_id item_type job_type workspace
         sdt edt tz sct enabled interval weekdays times) = ([], Raise e).
Proof.
  intros H. unfold run, update_item_schedule, bind, lift. now rewrite H.
Qed.

Lemma payload_total enabled sdt edt tz sct interval weekdays times :
  exists p,
    __create_item_schedule_payload enabled sdt edt tz (Some sct) interval weekdays times
    = Ok p.
Proof. unfold __create_item_schedule_payload. cbn [lower_of rbind]. eauto. Qed.

(** Once the checks pass, the first thing either function does is to
    resolve the workspace. *)
Lemma create_passes_validation item item_type job_type workspace
    sdt edt tz sct enabled interval weekdays times :
  validate (Some sct) interval times = Ok tt ->
  exists tr res,
    run (create_item_schedule W item item_type job_type workspace
           sdt edt tz (Some sct) enabled interval weekdays times)
    = (Resolve_workspace workspace :: tr, res).
Proof.
  intros H.
  destruct (payload_total enabled sdt edt tz sct interval weekdays times) as [p Hp].
  unfold run, create_item_schedule, bind, lift, call. rewrite H, Hp. cbn [app].
  destruct (resolve_workspace_name_and_id W workspace) as [[wn wid]|];
    [|do 2 eexists; reflexivity].
  destruct (resolve_item_name_and_id W item item_type workspace) as [[iname iid]|];
    [|do 2 eexists; reflexivity].
  destruct (_base_api W _); do 2 eexists; reflexivity.
Qed.

Lemma update_passes_validation item schedule_id item_type job_type workspace
    sdt edt tz sct enabled interval weekdays times :
  validate (Some sct) interval times = Ok tt ->
  exists tr res,
    run (update_item_schedule W item schedule_id item_type job_type workspace
           sdt edt tz (Some sct) enabled interval weekdays times)
    = (Resolve_workspace workspace :: tr, res).
Proof.
  intros H.
  destruct (payload_total enabled sdt edt tz sct interval weekdays times) as [p Hp].
  unfold run, update_item_schedule, bind, lift, call. rewrite H, Hp. cbn [app].
  destruct (resolve_workspace_name_and_id W workspace) as [[wn wid]|];
    [|do 2 eexists; reflexivity].
  destruct (resolve_item_name_and_id W item item_type workspace) as [[iname iid]|];
    [|do 2 eexists; reflexivity].
  destruct (_base_api W _); do 2 eexists; reflexivity.
Qed.

End ScheduleFacts.

Section TimesFacts.

Lemma digit_is_no_period (c : ascii) :
  is_digit c = true -> Ascii.eqb "."%char c = false.
Proof.
  destruct c as [[] [] [] [] [] [] [] []]; vm_compute; intros H;
    first [reflexivity | discriminate H].
Qed.

Lemma hhmm_no_period (s : string) :
  hhmm s = true -> contains_char "."%char s = false.
Proof.
  destruct s as [|a [|b [|c [|d [|e [|f r]]]]]]; try discriminate.
  cbn [hhmm]. intros H.
  apply andb_prop in H. destruct H as [H He].
  apply andb_prop in H. destruct H as [H Hd].
  apply andb_prop in H. destruct H as [H Hc].
  apply andb_prop in H. destruct H as [Ha Hb].
  apply Ascii.eqb_eq in Hc. subst c.
  cbn [contains_char].
  rewrite (digit_is_no_period a Ha), (digit_is_no_period b Hb),
    (digit_is_no_period d Hd), (digit_is_no_period e He).
  reflexivity.
Qed.

Lemma no_period_in_hhmm_list (l : list string) :
  Forall (fun s => hhmm s = true) l ->
  existsb (contains_char "."%char) l = false.
Proof.
  induction 1 as [|s r Hs _ IH]; simpl; [reflexivity|].
  now rewrite (hhmm_no_period _ Hs), IH.
Qed.

(** The count the code compares with 100 is 1 for every list of hh:mm
    strings, whatever its length. *)
Lemma times_test_hhmm (l : list string) :
  Forall (fun s => hhmm s = true) l ->
  times_test (PList (map PStr l)) = false.
Proof.
  intros H. unfold times_test.
  rewrite str_split_without; [reflexivity|].
  rewrite str_of_list_period. now apply no_period_in_hhmm_list.
Qed.

End TimesFacts.

(* ================================================================== *)
(** ** The properties of the specification: schedules *)
(* ================================================================== *)

(** C2.  With [interval] left at [None] and a recognised configuration
    type, [create_item_schedule] and [update_item_schedule] raise
    [TypeError] out of the interval check, before any call: the test
    [interval > 5270400] is evaluated on [None].  They do not go on to
    build the payload. *)
Theorem missing_interval_raises_type_error
    (W : World) (item schedule_id : string) (item_type job_type workspace : option string)
    (sdt edt tz : option string) (sct : string) (enabled : bool)
    (weekdays : option string) (times : pyval) :
  str_in (str_lower sct) valid_types = true ->
  run (create_item_schedule W item item_type job_type workspace
         sdt edt tz (Some sct) enabled None weekdays times)
  = ([], Raise TypeError)
  /\ run (update_item_schedule W item schedule_id item_type job_type workspace
            sdt edt tz (Some sct) enabled None weekdays times)
     = ([], Raise TypeError).
Proof.
  intros Ht. split.
  - apply create_stops_at_validation. now apply validate_missing_interval.
  - apply update_stops_at_validation. now apply validate_missing_interval.
Qed.

Lemma missing_interval_raises_type_error_witness :
  str_in (str_lower "Daily") valid_types = true
  /\ run (create_item_schedule (world [] created []) "nb" None (Some "RunNotebook") None
            None None None (Some "Daily") true None None (PList [PStr "10:00"]))
     = ([], Raise TypeError)
  /\ run (update_item_schedule (world [] created []) "nb" "s1" None (Some "RunNotebook") None
            None None None (Some "Daily") true None None (PList [PStr "10:00"]))
     = ([], Raise TypeError).
Proof.
  split; [reflexivity|].
  apply (missing_interval_raises_type_error (world [] created []) "nb" "s1" None
           (Some "RunNotebook") None None None None "Daily" true None
           (PList [PStr "10:00"])).
  reflexivity.
Defined.

(** C3.  For a [times] list of hh:mm strings of any length, more than 100
    included, the checks of [create_item_schedule] and
    [update_item_schedule] pass and both functions go on to their first
    call: the text of such a list has no period, so its split has one
    piece. *)
Theorem long_times_list_passes_the_check
    (W : World) (item schedule_id : string) (item_type job_type workspace : option string)
    (sdt edt tz : option string) (sct : string) (enabled : bool) (i : Z)
    (weekdays : option string) (l : list string) :
  str_in (str_lower sct) valid_types = true ->
  (1 <= i <= 5270400)%Z ->
  Forall (fun s => hhmm s = true) l ->
  validate (Some sct) (Some i) (PList (map PStr l)) = Ok tt
  /\ (exists tr res,
        run (create_item_schedule W item item_type job_type workspace
               sdt edt tz (Some sct) enabled (Some i) weekdays (PList (map PStr l)))
        = (Resolve_workspace workspace :: tr, res))
  /\ (exists tr res,
        run (update_item_schedule W item schedule_id item_type job_type workspace
               sdt edt tz (Some sct) enabled (Some i) weekdays (PList (map PStr l)))
        = (Resolve_workspace workspace :: tr, res)).
Proof.
  intros Ht Hi Hl.
  assert (Hv : validate (Some sct) (Some i) (PList (map PStr l)) = Ok tt).
  { rewrite supplied_interval_checked by (auto using times_test_hhmm).
    replace (i <? 1)%Z with false by (symmetry; apply Z.ltb_ge; lia).
    replace (5270400 <? i)%Z with false by (symmetry; apply Z.ltb_ge; lia).
    reflexivity. }
  split; [exact Hv|]. split.
  - now apply create_passes_validation.
  - now apply update_passes_validation.
Qed.

Lemma long_times_list_passes_the_check_witness :
  List.length (repeat "00:00" 101) = 101%nat
  /\ validate (Some "daily") (Some 60%Z) (PList (map PStr (repeat "00:00" 101))) = Ok tt
  /\ (exists tr res,
        run (create_item_schedule (world [] created []) "nb" None (Some "RunNotebook") None
               None None None (Some "daily") true (Some 60%Z) None
               (PList (map PStr (repeat "00:00" 101))))
        = (Resolve_workspace None :: tr, res))
  /\ (exists tr res,
        run (update_item_schedule (world [] created []) "nb" "s1" None (Some "RunNotebook")
               None None None None (Some "daily") true (Some 60%Z) None
               (PList (map PStr (repeat "00:00" 101))))
        = (Resolve_workspace None :: tr, res)).
Proof.
  split; [reflexivity|].
  apply (long_times_list_passes_the_check (world [] created []) "nb" "s1" None
           (Some "RunNotebook") None None None None "daily" true 60%Z None
           (repeat "00:00" 101)).
  - reflexivity.
  - lia.
  - apply Forall_forall. intros s Hs. apply repeat_spec in Hs. subst s. reflexivity.
Defined.

(** A schedule with 101 times is posted and its id returned. *)
Example create_with_101_times :
  snd (run (create_item_schedule (world [] created []) "nb" None (Some "RunNotebook") None
              None None None (Some "daily") true (Some 60%Z) None (many_times 101)))
  = Ok "abc-123".
Proof. vm_compute. reflexivity. Qed.

(** The count is one more than the number of periods in the text: a
    single time written with 100 periods is refused. *)
Example one_time_with_periods_refused :
  validate (Some "daily") (Some 60%Z)
    (PStr "0.0.0.0.0.0.0.0.0.0.0.0.0.0.0.0.0.0.0.0.0.0.0.0.0.0.0.0.0.0.0.0.0.0.0.0.0.0.0.0.0.0.0.0.0.0.0.0.0.0.0.0.0.0.0.0.0.0.0.0.0.0.0.0.0.0.0.0.0.0.0.0.0.0.0.0.0.0.0.0.0.0.0.0.0.0.0.0.0.0.0.0.0.0.0.0.0.0.0.0.0")
  = Raise (ValueError TooManyTimes).
Proof. vm_compute. reflexivity. Qed.

(** C4.  For a configuration type whose lower-case form is cron, daily or
    weekly, the configuration object of the built payload is the one the
    specification lists for that type, field for field and in no other
    field: the base fields and [interval] for Cron, the base fields and
    the text of [times] for Daily, the base fields, [times] and
    [weekdays] for Weekly. *)
Theorem payload_has_the_fields_of_its_type
    (enabled : bool) (sdt edt tz : option string) (sct : string)
    (interval : option Z) (weekdays : option string) (times : pyval) :
  str_in (str_lower sct) valid_types = true ->
  __create_item_schedule_payload enabled sdt edt tz (Some sct) interval weekdays times
  = Ok (PDict [ ("enabled", PBool enabled);
                ("configuration",
                 PDict (spec_configuration (str_lower sct) sdt edt tz sct
                          interval weekdays times)) ]).
Proof.
  unfold str_in, valid_types, __create_item_schedule_payload, spec_configuration.
  cbn [existsb lower_of rbind of_opt_str].
  destruct (String.eqb (str_lower sct) "cron") eqn:Ec; [reflexivity|].
  destruct (String.eqb (str_lower sct) "daily") eqn:Ed; [reflexivity|].
  destruct (String.eqb (str_lower sct) "weekly") eqn:Ew; [reflexivity|].
  discriminate.
Qed.

Lemma payload_has_the_fields_of_its_type_witness :
  str_in (str_lower "Weekly") valid_types = true
  /\ __create_item_schedule_payload true (Some "2025-01-01T00:00:00") None (Some "UTC")
       (Some "Weekly") None (Some "Monday") (PList [PStr "10:00"])
     = Ok (PDict [ ("enabled", PBool true);
                   ("configuration",
                    PDict [ ("startDateTime", PStr "2025-01-01T00:00:00");
                            ("endDateTime", PNone);
                            ("localTimeZoneId", PStr "UTC");
                            ("type", PStr "Weekly");
                            ("times", PList [PStr "10:00"]);
                            ("weekdays", PStr "Monday") ]) ]).
Proof.
  split; [reflexivity|].
  apply (payload_has_the_fields_of_its_type true (Some "2025-01-01T00:00:00") None
           (Some "UTC") "Weekly" None (Some "Monday") (PList [PStr "10:00"])).
  reflexivity.
Defined.

Example payload_cron :
  __create_item_schedule_payload true None None None (Some "CRON") (Some 30%Z)
    (Some "Monday") (PList [PStr "10:00"])
  = Ok (PDict [ ("enabled", PBool true);
                ("configuration",
                 PDict [ ("startDateTime", PNone); ("endDateTime", PNone);
                         ("localTimeZoneId", PNone); ("type", PStr "CRON");
                         ("interval", PInt 30) ]) ]).
Proof. reflexivity. Qed.

Example payload_daily :
  __create_item_schedule_payload false None None None (Some "daily") (Some 30%Z)
    (Some "Monday") (PList [PStr "10:00"; PStr "18:30"])
  = Ok (PDict [ ("enabled", PBool false);
                ("configuration",
                 PDict [ ("startDateTime", PNone); ("endDateTime", PNone);
                         ("localTimeZoneId", PNone); ("type", PStr "daily");
                         ("times", PStr "['10:00', '18:30']") ]) ]).
Proof. reflexivity. Qed.

(** C5.  For a configuration type whose lower-case form is none of cron,
    daily and weekly, [create_item_schedule] and [update_item_schedule]
    raise the invalid-type error with an empty log: no name was resolved
    and no request was sent. *)
Theorem unknown_type_rejected_before_any_call
    (W : World) (item schedule_id : string) (item_type job_type workspace : option string)
    (sdt edt tz : option string) (sct : string) (enabled : bool) (interval : option Z)
    (weekdays : option string) (times : pyval) :
  str_in (str_lower sct) valid_types = false ->
  run (create_item_schedule W item item_type job_type workspace
         sdt edt tz (Some sct) enabled interval weekdays times)
  = ([], Raise (ValueError BadScheduleType))
  /\ run (update_item_schedule W item schedule_id item_type job_type workspace
            sdt edt tz (Some sct) enabled interval weekdays times)
     = ([], Raise (ValueError BadScheduleType)).
Proof.
  intros Ht. split.
  - apply create_stops_at_validation. now apply validate_unknown_type.
  - apply update_stops_at_validation. now apply validate_unknown_type.
Qed.

Lemma unknown_type_rejected_before_any_call_witness :
  str_in (str_lower "Monthly") valid_types = false
  /\ run (create_item_schedule (world [] created []) "nb" None (Some "RunNotebook") None
            None None None (Some "Monthly") true (Some 60%Z) None PNone)
     = ([], Raise (ValueError BadScheduleType))
  /\ run (update_item_schedule (world [] created []) "nb" "s1" None (Some "RunNotebook") None
            None None None (Some "Monthly") true (Some 60%Z) None PNone)
     = ([], Raise (ValueError BadScheduleType)).
Proof.
  split; [reflexivity|].
  apply (unknown_type_rejected_before_any_call (world [] created []) "nb" "s1" None
           (Some "RunNotebook") None None None None "Monthly" true (Some 60%Z) None PNone).
  reflexivity.
Defined.

Section LocationFacts.

Variable W : World.

Lemma run_on_demand_item_job_run item item_type job_type workspace wn wid iname iid ity resp :
  resolve_workspace_name_and_id W workspace = Ok (wn, wid) ->
  resolve_item_name_and_id W item item_type workspace = Ok (iname, iid) ->
  match item_type with
  | Some t => ity = t
  | None => resolve_item_type W iid wid = Ok ity
  end ->
  _base_api W (run_request wid iid job_type) = Ok resp ->
  snd (run (run_on_demand_item_job W item item_type job_type workspace))
  = location_id resp.
Proof.
  intros Hw Hi Ht Hr.
  unfold run, run_on_demand_item_job, bind, call, lift, ret. rewrite Hw, Hi.
  destruct item_type as [t|]; [subst ity | rewrite Ht]; now rewrite Hr.
Qed.

Lemma create_item_schedule_run item item_type job_type workspace
    sdt edt tz sct enabled interval weekdays times p wn wid iname iid resp :
  validate sct interval times = Ok tt ->
  __create_item_schedule_payload enabled sdt edt tz sct interval weekdays times = Ok p ->
  resolve_workspace_name_and_id W workspace = Ok (wn, wid) ->
  resolve_item_name_and_id W item item_type workspace = Ok (iname, iid) ->
  _base_api W (create_request wid iid job_type p) = Ok resp ->
  run (create_item_schedule W item item_type job_type workspace
         sdt edt tz sct enabled interval weekdays times)
  = ([ Resolve_workspace workspace;
       Resolve_item item item_type workspace;
       Base_api (create_request wid iid job_type p);
       Print_success iname "schedule" wn "created" ],
     location_id resp).
Proof.
  intros Hv Hp Hw Hi Hr.
  unfold run, create_item_schedule, bind, call, lift, ret.
  now rewrite Hv, Hp, Hw, Hi, Hr.
Qed.

Lemma location_id_segment (resp : response) (pre seg : string) :
  headers_get resp "Location" = Some (pre ++ "/" ++ seg) ->
  contains_char "/"%char seg = false ->
  location_id resp = Ok seg.
Proof.
  intros Hh Hs. unfold location_id. rewrite Hh. now apply last_segment.
Qed.

End LocationFacts.

(** C7.  When the collaborators answer and the response carries a
    Location header [pre/seg] whose [seg] has no slash, that is whose last
    slash is the one before [seg], [run_on_demand_item_job] and
    [create_item_schedule] return [seg]. *)
Theorem returned_id_is_last_segment_of_location
    (W : World) (item : string) (item_type job_type workspace : option string)
    (sdt edt tz sct : option string) (enabled : bool) (interval : option Z)
    (weekdays : option string) (times : pyval)
    (wn wid iname iid ity : string) (p : pyval) (ran made : response)
    (pre seg pre' seg' : string) :
  resolve_workspace_name_and_id W workspace = Ok (wn, wid) ->
  resolve_item_name_and_id W item item_type workspace = Ok (iname, iid) ->
  match item_type with
  | Some t => ity = t
  | None => resolve_item_type W iid wid = Ok ity
  end ->
  _base_api W (run_request wid iid job_type) = Ok ran ->
  headers_get ran "Location" = Some (pre ++ "/" ++ seg) ->
  contains_char "/"%char seg = false ->
  validate sct interval times = Ok tt ->
  __create_item_schedule_payload enabled sdt edt tz sct interval weekdays times = Ok p ->
  _base_api W (create_request wid iid job_type p) = Ok made ->
  headers_get made "Location" = Some (pre' ++ "/" ++ seg') ->
  contains_char "/"%char seg' = false ->
  snd (run (run_on_demand_item_job W item item_type job_type workspace)) = Ok seg
  /\ snd (run (create_item_schedule W item item_type job_type workspace
                 sdt edt tz sct enabled interval weekdays times)) = Ok seg'.
Proof.
  intros Hw Hi Ht Hran Hloc Hseg Hv Hp Hmade Hloc' Hseg'. split.
  - rewrite (run_on_demand_item_job_run W _ _ _ _ _ _ _ _ _ _ Hw Hi Ht Hran).
    eapply location_id_segment; eassumption.
  - rewrite (create_item_schedule_run W _ _ _ _ _ _ _ _ _ _ _ _ _ _ _ _ _ _ Hv Hp Hw Hi Hmade).
    eapply location_id_segment; eassumption.
Qed.

Lemma returned_id_is_last_segment_of_location_witness :
  snd (run (run_on_demand_item_job (world [] created []) "nb" None (Some "RunNotebook") None))
  = Ok "abc-123"
  /\ snd (run (create_item_schedule (world [] created []) "nb" None (Some "RunNotebook") None
                 None None None (Some "Cron") true (Some 60%Z) None PNone))
     = Ok "abc-123".
Proof.
  eapply (returned_id_is_last_segment_of_location (world [] created []) "nb" None
            (Some "RunNotebook") None None None None (Some "Cron") true (Some 60%Z) None PNone
            "Sales" "ws-1" "nb" "it-1" "Notebook" _ created created
            "https://api.fabric.microsoft.com/v1/workspaces/ws-1/items/it-1/jobs/instances"
            "abc-123"
            "https://api.fabric.microsoft.com/v1/workspaces/ws-1/items/it-1/jobs/instances"
            "abc-123");
    reflexivity.
Defined.

Example location_of_the_specification :
  last_item (str_split "/"%char "/jobs/instances/abc-123") = Ok "abc-123".
Proof. reflexivity. Qed.

(* ================================================================== *)
(** ** Job instances: from the responses to the table *)
(* ================================================================== *)

Section InstanceFacts.

Variables (item_name : string) (item_type : pyval).

Hypothesis item_type_scalar : is_scalar item_type = true.

Lemma py_get_field (d : dict) (k : string) : py_get (PDict d) k PNone = Ok (field d k).
Proof. reflexivity. Qed.

(** On a plain instance the row dictionary is the closed form. *)
Lemma new_data_plain (v : pyval) :
  plain_instance v = true ->
  new_data item_name item_type v = Ok (instance_row item_name item_type v).
Proof.
  destruct v as [| | | |l|d]; try discriminate. cbn [plain_instance].
  intros H. apply andb_prop in H. destruct H as [_ Hf].
  unfold new_data, instance_row, error_message.
  rewrite !py_get_field. cbn [py_get rbind].
  destruct (dict_get d "failureReason") as [[| | | |l|f]|]; try discriminate; reflexivity.
Qed.

Lemma instance_row_scalar (v : pyval) :
  plain_instance v = true ->
  forallb is_scalar (map snd (instance_row item_name item_type v)) = true.
Proof.
  destruct v as [| | | |l|d]; try discriminate. cbn [plain_instance].
  intros H. apply andb_prop in H. destruct H as [Hs Hf].
  cbn [instance_fields forallb] in Hs.
  repeat (apply andb_prop in Hs; let H := fresh "Hk" in destruct Hs as [H Hs]).
  cbn [instance_row map snd forallb is_scalar].
  rewrite Hk, Hk0, Hk1, Hk2, Hk3, Hk4, Hk5, Hk6, item_type_scalar. cbn [andb].
  unfold error_message.
  destruct (dict_get d "failureReason") as [[| | | |l|f]|]; try discriminate;
    try reflexivity.
  now rewrite Hf.
Qed.

Lemma instance_frame_plain (v : pyval) :
  plain_instance v = true ->
  instance_frame item_name item_type v = Ok (one_row item_name item_type v).
Proof.
  intros H. unfold instance_frame. rewrite (new_data_plain v H). cbn [rbind].
  unfold pd_DataFrame. now rewrite (instance_row_scalar v H).
Qed.

Lemma frames_of_values_plain (vs : list pyval) :
  forallb plain_instance vs = true ->
  frames_of_values item_name item_type vs = Ok (map (one_row item_name item_type) vs).
Proof.
  induction vs as [|v r IH]; cbn [forallb frames_of_values map]; [reflexivity|].
  intros H. apply andb_prop in H. destruct H as [Hv Hr].
  now rewrite (instance_frame_plain v Hv), (IH Hr).
Qed.

Lemma page_values_plain (r : pyval) :
  plain_page r = true ->
  rbind (py_get r "value" (PList [])) py_iter = Ok (instances_of r)
  /\ forallb plain_instance (instances_of r) = true.
Proof.
  destruct r as [| | | |l|d]; try discriminate.
  unfold plain_page, instances_of, value_of. cbn [py_get rbind].
  destruct (dict_get d "value") as [[| | | |l|f]|]; try discriminate; auto.
Qed.

Lemma frames_of_pages_plain (responses : list pyval) :
  forallb plain_page responses = true ->
  frames_of_pages item_name item_type responses
  = Ok (map (one_row item_name item_type) (flat_map instances_of responses)).
Proof.
  induction responses as [|r rest IH]; cbn [forallb frames_of_pages flat_map];
    [reflexivity|].
  intros H. apply andb_prop in H. destruct H as [Hr Hrest].
  destruct (page_values_plain r Hr) as [Hit Hvs].
  destruct (py_get r "value" (PList [])) as [value|]; [|discriminate].
  cbn [rbind] in Hit |- *. rewrite Hit. cbn [rbind].
  rewrite (frames_of_values_plain _ Hvs), (IH Hrest). cbn [rbind].
  now rewrite map_app.
Qed.

End InstanceFacts.

Section TableFacts.

Variables (item_name : string) (item_type : pyval).

Hypothesis item_type_scalar : is_scalar item_type = true.

Lemma one_row_columns (v : pyval) :
  plain_instance v = true ->
  df_columns (one_row item_name item_type v) = untyped_columns.
Proof. destruct v; try discriminate. reflexivity. Qed.

Lemma union_same (fs : list DataFrame) :
  Forall (fun f => df_columns f = untyped_columns) fs ->
  fold_left union_columns (map df_columns fs) untyped_columns = untyped_columns.
Proof.
  induction 1 as [|f r Hf _ IH]; cbn [map fold_left]; [reflexivity|].
  rewrite Hf. exact IH.
Qed.

(** Concatenating frames that all have the job-instance columns. *)
Lemma pd_concat_same (f : DataFrame) (fs : list DataFrame) :
  Forall (fun g => df_columns g = untyped_columns) (f :: fs) ->
  pd_concat (f :: fs)
  = Ok {| df_columns := untyped_columns;
          df_rows := concat (map df_rows (f :: fs)) |}.
Proof.
  intros H. inversion H as [|g r Hf Hr]; subst.
  unfold pd_concat. cbn [map fold_left]. rewrite Hf.
  change (union_columns [] untyped_columns) with untyped_columns.
  now rewrite (union_same _ Hr).
Qed.

Lemma columns_of_one_rows (vs : list pyval) :
  forallb plain_instance vs = true ->
  Forall (fun g => df_columns g = untyped_columns) (map (one_row item_name item_type) vs).
Proof.
  induction vs as [|v r IH]; cbn [forallb map]; [constructor|].
  intros H. apply andb_prop in H. destruct H as [Hv Hr].
  constructor; [now apply one_row_columns | auto].
Qed.

Lemma rows_of_one_rows (vs : list pyval) :
  concat (map df_rows (map (one_row item_name item_type) vs))
  = map (instance_row item_name item_type) vs.
Proof.
  induction vs as [|v r IH]; cbn [map concat]; [reflexivity|].
  now rewrite IH.
Qed.

(** Concatenating the one-row frames of plain instances. *)
Lemma pd_concat_one_rows (v : pyval) (vs : list pyval) :
  forallb plain_instance (v :: vs) = true ->
  pd_concat (map (one_row item_name item_type) (v :: vs))
  = Ok {| df_columns := untyped_columns;
          df_rows := map (instance_row item_name item_type) (v :: vs) |}.
Proof.
  intros H. pose proof (columns_of_one_rows _ H) as Hc.
  rewrite <- rows_of_one_rows. cbn [map] in Hc |- *.
  now apply pd_concat_same.
Qed.

End TableFacts.

Section ListFacts.

Variables (df0 : DataFrame) (item_name item_type : string).

(** The early return: a first page without instances. *)
Lemma job_instances_table_early (d : dict) (rest : list pyval) :
  dict_get d "value" = None \/ dict_get d "value" = Some (PList []) ->
  job_instances_table df0 item_name item_type (PDict d :: rest) = Ok df0.
Proof.
  intros [H | H]; unfold job_instances_table; cbn [rbind py_get]; rewrite H; reflexivity.
Qed.

(** Past the early return, on plain pages: one row per instance, page
    after page. *)
Lemma job_instances_table_plain (responses : list pyval) :
  forallb plain_page responses = true ->
  match responses with
  | first :: _ => instances_of first <> []
  | [] => False
  end ->
  job_instances_table df0 item_name item_type responses
  = Ok {| df_columns := typed_columns;
          df_rows := map (instance_row item_name (PStr item_type))
                         (flat_map instances_of responses) |}.
Proof.
  intros Hp Hne. destruct responses as [|first rest]; [contradiction|].
  pose proof (frames_of_pages_plain item_name (PStr item_type) eq_refl _ Hp) as Hf.
  assert (Hall : forallb plain_instance (flat_map instances_of (first :: rest)) = true).
  { clear - Hp. induction (first :: rest) as [|r l IH]; [reflexivity|].
    cbn [forallb flat_map] in *. apply andb_prop in Hp. destruct Hp as [Hr Hl].
    rewrite forallb_app, (proj2 (page_values_plain r Hr)). now apply IH. }
  destruct first as [| | | |l|d]; try discriminate.
  assert (Hval : dict_get d "value" = Some (PList (instances_of (PDict d)))).
  { unfold instances_of, value_of in Hne |- *.
    destruct (dict_get d "value") as [[| | | |l|f]|];
      try (exfalso; apply Hne; reflexivity); reflexivity. }
  cbn [flat_map] in Hf, Hall.
  destruct (instances_of (PDict d)) as [|x xs] eqn:Ei; [contradiction|].
  rewrite <- app_comm_cons in Hf, Hall.
  unfold job_instances_table. cbn [rbind py_get]. rewrite Hval.
  cbn [truthy negb]. rewrite Hf. cbn [rbind flat_map]. rewrite Ei.
  rewrite <- app_comm_cons.
  pose proof (pd_concat_one_rows item_name (PStr item_type) x _ Hall) as Hc.
  cbn [map] in Hc |- *. rewrite Hc. reflexivity.
Qed.

(** A table with rows can only come from a first page that lists
    instances. *)
Lemma job_instances_table_rows (responses : list pyval) (df : DataFrame) :
  df_rows df0 = [] ->
  job_instances_table df0 item_name item_type responses = Ok df ->
  df_rows df <> [] ->
  exists d x xs rest,
    responses = PDict d :: rest /\ dict_get d "value" = Some (PList (x :: xs)).
Proof.
  intros H0 Ht Hrows. unfold job_instances_table in Ht.
  destruct responses as [|first rest]; [discriminate|].
  destruct first as [| | | |l|d]; try discriminate.
  cbn [rbind py_get frames_of_pages] in Ht.
  destruct (dict_get d "value") as [[|[]|z|s|[|x xs]|[|[k y] f]]|] eqn:Hv;
    cbn [truthy negb rbind py_iter] in Ht;
    try (injection Ht as <-; contradiction);
    try discriminate.
  - destruct (z =? 0)%Z; cbn [negb] in Ht;
      [injection Ht as <-; contradiction | discriminate].
  - destruct s as [|c s]; cbn in Ht;
      [injection Ht as <-; contradiction | discriminate].
  - eauto 6.
Qed.

End ListFacts.

Section RunFacts.

Variable W : World.

Lemma list_item_job_instances_run item item_type workspace wn wid iname iid ity responses :
  list_answers W item item_type workspace wn wid iname iid ity responses ->
  run (list_item_job_instances W item item_type workspace)
  = ((Resolve_workspace workspace
        :: Resolve_item item item_type workspace
        :: match item_type with
           | None => [Resolve_item_type iid wid]
           | Some _ => []
           end) ++ [Base_api (instances_request wid iid)],
     job_instances_table (_create_dataframe job_instance_columns) iname ity responses)%list.
Proof.
  intros (Hw & Hi & Ht & Hr).
  unfold run, list_item_job_instances, bind, call, lift, ret. rewrite Hw, Hi.
  destruct item_type as [t|]; [subst ity | rewrite Ht]; now rewrite Hr.
Qed.

Lemma get_item_job_instance_run item job_instance_id item_type workspace wn wid iname iid body :
  get_answers W item job_instance_id item_type workspace wn wid iname iid body ->
  plain_instance body = true ->
  run (get_item_job_instance W item job_instance_id item_type workspace)
  = ([ Resolve_workspace workspace;
       Resolve_item item item_type workspace;
       Base_api (instance_request wid iid job_instance_id) ],
     Ok {| df_columns := typed_columns;
           df_rows := [instance_row iname (of_opt_str item_type) body] |}).
Proof.
  intros (Hw & Hi & resp & Hr & Hj) Hb.
  assert (Hs : is_scalar (of_opt_str item_type) = true) by now destruct item_type.
  unfold run, get_item_job_instance, bind, call, lift, ret.
  rewrite Hw, Hi, Hr, Hj, (instance_frame_plain iname _ Hs body Hb).
  destruct body; try discriminate. reflexivity.
Qed.

(** Whatever the collaborators answer, [get_item_job_instance] makes no
    call that looks the item's type up. *)
Lemma get_item_job_instance_no_type_lookup item job_instance_id item_type workspace :
  existsb is_type_resolution
    (fst (run (get_item_job_instance W item job_instance_id item_type workspace))) = false.
Proof.
  unfold run, get_item_job_instance, bind, call, lift, ret.
  destruct (resolve_workspace_name_and_id W workspace) as [[wn wid]|]; [|reflexivity].
  destruct (resolve_item_name_and_id W item item_type workspace) as [[iname iid]|];
    [|reflexivity].
  destruct (_base_api W _) as [resp|]; [|reflexivity].
  destruct (json resp) as [v|]; [|reflexivity].
  destruct (instance_frame iname (of_opt_str item_type) v) as [row|]; [|reflexivity].
  destruct (pd_concat _); reflexivity.
Qed.

End RunFacts.

(* ================================================================== *)
(** ** The properties of the specification: job instances *)
(* ================================================================== *)

(** C8.  When the collaborators answer and the value array of the
    response is empty, [list_item_job_instances] raises nothing and
    returns a table without rows that has the eleven declared columns,
    Job Instance Id to Error Message, each with its declared type. *)
Theorem empty_value_array_gives_empty_table
    (W : World) (item : string) (item_type workspace : option string)
    (wn wid iname iid ity : string) (d : dict) (rest : list pyval) :
  list_answers W item item_type workspace wn wid iname iid ity (PDict d :: rest) ->
  dict_get d "value" = Some (PList []) ->
  snd (run (list_item_job_instances W item item_type workspace))
  = Ok {| df_columns := typed_columns; df_rows := [] |}.
Proof.
  intros Ha Hv. rewrite (list_item_job_instances_run W _ _ _ _ _ _ _ _ _ Ha).
  cbn [snd]. rewrite job_instances_table_early by now right. reflexivity.
Qed.

Lemma empty_value_array_gives_empty_table_witness :
  snd (run (list_item_job_instances (world [page []] created []) "nb" None None))
  = Ok {| df_columns := typed_columns; df_rows := [] |}.
Proof.
  apply (empty_value_array_gives_empty_table (world [page []] created []) "nb" None None
           "Sales" "ws-1" "nb" "it-1" "Notebook" [("value", PList [])] []).
  - repeat split; reflexivity.
  - reflexivity.
Defined.

(** C9.  [list_item_job_instances] looks at the first page only to decide
    that there is nothing to list: (1) when the value array of the first
    page is missing or empty, the result is the empty table, whatever the
    later pages hold; (2) a result with rows implies a first page whose
    value array is not empty; (3) in that case, on pages of plain
    instances, the rows are those of all pages, in page order. *)
Theorem emptiness_is_decided_by_the_first_page
    (W : World) (item : string) (item_type workspace : option string)
    (wn wid iname iid ity : string) (responses : list pyval) :
  list_answers W item item_type workspace wn wid iname iid ity responses ->
  (forall d rest,
      responses = PDict d :: rest ->
      dict_get d "value" = None \/ dict_get d "value" = Some (PList []) ->
      snd (run (list_item_job_instances W item item_type workspace))
      = Ok {| df_columns := typed_columns; df_rows := [] |})
  /\ (forall df,
         snd (run (list_item_job_instances W item item_type workspace)) = Ok df ->
         df_rows df <> [] ->
         exists d x xs rest,
           responses = PDict d :: rest /\ dict_get d "value" = Some (PList (x :: xs)))
  /\ (forallb plain_page responses = true ->
      match responses with
      | first :: _ => instances_of first <> []
      | [] => False
      end ->
      snd (run (list_item_job_instances W item item_type workspace))
      = Ok {| df_columns := typed_columns;
              df_rows := map (instance_row iname (PStr ity))
                             (flat_map instances_of responses) |}).
Proof.
  intros Ha. rewrite (list_item_job_instances_run W _ _ _ _ _ _ _ _ _ Ha). cbn [snd].
  split; [|split].
  - intros d rest -> Hv. now rewrite job_instances_table_early.
  - intros df Hdf Hrows.
    eapply job_instances_table_rows; [|exact Hdf|exact Hrows]. reflexivity.
  - intros Hp Hne. now apply job_instances_table_plain.
Qed.

Lemma emptiness_is_decided_by_the_first_page_witness :
  snd (run (list_item_job_instances
              (world [page []; page [failed_instance; no_reason_instance]] created [])
              "nb" None None))
  = Ok {| df_columns := typed_columns; df_rows := [] |}
  /\ snd (run (list_item_job_instances
                 (world [page [failed_instance]; page [no_reason_instance]] created [])
                 "nb" None None))
     = Ok {| df_columns := typed_columns;
             df_rows := [ instance_row "nb" (PStr "Notebook") failed_instance;
                          instance_row "nb" (PStr "Notebook") no_reason_instance ] |}.
Proof.
  split.
  - refine (proj1 (emptiness_is_decided_by_the_first_page
                     (world [page []; page [failed_instance; no_reason_instance]] created [])
                     "nb" None None "Sales" "ws-1" "nb" "it-1" "Notebook"
                     [page []; page [failed_instance; no_reason_instance]] _)
                  [("value", PList [])] _ eq_refl (or_intror eq_refl)).
    repeat split; reflexivity.
  - refine (proj2 (proj2 (emptiness_is_decided_by_the_first_page
                     (world [page [failed_instance]; page [no_reason_instance]] created [])
                     "nb" None None "Sales" "ws-1" "nb" "it-1" "Notebook"
                     [page [failed_instance]; page [no_reason_instance]] _))
                  eq_refl _).
    + repeat split; reflexivity.
    + discriminate.
Defined.

(** C10.  [get_item_job_instance] makes no call that looks the item's
    type up, whatever the collaborators answer; when they answer with a
    plain instance, the Item Type cell of the one row it returns is the
    caller's [item_type], hence [None] when the argument is omitted.
    [list_item_job_instances] called without [item_type] asks the catalog
    for the type, and the rows carry the type it answers. *)
Theorem item_type_cell_is_the_argument
    (W : World) (item job_instance_id : string) (item_type workspace : option string)
    (wn wid iname iid ity : string) (body : pyval) (responses : list pyval) :
  get_answers W item job_instance_id item_type workspace wn wid iname iid body ->
  plain_instance body = true ->
  list_answers W item None workspace wn wid iname iid ity responses ->
  forallb plain_page responses = true ->
  match responses with
  | first :: _ => instances_of first <> []
  | [] => False
  end ->
  existsb is_type_resolution
    (fst (run (get_item_job_instance W item job_instance_id item_type workspace))) = false
  /\ (exists row,
        snd (run (get_item_job_instance W item job_instance_id item_type workspace))
        = Ok {| df_columns := typed_columns; df_rows := [row] |}
        /\ cell row "Item Type" = Some (of_opt_str item_type)
        /\ (item_type = None -> cell row "Item Type" = Some PNone))
  /\ fst (run (list_item_job_instances W item None workspace))
     = [ Resolve_workspace workspace;
         Resolve_item item None workspace;
         Resolve_item_type iid wid;
         Base_api (instances_request wid iid) ]
  /\ (exists rows,
        snd (run (list_item_job_instances W item None workspace))
        = Ok {| df_columns := typed_columns; df_rows := rows |}
        /\ Forall (fun row => cell row "Item Type" = Some (PStr ity)) rows).
Proof.
  intros Hg Hb Hl Hp Hne. split; [|split; [|split]].
  - apply get_item_job_instance_no_type_lookup.
  - rewrite (get_item_job_instance_run W _ _ _ _ _ _ _ _ _ Hg Hb). cbn [snd].
    eexists. split; [reflexivity|].
    destruct body; try discriminate. split; [reflexivity|].
    intros ->. reflexivity.
  - now rewrite (list_item_job_instances_run W _ _ _ _ _ _ _ _ _ Hl).
  - rewrite (list_item_job_instances_run W _ _ _ _ _ _ _ _ _ Hl). cbn [snd].
    rewrite (job_instances_table_plain _ _ _ _ Hp Hne).
    eexists. split; [reflexivity|].
    apply Forall_forall. intros row Hin. apply in_map_iff in Hin.
    destruct Hin as (v & <- & Hv).
    assert (Hplain : plain_instance v = true).
    { apply in_flat_map in Hv. destruct Hv as (r & Hr & Hv).
      pose proof (proj1 (forallb_forall _ _) Hp r Hr) as Hpage.
      exact (proj1 (forallb_forall _ _) (proj2 (page_values_plain r Hpage)) v Hv). }
    destruct v; try discriminate. reflexivity.
Qed.

Lemma item_type_cell_is_the_argument_witness :
  existsb is_type_resolution
    (fst (run (get_item_job_instance
                 (world [page [failed_instance]] (answer None no_reason_instance) [])
                 "nb" "j3" None None))) = false
  /\ (exists row,
        snd (run (get_item_job_instance
                    (world [page [failed_instance]] (answer None no_reason_instance) [])
                    "nb" "j3" None None))
        = Ok {| df_columns := typed_columns; df_rows := [row] |}
        /\ cell row "Item Type" = Some PNone
        /\ (@None string = None -> cell row "Item Type" = Some PNone))
  /\ fst (run (list_item_job_instances
                 (world [page [failed_instance]] (answer None no_reason_instance) [])
                 "nb" None None))
     = [ Resolve_workspace None;
         Resolve_item "nb" None None;
         Resolve_item_type "it-1" "ws-1";
         Base_api (instances_request "ws-1" "it-1") ]
  /\ (exists rows,
        snd (run (list_item_job_instances
                    (world [page [failed_instance]] (answer None no_reason_instance) [])
                    "nb" None None))
        = Ok {| df_columns := typed_columns; df_rows := rows |}
        /\ Forall (fun row => cell row "Item Type" = Some (PStr "Notebook")) rows).
Proof.
  apply (item_type_cell_is_the_argument
           (world [page [failed_instance]] (answer None no_reason_instance) [])
           "nb" "j3" None None "Sales" "ws-1" "nb" "it-1" "Notebook"
           no_reason_instance [page [failed_instance]]).
  - repeat split; try reflexivity. eexists. split; reflexivity.
  - reflexivity.
  - repeat split; reflexivity.
  - reflexivity.
  - discriminate.
Defined.

(** C1, as the code has it.  When the collaborators answer with plain
    instances, the rows of [list_item_job_instances] and the row of
    [get_item_job_instance] are the closed-form rows of the instances, in
    which the Error Message cell is the empty string for an instance
    whose [failureReason] is null, and [None] for an instance that has no
    [failureReason] field. *)
Theorem error_message_of_null_and_absent_reason
    (W : World) (item job_instance_id : string) (item_type workspace : option string)
    (wn wid iname iid ity : string) (body : pyval) (responses : list pyval) :
  list_answers W item item_type workspace wn wid iname iid ity responses ->
  forallb plain_page responses = true ->
  match responses with
  | first :: _ => instances_of first <> []
  | [] => False
  end ->
  get_answers W item job_instance_id item_type workspace wn wid iname iid body ->
  plain_instance body = true ->
  snd (run (list_item_job_instances W item item_type workspace))
  = Ok {| df_columns := typed_columns;
          df_rows := map (instance_row iname (PStr ity))
                         (flat_map instances_of responses) |}
  /\ snd (run (get_item_job_instance W item job_instance_id item_type workspace))
     = Ok {| df_columns := typed_columns;
             df_rows := [instance_row iname (of_opt_str item_type) body] |}
  /\ (forall t d,
         dict_get d "failureReason" = Some PNone ->
         new_data iname t (PDict d) = Ok (instance_row iname t (PDict d))
         /\ cell (instance_row iname t (PDict d)) "Error Message" = Some (PStr EmptyString))
  /\ (forall t d,
         dict_get d "failureReason" = None ->
         new_data iname t (PDict d) = Ok (instance_row iname t (PDict d))
         /\ cell (instance_row iname t (PDict d)) "Error Message" = Some PNone).
Proof.
  intros Hl Hp Hne Hg Hb. split; [|split; [|split]].
  - rewrite (list_item_job_instances_run W _ _ _ _ _ _ _ _ _ Hl). cbn [snd].
    now apply job_instances_table_plain.
  - now rewrite (get_item_job_instance_run W _ _ _ _ _ _ _ _ _ Hg Hb).
  - intros t d Hd. unfold new_data, instance_row, error_message, cell.
    cbn [py_get rbind dict_get String.eqb Ascii.eqb Bool.eqb]. rewrite Hd.
    split; reflexivity.
  - intros t d Hd. unfold new_data, instance_row, error_message, cell.
    cbn [py_get rbind dict_get String.eqb Ascii.eqb Bool.eqb]. rewrite Hd.
    split; reflexivity.
Qed.

Lemma error_message_of_null_and_absent_reason_witness :
  snd (run (list_item_job_instances
              (world [page [null_reason_instance; no_reason_instance]]
                     (answer None null_reason_instance) [])
              "nb" (Some "Notebook") None))
  = Ok {| df_columns := typed_columns;
          df_rows := [ instance_row "nb" (PStr "Notebook") null_reason_instance;
                       instance_row "nb" (PStr "Notebook") no_reason_instance ] |}
  /\ snd (run (get_item_job_instance
                 (world [page [null_reason_instance; no_reason_instance]]
                        (answer None null_reason_instance) [])
                 "nb" "j2" (Some "Notebook") None))
     = Ok {| df_columns := typed_columns;
             df_rows := [ instance_row "nb" (PStr "Notebook") null_reason_instance ] |}
  /\ cell (instance_row "nb" (PStr "Notebook") null_reason_instance) "Error Message"
     = Some (PStr EmptyString)
  /\ cell (instance_row "nb" (PStr "Notebook") no_reason_instance) "Error Message"
     = Some PNone.
Proof.
  destruct (error_message_of_null_and_absent_reason
              (world [page [null_reason_instance; no_reason_instance]]
                     (answer None null_reason_instance) [])
              "nb" "j2" (Some "Notebook") None "Sales" "ws-1" "nb" "it-1" "Notebook"
              null_reason_instance [page [null_reason_instance; no_reason_instance]])
    as (Hlist & Hget & Hnull & Habsent).
  - repeat split; reflexivity.
  - reflexivity.
  - discriminate.
  - repeat split; try reflexivity. eexists. split; reflexivity.
  - reflexivity.
  - split; [exact Hlist|]. split; [exact Hget|]. split.
    + unfold null_reason_instance. apply Hnull. reflexivity.
    + unfold no_reason_instance. apply Habsent. reflexivity.
Defined.

(** C1, as the specification states it, fails: an instance without a
    [failureReason] field gets the Error Message cell [None], not the
    empty string, from [get_item_job_instance] and from
    [list_item_job_instances]. *)
Lemma absent_failure_reason_gives_null_cell :
  py_get no_reason_instance "failureReason" (PStr "absent") = Ok (PStr "absent")
  /\ snd (run (get_item_job_instance (world [] (answer None no_reason_instance) [])
                 "nb" "j3" None None))
     = Ok {| df_columns := typed_columns; df_rows := [no_reason_row PNone] |}
  /\ snd (run (list_item_job_instances (world [page [no_reason_instance]] created [])
                 "nb" None None))
     = Ok {| df_columns := typed_columns; df_rows := [no_reason_row (PStr "Notebook")] |}
  /\ cell (no_reason_row PNone) "Error Message" = Some PNone
  /\ cell (no_reason_row (PStr "Notebook")) "Error Message" = Some PNone
  /\ cell (no_reason_row PNone) "Error Message" <> Some (PStr EmptyString)
  /\ cell (no_reason_row (PStr "Notebook")) "Error Message" <> Some (PStr EmptyString).
Proof. repeat split; try reflexivity; discriminate. Qed.

(* ================================================================== *)
(** ** The properties of the specification: importing a notebook *)
(* ================================================================== *)

Section ImportFacts.

Variable W : World.

Lemma filter_length_zero (name : string) (names : list string) :
  (List.length (filter (String.eqb name) names) =? 0)%nat
  = negb (existsb (String.eqb name) names).
Proof.
  induction names as [|n r IH]; simpl; [reflexivity|].
  destruct (String.eqb name n); simpl; [reflexivity | exact IH].
Qed.

Lemma filter_length_pos (name : string) (names : list string) :
  (0 <? List.length (filter (String.eqb name) names))%nat
  = existsb (String.eqb name) names.
Proof.
  induction names as [|n r IH]; simpl; [reflexivity|].
  destruct (String.eqb name n); simpl; [reflexivity | exact IH].
Qed.

(** [import_notebook_from_web] once the page is fetched and the notebooks
    of the workspace are listed. *)
Lemma import_notebook_from_web_run notebook_name url description workspace overwrite
    wn wid resp names :
  resolve_workspace_name_and_id W workspace = Ok (wn, wid) ->
  requests_get W (raw_url url) = Ok resp ->
  status_code resp = 200%Z ->
  list_items W workspace "Notebook" = Ok names ->
  run (import_notebook_from_web W notebook_name url description workspace overwrite)
  = (if negb (existsb (String.eqb notebook_name) names) then
       create_notebook W notebook_name (content resp) "py" description (Some wid)
         (Some "ipynb")
     else if overwrite then
       call (Print (info W ++ " Overwrite of notebooks is currently not supported."))
            (Ok tt)
     else raise (ValueError (AlreadyExists notebook_name wn)))
      [ Resolve_workspace workspace;
        Requests_get (raw_url url);
        List_items workspace "Notebook" ].
Proof.
  intros Hw Hg Hs Hl.
  unfold run, import_notebook_from_web, bind, call, lift, ret.
  rewrite Hw. cbn [app]. rewrite Hg, Hs. cbn [Z.eqb Pos.eqb negb app]. rewrite Hl.
  rewrite filter_length_zero, filter_length_pos. cbn [app].
  destruct (existsb (String.eqb notebook_name) names); reflexivity.
Qed.

End ImportFacts.

(** C6.  Once the page is fetched and the notebooks of the workspace are
    listed, [import_notebook_from_web] does one of three things: when no
    listed notebook has the target name, it creates the notebook (one
    call of [create_item], whose answer is the outcome); when one has and
    [overwrite] is true, it only prints the notice, and its log holds no
    mutating call; when one has and [overwrite] is false, it raises the
    already-exists error, having created nothing. *)
Theorem import_splits_three_ways
    (W : World) (notebook_name url : string) (description workspace : option string)
    (overwrite : bool) (wn wid : string) (resp : response) (names : list string) :
  resolve_workspace_name_and_id W workspace = Ok (wn, wid) ->
  requests_get W (raw_url url) = Ok resp ->
  status_code resp = 200%Z ->
  list_items W workspace "Notebook" = Ok names ->
  let before := [ Resolve_workspace workspace;
                  Requests_get (raw_url url);
                  List_items workspace "Notebook" ] in
  let outcome :=
    run (import_notebook_from_web W notebook_name url description workspace overwrite) in
  let definition :=
    PDict [ ("parts",
             PList [ PDict [ ("path", PStr "notebook-content.py");
                             ("payload", PStr (b64encode (content resp)));
                             ("payloadType", PStr "InlineBase64") ] ]);
            ("format", PStr "ipynb") ] in
  (existsb (String.eqb notebook_name) names = false ->
   outcome
   = ((before ++ [Create_item notebook_name "Notebook" (Some wid) description definition])%list,
      create_item W notebook_name "Notebook" (Some wid) description definition))
  /\ (existsb (String.eqb notebook_name) names = true -> overwrite = true ->
      outcome
      = ((before ++ [Print (info W ++ " Overwrite of notebooks is currently not supported.")])%list,
         Ok tt)
      /\ existsb mutating (fst outcome) = false)
  /\ (existsb (String.eqb notebook_name) names = true -> overwrite = false ->
      outcome = (before, Raise (ValueError (AlreadyExists notebook_name wn)))).
Proof.
  intros Hw Hg Hs Hl before outcome definition. subst outcome.
  rewrite (import_notebook_from_web_run W _ _ _ _ _ _ _ _ _ Hw Hg Hs Hl).
  split; [|split].
  - intros ->. reflexivity.
  - intros -> ->. cbn [negb]. split; reflexivity.
  - intros -> ->. reflexivity.
Qed.

Lemma import_splits_three_ways_witness :
  run (import_notebook_from_web (world [] created ["Sales report"]) "Budget"
         "https://github.com/org/repo/blob/main/nb.ipynb" None None false)
  = ([ Resolve_workspace None;
       Requests_get "https://raw.githubusercontent.com/org/repo/main/nb.ipynb";
       List_items None "Notebook";
       Create_item "Budget" "Notebook" (Some "ws-1") None
         (PDict [ ("parts",
                   PList [ PDict [ ("path", PStr "notebook-content.py");
                                   ("payload", PStr "e30=");
                                   ("payloadType", PStr "InlineBase64") ] ]);
                  ("format", PStr "ipynb") ]) ],
     Ok tt)
  /\ run (import_notebook_from_web (world [] created ["Sales report"]) "Sales report"
            "https://github.com/org/repo/blob/main/nb.ipynb" None None true)
     = ([ Resolve_workspace None;
          Requests_get "https://raw.githubusercontent.com/org/repo/main/nb.ipynb";
          List_items None "Notebook";
          Print "(i) Overwrite of notebooks is currently not supported." ],
        Ok tt)
  /\ run (import_notebook_from_web (world [] created ["Sales report"]) "Sales report"
            "https://github.com/org/repo/blob/main/nb.ipynb" None None false)
     = ([ Resolve_workspace None;
          Requests_get "https://raw.githubusercontent.com/org/repo/main/nb.ipynb";
          List_items None "Notebook" ],
        Raise (ValueError (AlreadyExists "Sales report" "Sales"))).
Proof.
  split; [|split].
  - exact (proj1 (import_splits_three_ways (world [] created ["Sales report"]) "Budget"
                    "https://github.com/org/repo/blob/main/nb.ipynb" None None false
                    "Sales" "ws-1" created ["Sales report"]
                    eq_refl eq_refl eq_refl eq_refl) eq_refl).
  - exact (proj1 (proj1 (proj2 (import_splits_three_ways (world [] created ["Sales report"])
                       "Sales report" "https://github.com/org/repo/blob/main/nb.ipynb"
                       None None true "Sales" "ws-1" created ["Sales report"]
                       eq_refl eq_refl eq_refl eq_refl)) eq_refl eq_refl)).
  - exact (proj2 (proj2 (import_splits_three_ways (world [] created ["Sales report"])
                       "Sales report" "https://github.com/org/repo/blob/main/nb.ipynb"
                       None None false "Sales" "ws-1" created ["Sales report"]
                       eq_refl eq_refl eq_refl eq_refl)) eq_refl eq_refl).
Defined.

(* ================================================================== *)
(** ** Further properties: the schedule checks and the returned id *)
(* ================================================================== *)

Section SplitFacts.

(** A split has one piece more than the string has separators. *)
Lemma str_split_length (sep : ascii) (s : string) :
  List.length (str_split sep s) = S (count_char sep s).
Proof.
  induction s as [|c r IH]; cbn [str_split count_char]; [reflexivity|].
  destruct (Ascii.eqb c sep).
  - cbn [List.length]. now rewrite IH.
  - destruct (str_split_cons sep r) as [h [t E]]. rewrite E in IH |- *.
    exact IH.
Qed.

(** A string that holds a separator ends in a piece without one, right
    after its last separator. *)
Lemma last_separator (sep : ascii) (s : string) :
  contains_char sep s = true ->
  exists pre seg, s = pre ++ String sep seg /\ contains_char sep seg = false.
Proof.
  induction s as [|c r IH]; cbn [contains_char]; [discriminate|].
  intros H. destruct (contains_char sep r) eqn:Er.
  - destruct (IH eq_refl) as (pre & seg & -> & Hseg).
    exists (String c pre), seg. split; [reflexivity | exact Hseg].
  - rewrite orb_false_r in H. apply Ascii.eqb_eq in H. subst c.
    exists EmptyString, r. split; [reflexivity | exact Er].
Qed.

Lemma str_app_assoc (a b c : string) : (a ++ b) ++ c = a ++ (b ++ c).
Proof. induction a as [|x r IH]; cbn; [reflexivity | now rewrite IH]. Qed.

Lemma str_app_nil_r (a : string) : a ++ EmptyString = a.
Proof. induction a as [|x r IH]; cbn; [reflexivity | now rewrite IH]. Qed.

End SplitFacts.

(** X1.  With a recognised type and an interval in range, the checks of
    [create_item_schedule] and [update_item_schedule] refuse [times]
    exactly when the text [str(times)] holds at least 100 periods; the
    refusal comes before any call. *)
Theorem times_check_counts_periods
    (W : World) (item schedule_id : string) (item_type job_type workspace : option string)
    (sdt edt tz : option string) (sct : string) (enabled : bool) (i : Z)
    (weekdays : option string) (times : pyval) :
  str_in (str_lower sct) valid_types = true ->
  (1 <= i <= 5270400)%Z ->
  validate (Some sct) (Some i) times
  = (if (100 <=? count_char "."%char (py_str times))%nat
     then Raise (ValueError TooManyTimes) else Ok tt)
  /\ ((100 <= count_char "."%char (py_str times))%nat ->
      run (create_item_schedule W item item_type job_type workspace
             sdt edt tz (Some sct) enabled (Some i) weekdays times)
      = ([], Raise (ValueError TooManyTimes))
      /\ run (update_item_schedule W item schedule_id item_type job_type workspace
                sdt edt tz (Some sct) enabled (Some i) weekdays times)
         = ([], Raise (ValueError TooManyTimes))).
Proof.
  intros Ht Hi.
  assert (Hv : validate (Some sct) (Some i) times
               = (if (100 <=? count_char "."%char (py_str times))%nat
                  then Raise (ValueError TooManyTimes) else Ok tt)).
  { unfold validate. cbn [lower_of rbind]. rewrite Ht. cbn [negb].
    rewrite interval_test_supplied. cbn [rbind].
    replace (i <? 1)%Z with false by (symmetry; apply Z.ltb_ge; lia).
    replace (5270400 <? i)%Z with false by (symmetry; apply Z.ltb_ge; lia).
    cbn [orb]. unfold times_test. rewrite str_split_length. reflexivity. }
  split; [exact Hv|]. intros Hc.
  apply Nat.leb_le in Hc. rewrite Hc in Hv. split.
  - now apply create_stops_at_validation.
  - now apply update_stops_at_validation.
Qed.

Lemma times_check_counts_periods_witness :
  validate (Some "Weekly") (Some 60%Z) (PList [PStr "10.30"; PStr "18.30"]) = Ok tt.
Proof.
  refine (proj1 (times_check_counts_periods (world [] created []) "nb" "s1" None None None
                   None None None "Weekly" true 60%Z None
                   (PList [PStr "10.30"; PStr "18.30"]) eq_refl _)).
  lia.
Defined.

(** X2.  Whatever the Location header holds, the id read from it is a
    suffix of the header without any slash, preceded by nothing or by a
    slash: the whole header when it has no slash, the empty string when
    it ends in one. *)
Theorem location_id_is_slash_free_suffix (r : response) (h : string) :
  headers_get r "Location" = Some h ->
  exists pre seg,
    h = pre ++ seg
    /\ location_id r = Ok seg
    /\ contains_char "/"%char seg = false
    /\ (pre = EmptyString \/ exists p, pre = p ++ "/").
Proof.
  intros Hh. unfold location_id. rewrite Hh.
  destruct (contains_char "/"%char h) eqn:E.
  - destruct (last_separator _ _ E) as (p & seg & -> & Hseg).
    exists (p ++ "/"), seg. repeat split.
    + now rewrite str_app_assoc.
    + now apply last_segment.
    + exact Hseg.
    + right. now exists p.
  - exists EmptyString, h. repeat split.
    + now rewrite (str_split_without _ _ E).
    + exact E.
    + now left.
Qed.

Lemma location_id_is_slash_free_suffix_witness :
  exists pre seg,
    "https://api/v1/jobs/instances/" = pre ++ seg
    /\ location_id (answer (Some "https://api/v1/jobs/instances/") PNone) = Ok seg
    /\ contains_char "/"%char seg = false
    /\ (pre = EmptyString \/ exists p, pre = p ++ "/").
Proof.
  apply (location_id_is_slash_free_suffix
           (answer (Some "https://api/v1/jobs/instances/") PNone)).
  reflexivity.
Defined.

Example location_ending_in_slash :
  location_id (answer (Some "https://api/v1/jobs/instances/") PNone) = Ok EmptyString.
Proof. reflexivity. Qed.

(** X3.  When the response has no Location header,
    [run_on_demand_item_job] and [create_item_schedule] raise
    [AttributeError], and they do so after the request was sent and the
    success notice printed. *)
Theorem missing_location_raises_after_the_request
    (W : World) (item : string) (item_type job_type workspace : option string)
    (sdt edt tz sct : option string) (enabled : bool) (interval : option Z)
    (weekdays : option string) (times : pyval)
    (wn wid iname iid ity : string) (p : pyval) (ran made : response) :
  names_resolve W item item_type workspace wn wid iname iid ->
  match item_type with
  | Some t => ity = t
  | None => resolve_item_type W iid wid = Ok ity
  end ->
  _base_api W (run_request wid iid job_type) = Ok ran ->
  headers_get ran "Location" = None ->
  validate sct interval times = Ok tt ->
  __create_item_schedule_payload enabled sdt edt tz sct interval weekdays times = Ok p ->
  _base_api W (create_request wid iid job_type p) = Ok made ->
  headers_get made "Location" = None ->
  run (run_on_demand_item_job W item item_type job_type workspace)
  = ((Resolve_workspace workspace
        :: Resolve_item item item_type workspace
        :: match item_type with
           | None => [Resolve_item_type iid wid]
           | Some _ => []
           end)
       ++ [ Base_api (run_request wid iid job_type);
            Print (green_dot W ++ " The '" ++ iname ++ "' " ++ str_lower ity
                   ++ " has been executed.") ],
     Raise AttributeError)%list
  /\ run (create_item_schedule W item item_type job_type workspace
            sdt edt tz sct enabled interval weekdays times)
     = ([ Resolve_workspace workspace;
          Resolve_item item item_type workspace;
          Base_api (create_request wid iid job_type p);
          Print_success iname "schedule" wn "created" ],
        Raise AttributeError).
Proof.
  intros [Hw Hi] Ht Hran Hloc Hv Hp Hmade Hloc'. split.
  - unfold run, run_on_demand_item_job, bind, call, lift, ret. rewrite Hw, Hi.
    destruct item_type as [t|]; [subst ity | rewrite Ht]; rewrite Hran;
      unfold location_id; now rewrite Hloc.
  - rewrite (create_item_schedule_run W _ _ _ _ _ _ _ _ _ _ _ _ _ _ _ _ _ _ Hv Hp Hw Hi Hmade).
    unfold location_id. now rewrite Hloc'.
Qed.

Lemma missing_location_raises_after_the_request_witness :
  run (run_on_demand_item_job (world [] (answer None PNone) []) "nb" None
         (Some "RunNotebook") None)
  = ([ Resolve_workspace None;
       Resolve_item "nb" None None;
       Resolve_item_type "it-1" "ws-1";
       Base_api (run_request "ws-1" "it-1" (Some "RunNotebook"));
       Print "(ok) The 'nb' notebook has been executed." ],
     Raise AttributeError)
  /\ run (create_item_schedule (world [] (answer None PNone) []) "nb" None
            (Some "RunNotebook") None None None None (Some "Cron") true (Some 60%Z) None PNone)
     = ([ Resolve_workspace None;
          Resolve_item "nb" None None;
          Base_api (create_request "ws-1" "it-1" (Some "RunNotebook")
                      (PDict [ ("enabled", PBool true);
                               ("configuration",
                                PDict [ ("startDateTime", PNone); ("endDateTime", PNone);
                                        ("localTimeZoneId", PNone); ("type", PStr "Cron");
                                        ("interval", PInt 60) ]) ]));
          Print_success "nb" "schedule" "Sales" "created" ],
        Raise AttributeError).
Proof.
  apply (missing_location_raises_after_the_request (world [] (answer None PNone) []) "nb"
           None (Some "RunNotebook") None None None None (Some "Cron") true (Some 60%Z) None
           PNone "Sales" "ws-1" "nb" "it-1" "Notebook" _ (answer None PNone)
           (answer None PNone));
    try reflexivity.
  split; reflexivity.
Defined.

Section NoticeFacts.

Variable W : World.

Ltac answered req :=
  intros _; eexists req, _; split; [cbn; tauto | eassumption].

(** X4.  A success notice is in the log of [run_on_demand_item_job],
    [create_item_schedule], [update_item_schedule] or
    [cancel_item_job_instance] only when the request was sent and
    answered: a failed resolution, check or request prints nothing. *)
Theorem notice_only_after_the_request_is_answered
    (item schedule_id job_instance_id : string)
    (item_type job_type workspace sdt edt tz sct : option string) (enabled : bool)
    (interval : option Z) (weekdays : option string) (times : pyval) :
  (existsb is_notice (fst (run (run_on_demand_item_job W item item_type job_type workspace)))
   = true ->
   exists req resp,
     In (Base_api req) (fst (run (run_on_demand_item_job W item item_type job_type workspace)))
     /\ _base_api W req = Ok resp)
  /\ (existsb is_notice
        (fst (run (create_item_schedule W item item_type job_type workspace
                     sdt edt tz sct enabled interval weekdays times))) = true ->
      exists req resp,
        In (Base_api req)
           (fst (run (create_item_schedule W item item_type job_type workspace
                        sdt edt tz sct enabled interval weekdays times)))
        /\ _base_api W req = Ok resp)
  /\ (existsb is_notice
        (fst (run (update_item_schedule W item schedule_id item_type job_type workspace
                     sdt edt tz sct enabled interval weekdays times))) = true ->
      exists req resp,
        In (Base_api req)
           (fst (run (update_item_schedule W item schedule_id item_type job_type workspace
                        sdt edt tz sct enabled interval weekdays times)))
        /\ _base_api W req = Ok resp)
  /\ (existsb is_notice
        (fst (run (cancel_item_job_instance W item job_instance_id item_type workspace)))
      = true ->
      exists req resp,
        In (Base_api req)
           (fst (run (cancel_item_job_instance W item job_instance_id item_type workspace)))
        /\ _base_api W req = Ok resp).
Proof.
  split; [|split; [|split]].
  - unfold run, run_on_demand_item_job, bind, call, lift, ret.
    destruct (resolve_workspace_name_and_id W workspace) as [[wn wid]|]; [|discriminate].
    destruct (resolve_item_name_and_id W item item_type workspace) as [[iname iid]|];
      [|discriminate].
    destruct item_type as [t|].
    + destruct (_base_api W (run_request wid iid job_type)) eqn:E; [|discriminate].
      answered (run_request wid iid job_type).
    + destruct (resolve_item_type W iid wid) as [ity|]; [|discriminate].
      destruct (_base_api W (run_request wid iid job_type)) eqn:E; [|discriminate].
      answered (run_request wid iid job_type).
  - unfold run, create_item_schedule, bind, call, lift, ret.
    destruct (validate sct interval times); [|discriminate].
    destruct (__create_item_schedule_payload _ _ _ _ _ _ _ _) as [p|]; [|discriminate].
    destruct (resolve_workspace_name_and_id W workspace) as [[wn wid]|]; [|discriminate].
    destruct (resolve_item_name_and_id W item item_type workspace) as [[iname iid]|];
      [|discriminate].
    destruct (_base_api W (create_request wid iid job_type p)) eqn:E; [|discriminate].
    answered (create_request wid iid job_type p).
  - unfold run, update_item_schedule, bind, call, lift, ret.
    destruct (validate sct interval times); [|discriminate].
    destruct (__create_item_schedule_payload _ _ _ _ _ _ _ _) as [p|]; [|discriminate].
    destruct (resolve_workspace_name_and_id W workspace) as [[wn wid]|]; [|discriminate].
    destruct (resolve_item_name_and_id W item item_type workspace) as [[iname iid]|];
      [|discriminate].
    destruct (_base_api W (update_request wid iid job_type schedule_id p)) eqn:E;
      [|discriminate].
    answered (update_request wid iid job_type schedule_id p).
  - unfold run, cancel_item_job_instance, bind, call, lift, ret.
    destruct (resolve_workspace_name_and_id W workspace) as [[wn wid]|]; [|discriminate].
    destruct (resolve_item_name_and_id W item item_type workspace) as [[iname iid]|];
      [|discriminate].
    destruct (_base_api W (cancel_request wid iid job_instance_id)) eqn:E; [|discriminate].
    answered (cancel_request wid iid job_instance_id).
Qed.

End NoticeFacts.

Lemma notice_only_after_the_request_is_answered_witness :
  exists req resp,
    In (Base_api req)
       (fst (run (cancel_item_job_instance (world [] created []) "nb" "j1" None None)))
    /\ _base_api (world [] created []) req = Ok resp.
Proof.
  apply (proj2 (proj2 (proj2 (notice_only_after_the_request_is_answered
                                (world [] created []) "nb" "s1" "j1" None None None
                                None None None None true None None PNone)))).
  reflexivity.
Defined.

Example refused_cancellation_prints_nothing :
  run (cancel_item_job_instance refusing_world "nb" "j1" None None)
  = ([ Resolve_workspace None;
       Resolve_item "nb" None None;
       Base_api (cancel_request "ws-1" "it-1" "j1") ],
     Raise (FabricHTTPException 403)).
Proof. reflexivity. Qed.

Section RequestFacts.

Variable W : World.

(** X5.  A request is in the log of [run_on_demand_item_job],
    [create_item_schedule], [update_item_schedule] or
    [cancel_item_job_instance] only when the workspace and the item
    resolved, and for the two schedule functions only when the checks
    passed: nothing is sent for names that do not resolve. *)
Theorem request_only_after_names_resolve
    (item schedule_id job_instance_id : string)
    (item_type job_type workspace sdt edt tz sct : option string) (enabled : bool)
    (interval : option Z) (weekdays : option string) (times : pyval) :
  (existsb is_request (fst (run (run_on_demand_item_job W item item_type job_type workspace)))
   = true ->
   exists wn wid iname iid, names_resolve W item item_type workspace wn wid iname iid)
  /\ (existsb is_request
        (fst (run (create_item_schedule W item item_type job_type workspace
                     sdt edt tz sct enabled interval weekdays times))) = true ->
      validate sct interval times = Ok tt
      /\ exists wn wid iname iid, names_resolve W item item_type workspace wn wid iname iid)
  /\ (existsb is_request
        (fst (run (update_item_schedule W item schedule_id item_type job_type workspace
                     sdt edt tz sct enabled interval weekdays times))) = true ->
      validate sct interval times = Ok tt
      /\ exists wn wid iname iid, names_resolve W item item_type workspace wn wid iname iid)
  /\ (existsb is_request
        (fst (run (cancel_item_job_instance W item job_instance_id item_type workspace)))
      = true ->
      exists wn wid iname iid, names_resolve W item item_type workspace wn wid iname iid).
Proof.
  unfold names_resolve. split; [|split; [|split]].
  - unfold run, run_on_demand_item_job, bind, call, lift, ret.
    destruct (resolve_workspace_name_and_id W workspace) as [[wn wid]|]; [|discriminate].
    destruct (resolve_item_name_and_id W item item_type workspace) as [[iname iid]|];
      [|discriminate].
    intros _. now exists wn, wid, iname, iid.
  - unfold run, create_item_schedule, bind, call, lift, ret.
    destruct (validate sct interval times) as [[]|]; [|discriminate].
    destruct (__create_item_schedule_payload _ _ _ _ _ _ _ _) as [p|]; [|discriminate].
    destruct (resolve_workspace_name_and_id W workspace) as [[wn wid]|]; [|discriminate].
    destruct (resolve_item_name_and_id W item item_type workspace) as [[iname iid]|];
      [|discriminate].
    intros _. split; [reflexivity|]. now exists wn, wid, iname, iid.
  - unfold run, update_item_schedule, bind, call, lift, ret.
    destruct (validate sct interval times) as [[]|]; [|discriminate].
    destruct (__create_item_schedule_payload _ _ _ _ _ _ _ _) as [p|]; [|discriminate].
    destruct (resolve_workspace_name_and_id W workspace) as [[wn wid]|]; [|discriminate].
    destruct (resolve_item_name_and_id W item item_type workspace) as [[iname iid]|];
      [|discriminate].
    intros _. split; [reflexivity|]. now exists wn, wid, iname, iid.
  - unfold run, cancel_item_job_instance, bind, call, lift, ret.
    destruct (resolve_workspace_name_and_id W workspace) as [[wn wid]|]; [|discriminate].
    destruct (resolve_item_name_and_id W item item_type workspace) as [[iname iid]|];
      [|discriminate].
    intros _. now exists wn, wid, iname, iid.
Qed.

End RequestFacts.

Lemma request_only_after_names_resolve_witness :
  validate (Some "cron") (Some 5%Z) PNone = Ok tt
  /\ exists wn wid iname iid,
       names_resolve refusing_world "nb" None None wn wid iname iid.
Proof.
  apply (proj1 (proj2 (request_only_after_names_resolve refusing_world "nb" "s1" "j1"
                         None None None None None None (Some "cron") true (Some 5%Z)
                         None PNone))).
  reflexivity.
Defined.

(* ================================================================== *)
(** ** Further properties: schedules listed and fetched *)
(* ================================================================== *)

Section ScheduleRowFacts.

(** On a plain schedule the row dictionary is the closed form. *)
Lemma schedule_new_data_plain (v : pyval) :
  plain_schedule v = true ->
  schedule_new_data v = Ok (schedule_row v).
Proof.
  destruct v as [| | | |l|d]; try discriminate.
  unfold plain_schedule, schedule_row, schedule_new_data, sub_object.
  cbn [py_get rbind].
  destruct (dict_get d "configuration") as [[| | | |l|c]|]; try discriminate;
    destruct (dict_get d "owner") as [[| | | |l|o]|]; try discriminate;
    intros H; repeat (apply andb_prop in H; destruct H as [H ?]);
    cbn [py_get rbind]; unfold json_ok, json_text, field in *;
    cbn [dict_get] in *;
    try (destruct (json_dumps (match dict_get c "times" with
                               | Some x => x
                               | None => PNone
                               end)) as [t|]; [|discriminate]);
    reflexivity.
Qed.

Lemma schedule_row_scalar (v : pyval) :
  plain_schedule v = true ->
  forallb is_scalar (map snd (schedule_row v)) = true.
Proof.
  destruct v as [| | | |l|d]; try discriminate.
  unfold plain_schedule, schedule_row.
  destruct (sub_object d "configuration") as [c|]; [|discriminate].
  destruct (sub_object d "owner") as [o|]; [|discriminate].
  intros H. cbn [forallb] in H.
  repeat (apply andb_prop in H; destruct H as [H ?]).
  repeat match goal with
         | Hk : _ && _ = true |- _ => apply andb_prop in Hk; destruct Hk
         end.
  cbn [map snd forallb is_scalar].
  repeat match goal with
         | Hk : is_scalar _ = true |- _ => rewrite Hk; clear Hk
         end.
  reflexivity.
Qed.

Lemma schedule_row_columns (v : pyval) :
  plain_schedule v = true ->
  map (fun kv : string * pyval => (fst kv, @None string)) (schedule_row v)
  = untyped_schedule_columns.
Proof.
  destruct v as [| | | |l|d]; try discriminate.
  unfold plain_schedule, schedule_row.
  destruct (sub_object d "configuration") as [c|]; [|discriminate].
  destruct (sub_object d "owner") as [o|]; [|discriminate].
  reflexivity.
Qed.

Lemma append_schedule_plain (df : DataFrame) (v : pyval) :
  schedule_columns df ->
  plain_schedule v = true ->
  append_schedule df v
  = Ok {| df_columns := untyped_schedule_columns;
          df_rows := (df_rows df ++ [schedule_row v])%list |}.
Proof.
  intros Hc Hv. unfold append_schedule.
  rewrite (schedule_new_data_plain v Hv). cbn [rbind].
  unfold pd_DataFrame. rewrite (schedule_row_scalar v Hv), (schedule_row_columns v Hv).
  cbn [rbind pd_concat map fold_left concat df_columns df_rows].
  rewrite app_nil_r. destruct Hc as [-> | ->]; reflexivity.
Qed.

Lemma append_schedules_plain (vs : list pyval) (df : DataFrame) :
  schedule_columns df ->
  forallb plain_schedule vs = true ->
  exists df',
    append_schedules df vs = Ok df'
    /\ schedule_columns df'
    /\ df_rows df' = (df_rows df ++ map schedule_row vs)%list.
Proof.
  induction vs as [|v rest IH] in df |- *; cbn [forallb append_schedules map]; intros Hc H.
  - exists df. now rewrite app_nil_r.
  - apply andb_prop in H. destruct H as [Hv Hrest].
    rewrite (append_schedule_plain df v Hc Hv). cbn [rbind].
    destruct (IH {| df_columns := untyped_schedule_columns;
                    df_rows := (df_rows df ++ [schedule_row v])%list |}
                 (or_intror eq_refl) Hrest) as (df' & E & Hc' & Hrows).
    exists df'. split; [exact E|]. split; [exact Hc'|].
    rewrite Hrows. cbn [df_rows]. now rewrite <- app_assoc.
Qed.

Lemma typed_schedule_table (df : DataFrame) :
  schedule_columns df ->
  _update_dataframe_datatypes df job_schedule_columns
  = {| df_columns := typed_schedule_columns; df_rows := df_rows df |}.
Proof.
  intros [H | H]; unfold _update_dataframe_datatypes; rewrite H; reflexivity.
Qed.

End ScheduleRowFacts.

Section ScheduleTableFacts.

Variable W : World.

(** X6.  When the names resolve and the job API answers with plain
    schedules, [list_item_schedules] makes the two resolutions and one
    request, looks no item type up, and returns the table of the declared
    columns with one row per schedule, in the order listed; a body
    without a value array gives the table without rows. *)
Theorem schedules_are_listed_one_row_each
    (item : string) (item_type job_type workspace : option string)
    (wn wid iname iid : string) (resp : response) (d : dict) (l : list pyval) :
  names_resolve W item item_type workspace wn wid iname iid ->
  _base_api W (schedules_request wid iid job_type) = Ok resp ->
  json resp = Ok (PDict d) ->
  dict_get d "value" = Some (PList l) \/ (dict_get d "value" = None /\ l = []) ->
  forallb plain_schedule l = true ->
  run (list_item_schedules W item item_type job_type workspace)
  = ([ Resolve_workspace workspace;
       Resolve_item item item_type workspace;
       Base_api (schedules_request wid iid job_type) ],
     Ok {| df_columns := typed_schedule_columns; df_rows := map schedule_row l |}).
Proof.
  intros [Hw Hi] Hr Hj Hv Hl.
  unfold run, list_item_schedules, bind, call, lift, ret.
  rewrite Hw, Hi, Hr, Hj. cbn [py_get].
  assert (E : match dict_get d "value" with Some x => x | None => PList [] end = PList l).
  { destruct Hv as [-> | [-> ->]]; reflexivity. }
  rewrite E. cbn [py_iter].
  destruct (append_schedules_plain l (_create_dataframe job_schedule_columns)
              (or_introl eq_refl) Hl) as (df' & Ea & Hc & Hrows).
  rewrite Ea, (typed_schedule_table df' Hc), Hrows. reflexivity.
Qed.

(** X7.  A schedule whose [configuration] or [owner] is null, rather
    than absent, has no row: building it raises [AttributeError], in
    [get_item_schedule] and, after the rows of the plain schedules
    listed before it, in [list_item_schedules]. *)
Theorem null_configuration_or_owner_raises
    (item schedule_id : string) (item_type job_type workspace : option string)
    (wn wid iname iid : string) (listed got : response)
    (body d : dict) (pre post : list pyval) :
  names_resolve W item item_type workspace wn wid iname iid ->
  dict_get d "configuration" = Some PNone
  \/ (exists c, sub_object d "configuration" = Some c
                /\ json_ok (field c "times") = true
                /\ dict_get d "owner" = Some PNone) ->
  _base_api W (schedule_request wid iid job_type schedule_id) = Ok got ->
  json got = Ok (PDict d) ->
  _base_api W (schedules_request wid iid job_type) = Ok listed ->
  json listed = Ok (PDict body) ->
  dict_get body "value" = Some (PList (pre ++ PDict d :: post)) ->
  forallb plain_schedule pre = true ->
  schedule_new_data (PDict d) = Raise AttributeError
  /\ snd (run (get_item_schedule W item schedule_id item_type job_type workspace))
     = Raise AttributeError
  /\ snd (run (list_item_schedules W item item_type job_type workspace))
     = Raise AttributeError.
Proof.
  intros [Hw Hi] Hnull Hg Hgj Hl Hlj Hv Hpre.
  assert (E : schedule_new_data (PDict d) = Raise AttributeError).
  { unfold schedule_new_data. cbn [py_get rbind].
    destruct Hnull as [-> | (c & Hc & Hj & Ho)]; [reflexivity|].
    rewrite Ho. unfold sub_object in Hc.
    destruct (dict_get d "configuration") as [[| | | |l|c']|]; try discriminate;
      injection Hc as <-; cbn [py_get rbind]; unfold json_ok, field in Hj;
      destruct (json_dumps _); try discriminate; reflexivity. }
  split; [exact E|]. split.
  - unfold run, get_item_schedule, bind, call, lift, ret.
    rewrite Hw, Hi, Hg, Hgj. unfold append_schedule. now rewrite E.
  - unfold run, list_item_schedules, bind, call, lift, ret.
    rewrite Hw, Hi, Hl, Hlj. cbn [py_get]. rewrite Hv. cbn [py_iter].
    assert (Ha : forall df, schedule_columns df ->
                 append_schedules df (pre ++ PDict d :: post) = Raise AttributeError).
    { clear - E Hpre. induction pre as [|v rest IH]; intros df Hc.
      - cbn [app append_schedules]. unfold append_schedule. now rewrite E.
      - cbn [forallb] in Hpre. apply andb_prop in Hpre. destruct Hpre as [Hv Hrest].
        cbn [app append_schedules]. rewrite (append_schedule_plain df v Hc Hv).
        cbn [rbind]. apply (IH Hrest). now right. }
    rewrite (Ha (_create_dataframe job_schedule_columns) (or_introl eq_refl)).
    reflexivity.
Qed.

(** X8.  [get_item_schedule] answers what [list_item_schedules] answers
    for a listing that holds that schedule alone, whatever the schedule
    object is: the same table, or the same error. *)
Theorem fetched_schedule_is_the_listed_one
    (item schedule_id : string) (item_type job_type workspace : option string)
    (wn wid iname iid : string) (listed got : response) (body : dict) (v : pyval) :
  names_resolve W item item_type workspace wn wid iname iid ->
  _base_api W (schedule_request wid iid job_type schedule_id) = Ok got ->
  json got = Ok v ->
  _base_api W (schedules_request wid iid job_type) = Ok listed ->
  json listed = Ok (PDict body) ->
  dict_get body "value" = Some (PList [v]) ->
  snd (run (get_item_schedule W item schedule_id item_type job_type workspace))
  = snd (run (list_item_schedules W item item_type job_type workspace)).
Proof.
  intros [Hw Hi] Hg Hgj Hl Hlj Hv.
  unfold run, get_item_schedule, list_item_schedules, bind, call, lift, ret.
  rewrite Hw, Hi, Hg, Hgj, Hl, Hlj. cbn [py_get]. rewrite Hv.
  cbn [py_iter append_schedules].
  destruct (append_schedule (_create_dataframe job_schedule_columns) v); reflexivity.
Qed.

End ScheduleTableFacts.

Lemma schedules_are_listed_one_row_each_witness :
  run (list_item_schedules
         (world [] (answer None (PDict [ ("value", PList [daily_schedule; bare_schedule]) ])) [])
         "nb" None (Some "RunNotebook") None)
  = ([ Resolve_workspace None;
       Resolve_item "nb" None None;
       Base_api (schedules_request "ws-1" "it-1" (Some "RunNotebook")) ],
     Ok {| df_columns := typed_schedule_columns;
           df_rows := [ schedule_row daily_schedule; schedule_row bare_schedule ] |}).
Proof.
  apply (schedules_are_listed_one_row_each
           (world [] (answer None (PDict [ ("value", PList [daily_schedule; bare_schedule]) ])) [])
           "nb" None (Some "RunNotebook") None "Sales" "ws-1" "nb" "it-1"
           (answer None (PDict [ ("value", PList [daily_schedule; bare_schedule]) ]))
           [ ("value", PList [daily_schedule; bare_schedule]) ]
           [daily_schedule; bare_schedule]).
  - split; reflexivity.
  - reflexivity.
  - reflexivity.
  - left. reflexivity.
  - reflexivity.
Defined.

(** The Times cell is JSON text: the list as JSON, and [null] for a
    schedule without times. *)
Example times_cells :
  cell (schedule_row daily_schedule) "Times"
  = Some (PStr ("[" ++ String dquote "10:00" ++ String dquote ", "
                ++ String dquote "18:30" ++ String dquote "]"))
  /\ cell (schedule_row bare_schedule) "Times" = Some (PStr "null").
Proof. split; reflexivity. Qed.

Lemma null_configuration_or_owner_raises_witness :
  schedule_new_data ownerless_schedule = Raise AttributeError
  /\ snd (run (get_item_schedule
                 (routed_world
                    (answer None (PDict [ ("value", PList [daily_schedule; ownerless_schedule]) ]))
                    (answer None ownerless_schedule))
                 "nb" "s3" None (Some "RunNotebook") None))
     = Raise AttributeError
  /\ snd (run (list_item_schedules
                 (routed_world
                    (answer None (PDict [ ("value", PList [daily_schedule; ownerless_schedule]) ]))
                    (answer None ownerless_schedule))
                 "nb" None (Some "RunNotebook") None))
     = Raise AttributeError.
Proof.
  apply (null_configuration_or_owner_raises
           (routed_world
              (answer None (PDict [ ("value", PList [daily_schedule; ownerless_schedule]) ]))
              (answer None ownerless_schedule))
           "nb" "s3" None (Some "RunNotebook") None "Sales" "ws-1" "nb" "it-1"
           (answer None (PDict [ ("value", PList [daily_schedule; ownerless_schedule]) ]))
           (answer None ownerless_schedule)
           [ ("value", PList [daily_schedule; ownerless_schedule]) ]
           [ ("id", PStr "s3"); ("owner", PNone) ]
           [daily_schedule] []).
  - split; reflexivity.
  - right. exists []. repeat split; reflexivity.
  - reflexivity.
  - reflexivity.
  - reflexivity.
  - reflexivity.
  - reflexivity.
  - reflexivity.
Defined.

Lemma fetched_schedule_is_the_listed_one_witness :
  snd (run (get_item_schedule
              (routed_world (answer None (PDict [ ("value", PList [daily_schedule]) ]))
                            (answer None daily_schedule))
              "nb" "s1" None (Some "RunNotebook") None))
  = snd (run (list_item_schedules
                (routed_world (answer None (PDict [ ("value", PList [daily_schedule]) ]))
                              (answer None daily_schedule))
                "nb" None (Some "RunNotebook") None)).
Proof.
  apply (fetched_schedule_is_the_listed_one
           (routed_world (answer None (PDict [ ("value", PList [daily_schedule]) ]))
                         (answer None daily_schedule))
           "nb" "s1" None (Some "RunNotebook") None "Sales" "ws-1" "nb" "it-1"
           (answer None (PDict [ ("value", PList [daily_schedule]) ]))
           (answer None daily_schedule)
           [ ("value", PList [daily_schedule]) ] daily_schedule).
  - split; reflexivity.
  - reflexivity.
  - reflexivity.
  - reflexivity.
  - reflexivity.
  - reflexivity.
Defined.

(* ================================================================== *)
(** ** Further properties: job instances at the edges *)
(* ================================================================== *)

Section InstanceEdgeFacts.

Variable W : World.


(** X10.  A paginated answer without any page makes
    [list_item_job_instances] raise [IndexError], and a first page that
    is not an object makes it raise [AttributeError]; both after the
    names were resolved and the request sent. *)
Theorem no_page_raises_index_error
    (item : string) (item_type workspace : option string)
    (wn wid iname iid ity : string) (responses : list pyval) :
  list_answers W item item_type workspace wn wid iname iid ity responses ->
  (responses = [] ->
   snd (run (list_item_job_instances W item item_type workspace)) = Raise IndexError)
  /\ (forall first rest,
         responses = first :: rest ->
         (forall d, first <> PDict d) ->
         snd (run (list_item_job_instances W item item_type workspace))
         = Raise AttributeError)
  /\ existsb is_request (fst (run (list_item_job_instances W item item_type workspace)))
     = true.
Proof.
  intros Ha. rewrite (list_item_job_instances_run W _ _ _ _ _ _ _ _ _ Ha).
  cbn [fst snd]. split; [|split].
  - intros ->. reflexivity.
  - intros first rest -> Hd. unfold job_instances_table. cbn [rbind].
    destruct first as [| | | |l|d]; try reflexivity. now destruct (Hd d).
  - destruct item_type; reflexivity.
Qed.

(** X11.  A null value array is read in two ways: on the first page it
    means nothing to list and gives the empty table; on a later page,
    after a first page with instances, it makes the iteration raise
    [TypeError]. *)
Theorem null_value_array_on_a_later_page_raises
    (item : string) (item_type workspace : option string)
    (wn wid iname iid ity : string) (responses rest : list pyval)
    (first null_page : dict) (x : pyval) (xs : list pyval) :
  list_answers W item item_type workspace wn wid iname iid ity responses ->
  dict_get null_page "value" = Some PNone ->
  dict_get first "value" = Some (PList (x :: xs)) ->
  forallb plain_instance (x :: xs) = true ->
  (responses = PDict null_page :: rest ->
   snd (run (list_item_job_instances W item item_type workspace))
   = Ok {| df_columns := typed_columns; df_rows := [] |})
  /\ (responses = PDict first :: PDict null_page :: rest ->
      snd (run (list_item_job_instances W item item_type workspace)) = Raise TypeError).
Proof.
  intros Ha Hnull Hfirst Hplain.
  rewrite (list_item_job_instances_run W _ _ _ _ _ _ _ _ _ Ha). cbn [snd]. split.
  - intros ->. unfold job_instances_table. cbn [rbind py_get]. now rewrite Hnull.
  - intros ->. unfold job_instances_table. cbn [rbind py_get frames_of_pages].
    rewrite Hfirst, Hnull. cbn [truthy negb rbind py_iter].
    now rewrite (frames_of_values_plain iname (PStr ity) eq_refl _ Hplain).
Qed.

End InstanceEdgeFacts.


Lemma no_page_raises_index_error_witness :
  snd (run (list_item_job_instances (world [] created []) "nb" None None))
  = Raise IndexError
  /\ snd (run (list_item_job_instances (world [PList []] created []) "nb" None None))
     = Raise AttributeError.
Proof.
  split.
  - refine (proj1 (no_page_raises_index_error (world [] created []) "nb" None None
                     "Sales" "ws-1" "nb" "it-1" "Notebook" [] _) eq_refl).
    repeat split; reflexivity.
  - refine (proj1 (proj2 (no_page_raises_index_error (world [PList []] created []) "nb" None
                            None "Sales" "ws-1" "nb" "it-1" "Notebook" [PList []] _))
                  (PList []) [] eq_refl _).
    + repeat split; reflexivity.
    + discriminate.
Defined.

Lemma null_value_array_on_a_later_page_raises_witness :
  snd (run (list_item_job_instances
              (world [page [failed_instance]; PDict [ ("value", PNone) ]] created [])
              "nb" None None))
  = Raise TypeError.
Proof.
  refine (proj2 (null_value_array_on_a_later_page_raises
                   (world [page [failed_instance]; PDict [ ("value", PNone) ]] created [])
                   "nb" None None "Sales" "ws-1" "nb" "it-1" "Notebook"
                   [page [failed_instance]; PDict [ ("value", PNone) ]] []
                   [ ("value", PList [failed_instance]) ] [ ("value", PNone) ]
                   failed_instance [] _ eq_refl eq_refl eq_refl) eq_refl).
  repeat split; reflexivity.
Defined.

Section FailureReasonFacts.

Variable W : World.

(** X12.  For an instance whose [failureReason] is an object, the Error
    Message cell is the [message] of that object, [None] when it has
    none; a [failureReason] that is neither null nor an object (a string,
    a number, a list) makes [get_item_job_instance] raise
    [AttributeError]. *)
Theorem failure_reason_object_gives_its_message
    (item job_instance_id : string) (item_type workspace : option string)
    (wn wid iname iid : string) (d : dict) (reason : pyval) :
  get_answers W item job_instance_id item_type workspace wn wid iname iid (PDict d) ->
  dict_get d "failureReason" = Some reason ->
  (forall f,
      reason = PDict f ->
      plain_instance (PDict d) = true ->
      exists row,
        snd (run (get_item_job_instance W item job_instance_id item_type workspace))
        = Ok {| df_columns := typed_columns; df_rows := [row] |}
        /\ cell row "Error Message" = Some (field f "message"))
  /\ (reason <> PNone -> (forall f, reason <> PDict f) ->
      snd (run (get_item_job_instance W item job_instance_id item_type workspace))
      = Raise AttributeError).
Proof.
  intros Hg Hr. split.
  - intros f -> Hp.
    rewrite (get_item_job_instance_run W _ _ _ _ _ _ _ _ _ Hg Hp). cbn [snd].
    eexists. split; [reflexivity|].
    unfold cell, instance_row, error_message. rewrite Hr. reflexivity.
  - intros Hn Hd. destruct Hg as (Hw & Hi & resp & Hb & Hj).
    unfold run, get_item_job_instance, bind, call, lift, ret.
    rewrite Hw, Hi, Hb, Hj. unfold instance_frame, new_data.
    cbn [py_get rbind]. rewrite Hr.
    destruct reason as [| | | |l|f]; try reflexivity.
    + now destruct Hn.
    + now destruct (Hd f).
Qed.

End FailureReasonFacts.

Lemma failure_reason_object_gives_its_message_witness :
  exists row,
    snd (run (get_item_job_instance (world [] (answer None failed_instance) [])
                "nb" "j1" None None))
    = Ok {| df_columns := typed_columns; df_rows := [row] |}
    /\ cell row "Error Message" = Some (PStr "boom").
Proof.
  refine (proj1 (failure_reason_object_gives_its_message
                   (world [] (answer None failed_instance) []) "nb" "j1" None None
                   "Sales" "ws-1" "nb" "it-1"
                   [ ("id", PStr "j1"); ("itemId", PStr "it-1"); ("jobType", PStr "RunNotebook");
                     ("status", PStr "Failed");
                     ("failureReason",
                      PDict [ ("errorCode", PStr "E1"); ("message", PStr "boom") ]) ]
                   (PDict [ ("errorCode", PStr "E1"); ("message", PStr "boom") ]) _ eq_refl)
                _ eq_refl eq_refl).
  repeat split; try reflexivity. eexists. split; reflexivity.
Defined.

(* ================================================================== *)
(** ** Further properties: base64 and the rewriting of links *)
(* ================================================================== *)

From Stdlib Require Import ZifyNat.

Section Base64Facts.

Local Ltac div_lia := zify; Z.to_euclidean_division_equations; lia.

Lemma b64_index_digit (n : nat) :
  (n < 64)%nat -> b64_index (b64_digit n) = Some n.
Proof.
  intros Hn.
  assert (H : forallb (fun k => match b64_index (b64_digit k) with
                                | Some m => (m =? k)%nat
                                | None => false
                                end) (seq 0 64) = true) by (vm_compute; reflexivity).
  assert (Hin : In n (seq 0 64)) by (apply in_seq; lia).
  pose proof (proj1 (forallb_forall _ _) H n Hin) as Hk. cbv beta in Hk.
  destruct (b64_index (b64_digit n)) as [m|]; [|discriminate].
  f_equal. now apply Nat.eqb_eq.
Qed.

Lemma b64_digit_not_pad (n : nat) :
  (n < 64)%nat -> Ascii.eqb (b64_digit n) b64_pad = false.
Proof.
  intros Hn.
  assert (H : forallb (fun k => negb (Ascii.eqb (b64_digit k) b64_pad)) (seq 0 64) = true)
    by (vm_compute; reflexivity).
  assert (Hin : In n (seq 0 64)) by (apply in_seq; lia).
  pose proof (proj1 (forallb_forall _ _) H n Hin) as Hk. cbv beta in Hk.
  now apply negb_true_iff.
Qed.

Lemma byte_of_nat_of_ascii (a : ascii) (n : nat) :
  n = nat_of_ascii a -> byte_of n = a.
Proof. intros ->. apply ascii_nat_embedding. Qed.

(** Decoding what [b64encode] wrote gives the bytes back. *)
Lemma decode_b64encode (s : string) : _decode_b64 (b64encode s) = Ok s.
Proof.
  enough (H : forall n s, (String.length s <= n)%nat -> _decode_b64 (b64encode s) = Ok s)
    by (apply (H (String.length s)); lia).
  clear s. induction n as [|n IH]; intros s Hs.
  - destruct s; [reflexivity | cbn in Hs; lia].
  - destruct s as [|a [|b [|c r]]]; [reflexivity| | |].
    + pose proof (nat_ascii_bounded a) as Ha.
      cbn [b64encode]. cbv zeta. cbn [_decode_b64].
      rewrite !b64_index_digit by div_lia.
      change (Ascii.eqb "="%char b64_pad) with true. cbn [andb String.eqb].
      f_equal. f_equal. apply byte_of_nat_of_ascii. div_lia.
    + pose proof (nat_ascii_bounded a) as Ha. pose proof (nat_ascii_bounded b) as Hb.
      cbn [b64encode]. cbv zeta. cbn [_decode_b64].
      rewrite !b64_index_digit by div_lia.
      rewrite b64_digit_not_pad by div_lia.
      change (Ascii.eqb "="%char b64_pad) with true. cbn [String.eqb].
      f_equal. f_equal; [|f_equal]; apply byte_of_nat_of_ascii; div_lia.
    + pose proof (nat_ascii_bounded a) as Ha. pose proof (nat_ascii_bounded b) as Hb.
      pose proof (nat_ascii_bounded c) as Hc.
      cbn [b64encode]. cbv zeta. cbn [_decode_b64].
      rewrite !b64_index_digit by div_lia.
      rewrite !b64_digit_not_pad by div_lia.
      rewrite IH by (cbn [String.length] in Hs; lia). cbn [rbind].
      f_equal. f_equal; [|f_equal; [|f_equal]]; apply byte_of_nat_of_ascii; div_lia.
Qed.

End Base64Facts.

Section ReplaceFacts.

Lemma prefix_app (a b : string) : String.prefix a (a ++ b) = true.
Proof.
  induction a as [|c r IH]; cbn; [now destruct b|].
  destruct (ascii_dec c c) as [_|N]; [exact IH | now destruct N].
Qed.

(** Passing over the rest of an occurrence. *)
Lemma replace_from_skip (old new u y : string) :
  replace_from old new (u ++ y) (String.length u) = replace_from old new y 0.
Proof.
  induction u as [|c r IH]; cbn [append String.length]; [reflexivity|].
  cbn [replace_from]. exact IH.
Qed.

(** Up to the first occurrence, nothing changes. *)
Lemma replace_from_before (old new x rest : string) :
  occurs_within old x rest = false ->
  replace_from old new (x ++ rest) 0 = x ++ replace_from old new rest 0.
Proof.
  induction x as [|c r IH]; cbn [append occurs_within]; [reflexivity|].
  intros H. apply orb_false_elim in H. destruct H as [Hp Hr].
  cbn [replace_from]. cbn [append] in Hp. rewrite Hp. now rewrite (IH Hr).
Qed.

(** An occurrence is replaced, and the search resumes after it. *)
Lemma replace_from_occurrence (old new y : string) :
  old <> EmptyString ->
  replace_from old new (old ++ y) 0 = new ++ replace_from old new y 0.
Proof.
  intros Hne. destruct old as [|c o]; [now destruct Hne|].
  cbn [append replace_from].
  change (String c (o ++ y)) with (String c o ++ y). rewrite prefix_app.
  replace (String.length (String c o) - 1)%nat with (String.length o)
    by (cbn [String.length]; lia).
  now rewrite replace_from_skip.
Qed.

Lemma replace_from_absent (old new b : string) :
  occurs_within old b EmptyString = false ->
  replace_from old new b 0 = b.
Proof.
  intros H. rewrite <- (str_app_nil_r b) at 1.
  rewrite (replace_from_before old new b EmptyString H). cbn [replace_from].
  apply str_app_nil_r.
Qed.

End ReplaceFacts.

(** X13.  A link [https://github.com/a/blob/b] in which [/blob/] occurs
    only there is rewritten to [https://raw.githubusercontent.com/a/b];
    a link that does not start with [https://github.com/] is fetched as
    it is. *)
Theorem github_link_is_rewritten_to_the_raw_file (url a b : string) :
  (startswith "https://github.com/" url = false -> raw_url url = url)
  /\ (occurs_within "/blob/" ("https://raw.githubusercontent.com/" ++ a) ("/blob/" ++ b)
      = false ->
      occurs_within "/blob/" b EmptyString = false ->
      raw_url ("https://github.com/" ++ a ++ "/blob/" ++ b)
      = "https://raw.githubusercontent.com/" ++ a ++ "/" ++ b).
Proof.
  split.
  - intros H. unfold raw_url. now rewrite H.
  - intros Ha Hb. unfold raw_url.
    change (startswith "https://github.com/" ("https://github.com/" ++ a ++ "/blob/" ++ b))
      with (String.prefix "https://github.com/" ("https://github.com/" ++ (a ++ "/blob/" ++ b))).
    rewrite prefix_app.
    change (str_drop (String.length "https://github.com/")
              ("https://github.com/" ++ a ++ "/blob/" ++ b))
      with (a ++ "/blob/" ++ b).
    unfold str_replace. rewrite <- str_app_assoc.
    rewrite (replace_from_before _ _ _ _ Ha).
    rewrite replace_from_occurrence by discriminate.
    rewrite (replace_from_absent _ _ _ Hb).
    now rewrite str_app_assoc.
Qed.

Lemma github_link_is_rewritten_to_the_raw_file_witness :
  raw_url "https://example.org/nb.ipynb" = "https://example.org/nb.ipynb"
  /\ raw_url ("https://github.com/" ++ "org/repo" ++ "/blob/" ++ "main/nb.ipynb")
     = "https://raw.githubusercontent.com/" ++ "org/repo" ++ "/" ++ "main/nb.ipynb".
Proof.
  split.
  - exact (proj1 (github_link_is_rewritten_to_the_raw_file
                    "https://example.org/nb.ipynb" EmptyString EmptyString) eq_refl).
  - exact (proj2 (github_link_is_rewritten_to_the_raw_file
                    EmptyString "org/repo" "main/nb.ipynb") eq_refl eq_refl).
Defined.

(** Every [/blob/] goes, also one that belongs to the path of the file. *)
Example blob_directory_is_lost :
  raw_url "https://github.com/org/repo/blob/main/blob/nb.ipynb"
  = "https://raw.githubusercontent.com/org/repo/main/nb.ipynb".
Proof. reflexivity. Qed.

(* ================================================================== *)
(** ** Further properties: creating and importing a notebook *)
(* ================================================================== *)

Section CreateFacts.

Variable W : World.

(** X14.  [import_notebook_from_web] creates an item only when the page
    was fetched with status 200 and no listed notebook has the target
    name, whatever [overwrite] is; a fetch answered with another status
    raises the HTTP error before the notebooks are listed. *)
Theorem notebook_is_created_only_when_fetched_and_absent
    (notebook_name url : string) (description workspace : option string) (overwrite : bool) :
  (existsb is_creation
     (fst (run (import_notebook_from_web W notebook_name url description workspace overwrite)))
   = true ->
   exists resp names,
     requests_get W (raw_url url) = Ok resp
     /\ status_code resp = 200%Z
     /\ list_items W workspace "Notebook" = Ok names
     /\ existsb (String.eqb notebook_name) names = false)
  /\ (forall wn wid resp,
         resolve_workspace_name_and_id W workspace = Ok (wn, wid) ->
         requests_get W (raw_url url) = Ok resp ->
         status_code resp <> 200%Z ->
         run (import_notebook_from_web W notebook_name url description workspace overwrite)
         = ([ Resolve_workspace workspace; Requests_get (raw_url url) ],
            Raise (FabricHTTPException (status_code resp)))).
Proof.
  split.
  - unfold run, import_notebook_from_web, bind, call, lift, ret, raise.
    destruct (resolve_workspace_name_and_id W workspace) as [[wn wid]|]; [|discriminate].
    destruct (requests_get W (raw_url url)) as [resp|] eqn:Eg; [|discriminate].
    destruct (status_code resp =? 200)%Z eqn:Es; cbn [negb]; [|discriminate].
    destruct (list_items W workspace "Notebook") as [names|] eqn:El; [|discriminate].
    rewrite filter_length_zero, filter_length_pos.
    destruct (existsb (String.eqb notebook_name) names) eqn:En; cbn [negb andb].
    + destruct overwrite; discriminate.
    + intros _. exists resp, names. apply Z.eqb_eq in Es. auto.
  - intros wn wid resp Hw Hg Hs.
    unfold run, import_notebook_from_web, bind, call, lift, ret, raise.
    rewrite Hw, Hg. apply Z.eqb_neq in Hs. now rewrite Hs.
Qed.


End CreateFacts.

Lemma notebook_is_created_only_when_fetched_and_absent_witness :
  (exists resp names,
      requests_get (world [] created ["Sales report"])
        (raw_url "https://example.org/nb.ipynb") = Ok resp
      /\ status_code resp = 200%Z
      /\ list_items (world [] created ["Sales report"]) None "Notebook" = Ok names
      /\ existsb (String.eqb "Budget") names = false)
  /\ run (import_notebook_from_web refusing_world "Budget" "https://example.org/nb.ipynb"
            None None true)
     = ([ Resolve_workspace None; Requests_get "https://example.org/nb.ipynb" ],
        Raise (FabricHTTPException 404)).
Proof.
  split.
  - apply (proj1 (notebook_is_created_only_when_fetched_and_absent
                    (world [] created ["Sales report"]) "Budget"
                    "https://example.org/nb.ipynb" None None false)).
    reflexivity.
  - apply (proj2 (notebook_is_created_only_when_fetched_and_absent
                    refusing_world "Budget" "https://example.org/nb.ipynb" None None true)
                 "Sales" "ws-1" refused).
    + reflexivity.
    + reflexivity.
    + discriminate.
Defined.

(* ================================================================== *)
(** ** Further properties: reading and updating a notebook definition *)
(* ================================================================== *)

Section PartsFacts.

Lemma has_column_app (a b : list (string * option string)) (k : string) :
  has_column (a ++ b)%list k = has_column a k || has_column b k.
Proof. unfold has_column. apply existsb_app. Qed.

Lemma has_column_union (cs acc : list (string * option string)) (k : string) :
  has_column (union_columns acc cs) k = has_column acc k || has_column cs k.
Proof.
  induction cs as [|[c t] r IH] in acc |- *; cbn [union_columns].
  - cbn. now rewrite orb_false_r.
  - change (has_column ((c, t) :: r) k) with (String.eqb k c || has_column r k).
    destruct (has_column acc c) eqn:Ec.
    + rewrite IH. destruct (String.eqb_spec k c) as [->|_]; [|reflexivity].
      rewrite Ec. reflexivity.
    + rewrite IH, has_column_app. cbn [has_column existsb fst].
      rewrite orb_false_r. now rewrite orb_assoc.
Qed.

Lemma has_column_fold (ls : list (list (string * option string)))
    (acc : list (string * option string)) (k : string) :
  has_column (fold_left union_columns ls acc) k
  = has_column acc k || existsb (fun cs => has_column cs k) ls.
Proof.
  induction ls as [|cs r IH] in acc |- *; cbn [fold_left existsb].
  - now rewrite orb_false_r.
  - rewrite IH, has_column_union. now rewrite orb_assoc.
Qed.

Lemma row_has_column (d : dict) (k : string) :
  has_column (map (fun kv : string * pyval => (fst kv, @None string)) d) k
  = match dict_get d k with Some _ => true | None => false end.
Proof.
  induction d as [|[k' x] r IH]; cbn [map has_column existsb fst dict_get]; [reflexivity|].
  destruct (String.eqb k k'); [reflexivity | exact IH].
Qed.

(** The frame has a payload column when some part has a payload. *)
Lemma payload_column (l : list pyval) :
  has_column
    (fold_left union_columns
       (map (fun x => map (fun kv : string * pyval => (fst kv, @None string)) (part_row x)) l)
       []) "payload"
  = existsb has_payload l.
Proof.
  rewrite has_column_fold. cbn [has_column existsb orb].
  induction l as [|x r IH]; cbn [map existsb]; [reflexivity|].
  rewrite IH. f_equal. rewrite row_has_column.
  destruct x; reflexivity.
Qed.

Lemma other_part_is_no_content (x : pyval) :
  other_part x = true ->
  match dict_get (part_row x) "path" with
  | Some (PStr p) => startswith _notebook_prefix p
  | _ => false
  end = false.
Proof.
  unfold other_part, part_path. destruct x as [| | | |l|d]; try discriminate.
  cbn [part_row]. destruct (dict_get d "path") as [[| | |p| |]|]; try discriminate.
  intros H. now apply negb_true_iff.
Qed.

Lemma other_part_has_path (x : pyval) : other_part x = true -> has_path x = true.
Proof. unfold other_part, has_path. now destruct (part_path x). Qed.

Lemma normalize_parts (l : list pyval) :
  l <> [] ->
  forallb has_path l = true ->
  pd_json_normalize (PList l)
  = Ok {| df_columns :=
            fold_left union_columns
              (map (fun x => map (fun kv : string * pyval => (fst kv, @None string))
                                 (part_row x)) l) [];
          df_rows := map part_row l |}.
Proof.
  intros Hne H. destruct l as [|p ps]; [now destruct Hne|].
  unfold pd_json_normalize. unfold has_path in H. now rewrite H.
Qed.

(** The content rows of a part list that has other parts, then a content
    part: that part comes first. *)
Lemma content_part_is_first (pre post : list pyval) (dp : dict) (path : string) :
  forallb other_part pre = true ->
  dict_get dp "path" = Some (PStr path) ->
  startswith _notebook_prefix path = true ->
  forallb has_path post = true ->
  exists df more,
    pd_json_normalize (PList (pre ++ PDict dp :: post)) = Ok df
    /\ content_rows df = dp :: more
    /\ has_column (df_columns df) "payload" = existsb has_payload (pre ++ PDict dp :: post).
Proof.
  intros Hpre Hpath Hstart Hpost.
  assert (Hall : forallb has_path (pre ++ PDict dp :: post) = true).
  { rewrite forallb_app. cbn [forallb]. rewrite Hpost, andb_true_r.
    replace (has_path (PDict dp)) with true
      by (unfold has_path, part_path; now rewrite Hpath).
    rewrite andb_true_r. clear - Hpre.
    induction pre as [|x r IH]; cbn [forallb] in *; [reflexivity|].
    apply andb_prop in Hpre. destruct Hpre as [Hx Hr].
    now rewrite (other_part_has_path x Hx), IH. }
  rewrite normalize_parts; [|now destruct pre | exact Hall].
  eexists. eexists. split; [reflexivity|]. split.
  - unfold content_rows. cbn [df_rows]. rewrite map_app, filter_app. cbn [map part_row filter].
    rewrite Hpath, Hstart.
    replace (filter _ (map part_row pre)) with (@nil dict); [reflexivity|].
    clear - Hpre. induction pre as [|x r IH]; cbn [map filter forallb] in *; [reflexivity|].
    apply andb_prop in Hpre. destruct Hpre as [Hx Hr].
    now rewrite (other_part_is_no_content x Hx), <- IH.
  - cbn [df_columns]. apply payload_column.
Qed.

(** A part list without any content part has no content row. *)
Lemma no_content_row (l : list pyval) :
  l <> [] ->
  forallb other_part l = true ->
  exists df,
    pd_json_normalize (PList l) = Ok df
    /\ content_rows df = []
    /\ has_column (df_columns df) "payload" = existsb has_payload l.
Proof.
  intros Hne Hl.
  assert (Hall : forallb has_path l = true).
  { clear - Hl. induction l as [|x r IH]; cbn [forallb] in *; [reflexivity|].
    apply andb_prop in Hl. destruct Hl as [Hx Hr].
    now rewrite (other_part_has_path x Hx), IH. }
  rewrite (normalize_parts l Hne Hall). eexists. split; [reflexivity|]. split.
  - unfold content_rows. cbn [df_rows]. clear - Hl.
    induction l as [|x r IH]; cbn [map filter forallb] in *; [reflexivity|].
    apply andb_prop in Hl. destruct Hl as [Hx Hr].
    now rewrite (other_part_is_no_content x Hx), IH.
  - cbn [df_columns]. apply payload_column.
Qed.

End PartsFacts.

Section ExtensionFacts.

Lemma rfind_absent (c : ascii) (t : string) :
  contains_char c t = false -> rfind c t = None.
Proof.
  induction t as [|d r IH]; cbn [contains_char rfind]; [reflexivity|].
  intros H. apply orb_false_elim in H. destruct H as [Hd Hr].
  rewrite (IH Hr). now rewrite Ascii.eqb_sym, Hd.
Qed.

Lemma rfind_app_absent (c : ascii) (p t : string) :
  contains_char c t = false -> rfind c (p ++ t) = rfind c p.
Proof.
  intros H. induction p as [|d r IH]; cbn [append rfind].
  - now apply rfind_absent.
  - now rewrite IH.
Qed.

(** The extension of a content path whose type has no period and no
    slash is the type. *)
Lemma extension_of_content_path (t : string) :
  contains_char "."%char t = false ->
  contains_char "/"%char t = false ->
  str_drop 1 (snd (splitext (_notebook_prefix ++ t))) = t.
Proof.
  intros Hdot Hslash. unfold splitext.
  rewrite (rfind_app_absent _ _ _ Hdot), (rfind_app_absent _ _ _ Hslash).
  reflexivity.
Qed.

(** A path that starts with the content prefix is the prefix followed by
    something. *)
Lemma startswith_split (p s : string) :
  startswith p s = true -> exists t, s = p ++ t.
Proof.
  unfold startswith. induction p as [|c r IH] in s |- *; intros H.
  - now exists s.
  - destruct s as [|d s']; [discriminate|]. cbn in H.
    destruct (ascii_dec c d) as [->|]; [|discriminate].
    destruct (IH _ H) as [t ->]. now exists t.
Qed.

End ExtensionFacts.

Section DefinitionRunFacts.

Variable W : DefinitionWorld.

Lemma definition_base_run notebook_name workspace format wid iid parts :
  definition_answers W notebook_name workspace
    (lro_url (definition_request wid iid format)) wid iid parts ->
  forall tr,
    _get_notebook_definition_base W notebook_name workspace format tr
    = ((tr ++ [ Resolve_workspace_id workspace;
                Resolve_item_id notebook_name "Notebook" workspace;
                Base_api_lro (definition_request wid iid format) ])%list,
       pd_json_normalize parts).
Proof.
  intros (Hw & Hi & Hr) tr.
  unfold _get_notebook_definition_base, nbind, ncall, nlift. rewrite Hw, Hi.
  change {| lro_url := lro_url (definition_request wid iid format);
            lro_method := "post"; lro_payload := None;
            lro_return_json := true; lro_return_status_code := false |}
    with (definition_request wid iid format) in Hr.
  match goal with
  | |- context [_base_api_lro W ?r] =>
      change r with (definition_request wid iid format)
  end.
  rewrite Hr. cbn [py_item dict_get String.eqb Ascii.eqb Bool.eqb].
  rewrite <- !app_assoc. reflexivity.
Qed.

End DefinitionRunFacts.

Section DefinitionFacts.

Variable W : DefinitionWorld.

(** [get_notebook_definition] on parts with a content part. *)
Lemma get_notebook_definition_run
    (notebook_name : string) (workspace : option string) (decode : bool)
    (format : option string) (wid iid : string)
    (pre post : list pyval) (dp : dict) (path payload : string) :
  definition_answers W notebook_name workspace
    (lro_url (definition_request wid iid format)) wid iid
    (PList (pre ++ PDict dp :: post)) ->
  forallb other_part pre = true ->
  dict_get dp "path" = Some (PStr path) ->
  startswith _notebook_prefix path = true ->
  dict_get dp "payload" = Some (PStr payload) ->
  forallb has_path post = true ->
  nrun (get_notebook_definition W notebook_name workspace decode format)
  = ([ Resolve_workspace_id workspace;
       Resolve_item_id notebook_name "Notebook" workspace;
       Base_api_lro (definition_request wid iid format) ],
     if decode then _decode_b64 payload else Ok payload).
Proof.
  intros Ha Hpre Hpath Hstart Hpayload Hpost.
  destruct (content_part_is_first pre post dp path Hpre Hpath Hstart Hpost)
    as (df & more & Hn & Hrows & Hcol).
  unfold nrun, get_notebook_definition, nbind, nlift, nret.
  rewrite (definition_base_run W _ _ _ _ _ _ Ha), Hn. cbn [app].
  unfold first_payload. rewrite Hcol, Hrows, existsb_app. cbn [existsb has_payload].
  rewrite Hpayload. cbn [orb]. rewrite orb_true_r.
  destruct decode; reflexivity.
Qed.

(** X16.  When the identifiers resolve and the definition is answered
    with parts that all have a string path, [get_notebook_definition]
    returns the payload of the first part whose path starts with
    [notebook-content.], as it is with [decode=False] and base64-decoded
    with [decode=True]; it asks for [?format=ipynb] exactly when
    [format] is [ipynb]. *)
Theorem definition_is_the_first_content_payload
    (notebook_name : string) (workspace : option string) (decode : bool)
    (format : option string) (wid iid : string)
    (pre post : list pyval) (dp : dict) (path payload : string) :
  definition_answers W notebook_name workspace
    (lro_url (definition_request wid iid format)) wid iid
    (PList (pre ++ PDict dp :: post)) ->
  forallb other_part pre = true ->
  dict_get dp "path" = Some (PStr path) ->
  startswith _notebook_prefix path = true ->
  dict_get dp "payload" = Some (PStr payload) ->
  forallb has_path post = true ->
  nrun (get_notebook_definition W notebook_name workspace decode format)
  = ([ Resolve_workspace_id workspace;
       Resolve_item_id notebook_name "Notebook" workspace;
       Base_api_lro (definition_request wid iid format) ],
     if decode then _decode_b64 payload else Ok payload).
Proof.
  intros Ha Hpre Hpath Hstart Hpayload Hpost.
  now apply get_notebook_definition_run with (pre := pre) (post := post) (dp := dp)
                                             (path := path).
Qed.

(** X17.  Round trip: when the service answers with the one part
    [create_notebook] sends for content [c] and type [t],
    [get_notebook_definition] returns [c] with [decode=True] and the
    base64 text with [decode=False], and, for a type without period or
    slash, [_get_notebook_type] returns [t]. *)
Theorem created_notebook_reads_back
    (notebook_name : string) (workspace : option string) (wid iid t c : string) :
  definition_answers W notebook_name workspace (definition_url wid iid) wid iid
    (PList [content_part t (b64encode c)]) ->
  contains_char "."%char t = false ->
  contains_char "/"%char t = false ->
  snd (nrun (get_notebook_definition W notebook_name workspace true None)) = Ok c
  /\ snd (nrun (get_notebook_definition W notebook_name workspace false None))
     = Ok (b64encode c)
  /\ snd (nrun (_get_notebook_type W notebook_name workspace)) = Ok t.
Proof.
  intros Ha Hdot Hslash.
  assert (Hp : forall decode,
             nrun (get_notebook_definition W notebook_name workspace decode None)
             = ([ Resolve_workspace_id workspace;
                  Resolve_item_id notebook_name "Notebook" workspace;
                  Base_api_lro (definition_request wid iid None) ],
                if decode then _decode_b64 (b64encode c) else Ok (b64encode c))).
  { intros decode.
    apply (get_notebook_definition_run notebook_name workspace decode None
             wid iid [] [] _ (_notebook_prefix ++ t) (b64encode c) Ha);
      try reflexivity.
    apply prefix_app. }
  split; [|split].
  - rewrite Hp. cbn [snd]. apply decode_b64encode.
  - now rewrite Hp.
  - destruct (content_part_is_first [] [] _ (_notebook_prefix ++ t) eq_refl
                (eq_refl : dict_get [ ("path", PStr (_notebook_prefix ++ t));
                                      ("payload", PStr (b64encode c));
                                      ("payloadType", PStr "InlineBase64") ] "path"
                           = Some (PStr (_notebook_prefix ++ t)))
                (prefix_app _ _) eq_refl)
      as (df & more & Hn & Hrows & _).
    unfold nrun, _get_notebook_type, nbind, nlift, nret.
    rewrite (definition_base_run W _ _ None _ _ _ Ha).
    cbn [app] in Hn. unfold _notebook_prefix in Hn. unfold content_part.
    rewrite Hn, Hrows.
    unfold first_path.
    cbn [dict_get String.eqb Ascii.eqb Bool.eqb snd].
    f_equal. now apply extension_of_content_path.
Qed.


(** X19.  When no part of the stored definition is a content part,
    [get_notebook_definition] (some part having a payload) and
    [update_notebook_definition] raise [IndexError]; the update has then
    sent nothing but the request that reads the definition. *)
Theorem missing_content_part_raises_index_error
    (name notebook_content : string) (workspace format : option string) (decode : bool)
    (wn wid' wid iid : string) (parts : list pyval) :
  resolve_workspace_name_and_id (shared W) workspace = Ok (wn, wid') ->
  definition_answers W name workspace (definition_url wid iid) wid iid (PList parts) ->
  parts <> [] ->
  forallb other_part parts = true ->
  existsb has_payload parts = true ->
  snd (nrun (get_notebook_definition W name workspace decode None)) = Raise IndexError
  /\ nrun (update_notebook_definition W name notebook_content workspace format)
     = ([ Shared (Resolve_workspace workspace);
          Resolve_item_id name "Notebook" workspace;
          Resolve_workspace_id workspace;
          Resolve_item_id name "Notebook" workspace;
          Base_api_lro (definition_request wid iid None) ],
        Raise IndexError).
Proof.
  intros Hw Ha Hne Hother Hpay.
  destruct (no_content_row parts Hne Hother) as (df & Hn & Hrows & Hcol).
  pose proof Ha as (_ & Hi & _). split.
  - unfold nrun, get_notebook_definition, nbind, nlift, nret.
    rewrite (definition_base_run W _ _ None _ _ _ Ha), Hn.
    unfold first_payload. now rewrite Hcol, Hpay, Hrows.
  - unfold nrun, update_notebook_definition, _get_notebook_type, nbind, ncall, nlift, nret.
    rewrite Hw, Hi. cbn [app].
    rewrite (definition_base_run W _ _ None _ _ _ Ha), Hn. cbn [app].
    unfold first_path. now rewrite Hrows.
Qed.

End DefinitionFacts.

Lemma definition_is_the_first_content_payload_witness :
  nrun (get_notebook_definition
          (definition_world (PList [platform_part; content_part "py" "aGVsbG8="]))
          "nb" None true (Some "ipynb"))
  = ([ Resolve_workspace_id None;
       Resolve_item_id "nb" "Notebook" None;
       Base_api_lro (definition_request "ws-1" "nb-1" (Some "ipynb")) ],
     Ok "hello").
Proof.
  apply (definition_is_the_first_content_payload
           (definition_world (PList [platform_part; content_part "py" "aGVsbG8="]))
           "nb" None true (Some "ipynb") "ws-1" "nb-1" [platform_part] []
           [ ("path", PStr "notebook-content.py"); ("payload", PStr "aGVsbG8=");
             ("payloadType", PStr "InlineBase64") ]
           "notebook-content.py" "aGVsbG8=");
    try reflexivity.
  repeat split; reflexivity.
Defined.

Lemma created_notebook_reads_back_witness :
  snd (nrun (get_notebook_definition
               (definition_world (PList [content_part "py" (b64encode "print(1)")]))
               "nb" None true None)) = Ok "print(1)"
  /\ snd (nrun (get_notebook_definition
                  (definition_world (PList [content_part "py" (b64encode "print(1)")]))
                  "nb" None false None)) = Ok (b64encode "print(1)")
  /\ snd (nrun (_get_notebook_type
                  (definition_world (PList [content_part "py" (b64encode "print(1)")]))
                  "nb" None)) = Ok "py".
Proof.
  apply (created_notebook_reads_back
           (definition_world (PList [content_part "py" (b64encode "print(1)")]))
           "nb" None "ws-1" "nb-1" "py" "print(1)");
    try reflexivity.
  repeat split; reflexivity.
Defined.


Lemma missing_content_part_raises_index_error_witness :
  snd (nrun (get_notebook_definition (definition_world (PList [platform_part]))
               "nb" None true None)) = Raise IndexError
  /\ nrun (update_notebook_definition (definition_world (PList [platform_part]))
             "nb" "hello" None None)
     = ([ Shared (Resolve_workspace None);
          Resolve_item_id "nb" "Notebook" None;
          Resolve_workspace_id None;
          Resolve_item_id "nb" "Notebook" None;
          Base_api_lro (definition_request "ws-1" "nb-1" None) ],
        Raise IndexError).
Proof.
  apply (missing_content_part_raises_index_error
           (definition_world (PList [platform_part]))
           "nb" "hello" None None true "Sales" "ws-1" "ws-1" "nb-1" [platform_part]);
    try reflexivity.
  - repeat split; reflexivity.
  - discriminate.
Defined.
